(** * DWSim-Agent: the design / simulate / evaluate loop, its scorer and its
      evaluators

    A shallow embedding of
      - [src/agent/process_designer.py]   (class [ProcessDesignerAgent]),
      - [src/evaluation/constraint_checker.py] (class [ConstraintChecker]),
      - [src/evaluation/results_analyzer.py]   (class [ResultsAnalyzer]),
      - [src/dwsim/simulator.py], [src/dwsim/model_converter.py] and
        [src/dwsim/property_packages.py],
      - [src/utils/data_handler.py] and [main.py],
    followed by the properties of the specification that concern them.

    Conventions of the embedding.
      - Where an answer of the code depends on how floats round, the floats
        are IEEE binary64 values ([Float64], on [SpecFloat] of the standard
        library): the mass-balance check of [ConstraintChecker], the
        comparison with the targets of [ResultsAnalyzer], and the float
        version of the design score.  Elsewhere a Python [float] is an
        exact rational ([Q]) and the statements say so; numeric results
        are then compared with [==], and [min], [max] and [abs] are [Qmin],
        [Qmax] and [Qabs], which pick the same argument as Python does on
        ties.
      - A dict with a fixed set of keys is a record whose fields are
        [option]s, [None] for an absent key: [d.get(k, dflt)] is
        [default dflt (k d)] and [d[k]] is [subscript], which raises
        [KeyError].  A dict looked up by a computed key is a
        [gmap string _]; a dict that is iterated ([.items()]) is an
        association list in insertion order.
      - A call that can raise returns a [result]; the loop of
        [ProcessDesignerAgent.run] threads the agent object explicitly, and
        the object survives an exception.
      - An f-string is kept as a list of fragments ([text]), so that no
        claim depends on how a float is printed. *)

From Stdlib Require Import QArith Qabs Qminmax Lqa Lia DecimalString.
From Stdlib Require SpecFloat.
From stdpp Require Import base option list strings gmap.

Open Scope Q_scope.

(** ** Python values shared by all modules *)

(** The exception classes that the modelled code raises or lets through.
    All of them derive from [Exception]. *)
Inductive exn_class : Set :=
| TypeError
| KeyError
| NameError
| AttributeError
| FileNotFoundError
| RuntimeError
| OSError
| OtherException.

Record exn : Set := mk_exn {
  exn_cls : exn_class;
  exn_msg : string
}.

Inductive result (A : Type) : Type :=
| Ok (a : A)
| Raise (e : exn).

Arguments Ok {A} a.
Arguments Raise {A} e.

Definition rbind {A B : Type} (r : result A) (k : A -> result B) : result B :=
  match r with
  | Ok a => k a
  | Raise e => Raise e
  end.

Notation "'try!' x := r 'in' k" := (rbind r (fun x => k))
  (at level 10, x name, r at level 100, k at level 200).

(** [x < y] on floats. *)
Definition Qltb (x y : Q) : bool := negb (Qle_bool y x).

(** Python's [float] as it is: IEEE 754 binary64, every operation rounded
    to nearest, ties to even.  The two checks of [src/evaluation] compare a
    computed difference with a small constant, where rounding decides the
    answer; they are modelled with these floats. *)
Module Float64.

Definition t : Set := SpecFloat.spec_float.

Definition prec : Z := 53.
Definition emax : Z := 1024.

(** [float(z)] for an [int] *)
Definition of_int (z : Z) : t := SpecFloat.binary_normalize prec emax z 0 false.

Definition sub : t -> t -> t := SpecFloat.SFsub prec emax.
Definition mul : t -> t -> t := SpecFloat.SFmul prec emax.
Definition div : t -> t -> t := SpecFloat.SFdiv prec emax.

(** [abs(x)], [x < y] and [x > y]; a comparison with [nan] is false. *)
Definition abs : t -> t := SpecFloat.SFabs.
Definition lt : t -> t -> bool := SpecFloat.SFltb.
Definition gt (x y : t) : bool := SpecFloat.SFltb y x.

(** [0.0] *)
Definition zero : t := SpecFloat.S754_zero false.

(** [min(x, y)] and [max(x, y)]: the first argument, unless the second
    is smaller (larger). *)
Definition min (x y : t) : t := if lt y x then y else x.
Definition max (x y : t) : t := if gt y x then y else x.

(** The float that Python (and [json.load]) reads from the decimal
    literal whose value is [n/d], for [n] and [d] that are floats
    themselves (below 2^53): the quotient of two floats is rounded once,
    as the literal is. *)
Definition decimal (n : Z) (d : positive) : t := div (of_int n) (of_int (Zpos d)).

Definition of_Q (q : Q) : t := decimal (Qnum q) (Qden q).

(** The rational that a float stands for, in lowest terms; none for an
    infinity or [nan]. *)
Definition to_Q (x : t) : option Q :=
  match x with
  | SpecFloat.S754_zero _ => Some 0
  | SpecFloat.S754_finite s m e =>
      let v :=
        match e with
        | Z0 => inject_Z (Zpos m)
        | Zpos p => inject_Z (Zpos m * 2 ^ Zpos p)
        | Zneg p => Qmake (Zpos m) (2 ^ p)
        end in
      Some (Qred (if s then - v else v))
  | _ => None
  end.

End Float64.

(** [d[k]] where the key [k] of [d] is the optional field [field]. *)
Definition subscript {V : Type} (k : string) (field : option V) : result V :=
  match field with
  | Some v => Ok v
  | None => Raise (mk_exn KeyError k)
  end.

(** A statement that raises [e] when [o] is [Some e] and passes otherwise. *)
Definition may_raise (o : option exn) : result unit :=
  match o with
  | Some e => Raise e
  | None => Ok tt
  end.

(** [obj.name] for a method: the classes modelled here define their
    methods in the class body only, so a name that is not among them raises
    [AttributeError]. *)
Definition lookup_method (class_name : string) (methods : list string)
    (name : string) : result unit :=
  if bool_decide (name ∈ methods) then Ok tt
  else Raise (mk_exn AttributeError
                ("'" +:+ class_name +:+ "' object has no attribute '" +:+ name +:+ "'")).

(** [s.lower()].  Only ASCII letters are mapped; the strings that the
    modelled code compares a lowered string with are ASCII and contain no
    [k] and no [i] followed by a combining dot, the only ASCII that
    [str.lower] produces from a non-ASCII character, so every comparison is
    decided as in Python. *)
Definition lower_ascii (c : Ascii.ascii) : Ascii.ascii :=
  let n := Ascii.nat_of_ascii c in
  if ((65 <=? n) && (n <=? 90))%nat then Ascii.ascii_of_nat (n + 32) else c.

Fixpoint lower (s : string) : string :=
  match s with
  | EmptyString => EmptyString
  | String c rest => String (lower_ascii c) (lower rest)
  end.

(** [d[k] = v] on a dict kept in insertion order: a key that is present
    keeps its place and takes the new value. *)
Fixpoint dict_set {V : Type} (k : string) (v : V) (d : list (string * V))
  : list (string * V) :=
  match d with
  | [] => [(k, v)]
  | (k', v') :: rest =>
      if String.eqb k' k then (k', v) :: rest else (k', v') :: dict_set k v rest
  end.

(** [k in d] and [d.get(k)] on such a dict. *)
Fixpoint dict_get {V : Type} (k : string) (d : list (string * V)) : option V :=
  match d with
  | [] => None
  | (k', v') :: rest => if String.eqb k' k then Some v' else dict_get k rest
  end.

(** [str(n)] for an [int]. *)
Definition str_int (z : Z) : string := NilZero.string_of_int (Z.to_int z).

(** A fragment of an f-string: literal text, an interpolated number or an
    interpolated string. *)
Inductive frag : Set :=
| Lit (s : string)
| Int (z : Z)
| Num (q : Q)
| Str (s : string).

Definition text : Set := list frag.

Set Warnings "-register-all".

(** A value read by [json.load]. *)
Inductive json : Set :=
| JNull
| JBool (b : bool)
| JInt (z : Z)
| JNum (q : Q)
| JStr (s : string)
| JList (items : list json)
| JDict (entries : list (string * json)).

(** [type(v).__name__] *)
Definition type_name (v : json) : string :=
  match v with
  | JNull => "NoneType"
  | JBool _ => "bool"
  | JInt _ => "int"
  | JNum _ => "float"
  | JStr _ => "str"
  | JList _ => "list"
  | JDict _ => "dict"
  end.

(** A call with keyword arguments only of a constructor whose [__init__]
    has the parameters [params] besides [self], none of them with a default
    and no catch-all for keywords: Python raises [TypeError] at the first keyword that
    is not a parameter, then for a parameter left without a value. *)
Definition bind_kwargs {V : Type}
    (fname : string) (params : list string) (kwargs : list (string * V))
  : result (list (string * V)) :=
  match List.find (fun kv => negb (bool_decide (kv.1 ∈ params))) kwargs with
  | Some kv =>
      Raise (mk_exn TypeError
               (fname +:+ " got an unexpected keyword argument '" +:+ kv.1 +:+ "'"))
  | None =>
      match List.find (fun p => negb (bool_decide (p ∈ kwargs.*1))) params with
      | Some p =>
          Raise (mk_exn TypeError
                   (fname +:+ " missing 1 required positional argument: '" +:+ p +:+ "'"))
      | None => Ok kwargs
      end
  end.

(** ** The evaluation dicts read by the controller *)

(** [constraint_results]: the keys that [_generate_feedback],
    [_calculate_design_score] and [_generate_final_report] read with
    [.get]. *)
Record constraint_results : Set := {
  mass_balance_satisfied : option bool;
  mass_balance_error : option Q;
  energy_balance_satisfied : option bool;
  energy_balance_error : option Q
}.

(** One entry of [product_evaluation["products"]], as the final report reads
    it. *)
Record product_data : Set := {
  target_production_rate : option Q;
  actual_production_rate : option Q;
  target_purity : option Q;
  actual_purity : option Q;
  target_yield : option Q;
  actual_yield : option Q;
  specifications_met : option bool
}.

(** [product_evaluation]: [issues] maps a product name to a dict from issue
    type to details, [product_scores] maps a product name to its score; both
    are iterated with [.items()]. *)
Record product_evaluation : Set := {
  all_specifications_met : option bool;
  issues : option (list (string * list (string * string)));
  product_scores : option (list (string * Q));
  products : option (list (string * product_data))
}.

(** ** [src/evaluation/constraint_checker.py] *)

Module ConstraintChecker.

(** A stream entry of [process_design["feeds"]] or ["products"]. *)
Record stream : Set := {
  mass_flow : option Float64.t
}.

(** The keys of a process design that [check_mass_balance] reads. *)
Record process_design : Set := {
  feeds : option (list stream);
  products : option (list stream)
}.

(** [ConstraintChecker(...)] keeps no attribute. *)
Record t : Set := mk {}.

(** [def __init__(self)]: no parameter besides [self]. *)
Definition __init___params : list string := [].

Definition __init__ {V : Type} (kwargs : list (string * V)) : result t :=
  try! _ := bind_kwargs "ConstraintChecker.__init__()" __init___params kwargs in
  Ok mk.





(** The methods the class defines; [run] asks it for
    [check_constraints]. *)
Definition methods : list string :=
  ["check_mass_balance"; "check_stream_connections"; "check_parameters"]%string.

(** An entry of [process_design["unit_operations"]], with the keys that
    the two checks below read. *)
Record unit_operation : Set := {
  unit_id : option string;
  unit_type : option string;
  volume : option Q;
  num_trays : option Q
}.

(** An entry of [process_design["connections"]]. *)
Record connection : Set := {
  conn_from : option string;
  conn_to : option string
}.

Record flowsheet : Set := {
  unit_operations : option (list unit_operation);
  connections : option (list connection)
}.

(** [units = {unit["id"]: unit for unit in ...}] *)
Fixpoint units_by_id (units : list unit_operation)
    (acc : list (string * unit_operation)) : result (list (string * unit_operation)) :=
  match units with
  | [] => Ok acc
  | unit :: rest =>
      try! id := subscript "id" (unit_id unit) in
      units_by_id rest (dict_set id unit acc)
  end.

(** [[c for c in connections if c.get("to") == unit_id]] *)
Definition inlets_of (connections : list connection) (id : string) : list connection :=
  List.filter (fun c => bool_decide (conn_to c = Some id)) connections.

Definition outlets_of (connections : list connection) (id : string) : list connection :=
  List.filter (fun c => bool_decide (conn_from c = Some id)) connections.

(** [not l] for a list *)
Definition empty {A : Type} (l : list A) : bool :=
  match l with
  | [] => true
  | _ :: _ => false
  end.

(** The body of the loop over [units.items()]: [true] when it executes
    [return False]. *)
Definition connection_missing (connections : list connection)
    (id : string) (unit : unit_operation) : bool :=
  let unit_type := lower (default ""%string (unit_type unit)) in
  let inlets := inlets_of connections id in
  let outlets := outlets_of connections id in
  if bool_decide (unit_type ∈ ["reactor"; "distillation_column"; "heat_exchanger"]%string)
  then empty inlets || empty outlets
  else if String.eqb unit_type "pump"
       then empty inlets || negb (length outlets =? 1)%nat
       else false.

Fixpoint check_connections_loop (connections : list connection)
    (units : list (string * unit_operation)) : bool :=
  match units with
  | [] => true
  | (id, unit) :: rest =>
      if connection_missing connections id unit then false
      else check_connections_loop connections rest
  end.

Definition check_stream_connections (d : flowsheet) : result bool :=
  try! units := units_by_id (default [] (unit_operations d)) [] in
  let connections := default [] (connections d) in
  Ok (check_connections_loop connections units).

(** The condition under which the loop of [check_parameters] executes
    [return False] at a unit. *)
Definition parameter_invalid (unit : unit_operation) : bool :=
  let unit_type := lower (default ""%string (unit_type unit)) in
  if String.eqb unit_type "reactor" && Qle_bool (default 0 (volume unit)) 0
  then true
  else String.eqb unit_type "distillation_column"
       && Qle_bool (default 0 (num_trays unit)) 0.

Fixpoint check_parameters_loop (units : list unit_operation) : bool :=
  match units with
  | [] => true
  | unit :: rest =>
      if parameter_invalid unit then false else check_parameters_loop rest
  end.

Definition check_parameters (d : flowsheet) : bool :=
  check_parameters_loop (default [] (unit_operations d)).

End ConstraintChecker.

(** ** The host on which the agent is constructed *)

(** What [subprocess.run(["mono", "--version"])] does. *)
Inductive mono_probe : Set :=
| MonoNotFound
| MonoExit (returncode : Z).

(** The answers of the operating system and of the OpenAI client library
    to the calls made while the agent is constructed. *)
Record host : Type := {
  timestamp : string;
  makedirs : option exn;
  openai_client : option exn;
  is_linux : bool;
  path_exists : string -> bool;
  mono : mono_probe
}.

(** ** [src/agent/model_manager.py] *)

Module OpenAIModelManager.

Record t : Set := mk {
  model : string;
  temperature : Q;
  system_message : string
}.

(** [try: self.client = OpenAI(...) except Exception as e: log; raise] *)
Definition __init__ (h : host)
    (model api_key organization : string) (temperature : Q)
    (system_message : string) : result t :=
  try! _ := may_raise (openai_client h) in
  Ok (mk model temperature system_message).

End OpenAIModelManager.

(** ** [src/dwsim/simulator.py] *)

Module DWSIMSimulator.

Record t : Set := mk {
  dwsim_path : string;
  property_package : string;
  calculation_mode : string;
  timeout : Z
}.

Definition _validate_dwsim_installation (h : host) (dwsim_path : string)
  : result unit :=
  if is_linux h then
    if negb (path_exists h dwsim_path) then
      Raise (mk_exn FileNotFoundError
               ("DWSIM installation not found at: " +:+ dwsim_path))
    else
      match mono h with
      | MonoNotFound =>
          Raise (mk_exn RuntimeError
                   "Mono runtime not found. Please install mono-complete.")
      | MonoExit returncode =>
          if negb (returncode =? 0)%Z then
            Raise (mk_exn RuntimeError
                     "Mono runtime not found. Please install mono-complete.")
          else Ok tt
      end
  else
    let dwsim_exe := dwsim_path +:+ "/DWSIM.exe" in
    if negb (path_exists h dwsim_exe) then
      Raise (mk_exn FileNotFoundError
               ("DWSIM executable not found at: " +:+ dwsim_exe))
    else Ok tt.

Definition __init__ (h : host)
    (dwsim_path property_package calculation_mode : string) (timeout : Z)
  : result t :=
  try! _ := _validate_dwsim_installation h dwsim_path in
  Ok (mk dwsim_path property_package calculation_mode timeout).

(** The mass-balance fragment of the automation script
    ([_get_dwsim_automation_script]). *)

(** [mass_balance_error = 100.0
     if total_input_mass > 0:
         mass_balance_error = abs(in - out) / in * 100.0] *)
Definition mass_balance_error (total_input_mass total_output_mass : Q) : Q :=
  if Qltb 0 total_input_mass
  then Qabs (total_input_mass - total_output_mass) / total_input_mass * 100
  else 100.

(** *** The results that the automation script writes *)

(** An entry of [results["streams"]]: the tags of the objects attached
    to the stream, ["none"] where nothing is attached, and its mass
    flow. *)
Record script_stream : Set := {
  stream_from : string;
  stream_to : string;
  total_flow : Q
}.

(** The parameters of an entry of [results["unit_operations"]] that the
    energy balance reads. *)
Record script_unit : Set := {
  heating_demand : option Q;
  cooling_demand : option Q
}.

(** The loop over [results["streams"].items()]: the accumulator is
    [(total_input_mass, total_output_mass)]. *)
Definition mass_totals (streams : list (string * script_stream)) : Q * Q :=
  fold_left
    (fun totals '(_, stream_data) =>
       if String.eqb (stream_from stream_data) "none"
       then (totals.1 + total_flow stream_data, totals.2)
       else if String.eqb (stream_to stream_data) "none"
            then (totals.1, totals.2 + total_flow stream_data)
            else totals)
    streams (0, 0).

Record mass_balance_t : Set := {
  total_input_mass : Q;
  total_output_mass : Q;
  error_percent : Q
}.

Definition script_mass_balance (streams : list (string * script_stream))
  : mass_balance_t :=
  let totals := mass_totals streams in
  {| total_input_mass := totals.1;
     total_output_mass := totals.2;
     error_percent := mass_balance_error totals.1 totals.2 |}.

(** The loop over [results["unit_operations"].items()]: the accumulator
    is [(total_energy_in, total_energy_out)]. *)
Definition script_energy_balance (units : list (string * script_unit)) : Q * Q :=
  fold_left
    (fun totals '(_, unit_data) =>
       let totals :=
         match heating_demand unit_data with
         | Some q => (totals.1 + q, totals.2)
         | None => totals
         end in
       match cooling_demand unit_data with
       | Some q => (totals.1, totals.2 + q)
       | None => totals
       end)
    units (0, 0).

(** What [json.load] makes of the results file.  The script dumps the
    results of a converged simulation, or an error with its message; a
    file that the script did not write can hold any JSON value. *)
Inductive payload : Set :=
| Success (streams : list (string * script_stream))
          (units : list (string * script_unit))
          (mass_balance : mass_balance_t) (energy_balance : Q * Q)
| Error (message : string)
| Loaded (value : json).

(** [results.get("status") == "error"] and what
    [f"{results.get('message')}"] prints, on a dict that is given by its
    entries.  The message of an error document is taken to be a string, as
    the script writes it, or to be absent. *)
Definition is_error (d : list (string * json)) : bool :=
  match dict_get "status" d with
  | Some (JStr status) => String.eqb status "error"
  | _ => false
  end.

Definition message_of (d : list (string * json)) : string :=
  match dict_get "message" d with
  | Some (JStr message) => message
  | _ => "None"
  end.

(** What DWSIM does inside the script: an exception before or during
    the calculation, a calculation that does not converge, or a converged
    flowsheet. *)
Inductive dwsim_run : Set :=
| Crashed (e : exn)
| NotConverged
| Converged (streams : list (string * script_stream))
            (units : list (string * script_unit)).

(** The script: the results file that it leaves, if any.  [writable]
    tells whether the results file can be written; a failed write of the
    results leads to the [except] branch, whose own write fails too. *)
Definition automation_script (run : dwsim_run) (writable : bool) : option payload :=
  if writable then
    match run with
    | Crashed e => Some (Error (exn_msg e))
    | NotConverged => Some (Error "Simulation failed to converge.")
    | Converged streams units =>
        Some (Success streams units (script_mass_balance streams)
                (script_energy_balance units))
    end
  else None.

(** *** [run_simulation] *)

(** How the DWSIM process ends within [communicate(timeout=...)]. *)
Inductive process_end : Set :=
| TimedOut
| Exited (returncode : Z).

(** The answers of the operating system during [run_simulation]:
    whether preparing the results directory and the script raises, whether
    [Popen] raises, how the process ends, and what [json.load] makes of
    the results file ([None] when the file does not exist). *)
Record simulation_host : Set := {
  prepare : option exn;
  launch : option exn;
  process : process_end;
  results_file : option (result payload)
}.

(** The call ends with [outcome]; [killed] tells whether
    [process.kill()] was called. *)
Record simulation_call : Set := {
  outcome : result payload;
  killed : bool
}.

Definition run_simulation (self : t) (h : simulation_host) : simulation_call :=
  match prepare h with
  | Some e => {| outcome := Raise e; killed := false |}
  | None =>
      match launch h with
      | Some e => {| outcome := Raise e; killed := false |}
      | None =>
          match process h with
          | TimedOut =>
              {| outcome :=
                   Raise (mk_exn RuntimeError
                            ("DWSIM simulation timed out after "
                               +:+ str_int (timeout self) +:+ " seconds"));
                 killed := true |}
          | Exited returncode =>
              if negb (returncode =? 0)%Z then
                {| outcome :=
                     Raise (mk_exn RuntimeError
                              ("DWSIM simulation failed with exit code "
                                 +:+ str_int returncode));
                   killed := false |}
              else
                match results_file h with
                | Some (Ok (Error message)) =>
                    {| outcome :=
                         Raise (mk_exn RuntimeError
                                  ("DWSIM simulation error: " +:+ message));
                       killed := false |}
                | Some (Ok (Loaded (JDict d))) =>
                    if is_error d then
                      {| outcome :=
                           Raise (mk_exn RuntimeError
                                    ("DWSIM simulation error: " +:+ message_of d));
                         killed := false |}
                    else {| outcome := Ok (Loaded (JDict d)); killed := false |}
                | Some (Ok (Loaded value)) =>
                    (* results.get *)
                    {| outcome :=
                         Raise (mk_exn AttributeError
                                  ("'" +:+ type_name value
                                     +:+ "' object has no attribute 'get'"));
                       killed := false |}
                | Some (Ok results) => {| outcome := Ok results; killed := false |}
                | Some (Raise e) => {| outcome := Raise e; killed := false |}
                | None =>
                    {| outcome :=
                         Raise (mk_exn RuntimeError "Simulation results file not found");
                       killed := false |}
                end
          end
      end
  end.

End DWSIMSimulator.

(** ** [src/evaluation/results_analyzer.py] *)

Module ResultsAnalyzer.

(** The dict returned by [analyze_simulation_results]:
    [product_compositions] maps a stream id to a dict from compound name to
    mole fraction. *)
Record results : Type := {
  product_compositions : option (gmap string (gmap string Float64.t));
  total_energy_use : option Float64.t
}.

(** The [targets] dict; its [product_compositions] is iterated. *)
Record targets : Type := {
  target_product_compositions : option (list (string * list (string * Float64.t)))
}.

Record t : Set := mk {}.

(** [def __init__(self)]: no parameter besides [self]. *)
Definition __init___params : list string := [].

Definition __init__ {V : Type} (kwargs : list (string * V)) : result t :=
  try! _ := bind_kwargs "ResultsAnalyzer.__init__()" __init___params kwargs in
  Ok mk.

(** Evaluating a name that is expected to hold a [bool].  The module binds
    [ET], [Dict], [Any] and [ResultsAnalyzer]; of the builtins only [True]
    and [False] matter here; every other name is unbound. *)
Definition load_name (n : string) : result bool :=
  if String.eqb n "True" then Ok true
  else if String.eqb n "False" then Ok false
  else Raise (mk_exn NameError ("name '" +:+ n +:+ "' is not defined")).

(** The inner [for comp_name, target_value in target_comp.items()]:
    [Some b] when the loop executed [return b], [None] when it ran to its
    end. *)
Fixpoint compare_components
    (actual_comp : gmap string Float64.t) (target_comp : list (string * Float64.t))
  : option bool :=
  match target_comp with
  | [] => None
  | (comp_name, target_value) :: rest =>
      let actual_value := default Float64.zero (actual_comp !! comp_name) in
      if Float64.gt (Float64.abs (Float64.sub actual_value target_value))
           (Float64.decimal 1 100)
      then Some false
      else compare_components actual_comp rest
  end.

(** The outer [for stream_id, target_comp in ....items()]. *)
Fixpoint compare_streams
    (r : results) (ts : list (string * list (string * Float64.t)))
  : result (option bool) :=
  match ts with
  | [] => Ok None
  | (stream_id, target_comp) :: rest =>
      try! compositions := subscript "product_compositions" (product_compositions r) in
      let actual_comp := default ∅ (compositions !! stream_id) in
      match compare_components actual_comp target_comp with
      | Some b => Ok (Some b)
      | None => compare_streams r rest
      end
  end.

Definition compare_to_targets (r : results) (t : targets) : result bool :=
  try! returned := compare_streams r (default [] (target_product_compositions t)) in
  match returned with
  | Some b => Ok b
  | None => load_name "Truex"
  end.

(** The methods the class defines; [run] asks it for [analyze_results]. *)
Definition methods : list string :=
  ["analyze_simulation_results"; "compare_to_targets"]%string.

End ResultsAnalyzer.

(** ** [src/utils/data_handler.py] *)

Module DataHandler.

(** A fragment of the message of a [ValueError]: literal text, an index
    or an interpolated value. *)
Inductive vfrag : Set :=
| VLit (s : string)
| VIndex (i : nat)
| VValue (v : json).

(** A validation passes or raises [ValueError(message)]. *)
Inductive validation : Set :=
| Valid
| Invalid (message : list vfrag).

(** The inner [for key in required_keys: if key not in entry: raise]:
    the first required key that the entry lacks. *)
Fixpoint first_missing (required_keys : list string) (entry : list (string * json))
  : option string :=
  match required_keys with
  | [] => None
  | key :: rest =>
      match dict_get key entry with
      | None => Some key
      | Some _ => first_missing rest entry
      end
  end.

(** The loop [for i, entry in enumerate(...)] of both validators, which
    differ in the word that names an entry and in the required keys. *)
Fixpoint validate_entries (what : string) (required_keys : list string)
    (i : nat) (items : list json) : validation :=
  match items with
  | [] => Valid
  | JDict entry :: rest =>
      match first_missing required_keys entry with
      | Some key =>
          Invalid [VLit what; VLit " "; VIndex i; VLit " (";
                   VValue (default (JStr "unnamed") (dict_get "name" entry));
                   VLit ") is missing required key '"; VLit key; VLit "'"]
      | None => validate_entries what required_keys (S i) rest
      end
  | _ :: _ => Invalid [VLit what; VLit " "; VIndex i; VLit " must be a dictionary"]
  end.

Definition material_keys : list string :=
  ["name"; "formula"; "amount"; "unit"; "state"]%string.

Definition _validate_raw_materials (data : json) : validation :=
  match data with
  | JDict d =>
      match dict_get "materials" d with
      | None => Invalid [VLit "Raw materials data must contain a 'materials' key"]
      | Some (JList materials) => validate_entries "Material" material_keys 0 materials
      | Some _ => Invalid [VLit "The 'materials' key must contain a list"]
      end
  | _ => Invalid [VLit "Raw materials data must be a dictionary"]
  end.

Definition product_keys : list string :=
  ["name"; "formula"; "min_purity"; "min_yield"; "target_production_rate"; "unit"]%string.

Definition _validate_product_specs (data : json) : validation :=
  match data with
  | JDict d =>
      match dict_get "products" d with
      | None => Invalid [VLit "Product specifications data must contain a 'products' key"]
      | Some (JList products) => validate_entries "Product" product_keys 0 products
      | Some _ => Invalid [VLit "The 'products' key must contain a list"]
      end
  | _ => Invalid [VLit "Product specifications data must be a dictionary"]
  end.

(** A conversion returns a value, after a warning for the two flow-rate
    conversions, or raises [ValueError] for an unsupported pair. *)
Inductive conversion : Set :=
| Converted (value : Q) (warned : bool)
| Unsupported (from_unit to_unit : string).

Definition convert_units (value : Q) (from_unit to_unit : string) : conversion :=
  if String.eqb from_unit "C" && String.eqb to_unit "K" then
    Converted (value + 273.15) false
  else if String.eqb from_unit "K" && String.eqb to_unit "C" then
    Converted (value - 273.15) false
  else if String.eqb from_unit "F" && String.eqb to_unit "K" then
    Converted ((value + 459.67) * 5 / 9) false
  else if String.eqb from_unit "K" && String.eqb to_unit "F" then
    Converted (value * 9 / 5 - 459.67) false
  else if String.eqb from_unit "F" && String.eqb to_unit "C" then
    Converted ((value - 32) * 5 / 9) false
  else if String.eqb from_unit "C" && String.eqb to_unit "F" then
    Converted (value * 9 / 5 + 32) false
  else if String.eqb from_unit "kPa" && String.eqb to_unit "bar" then
    Converted (value / 100) false
  else if String.eqb from_unit "bar" && String.eqb to_unit "kPa" then
    Converted (value * 100) false
  else if String.eqb from_unit "psi" && String.eqb to_unit "kPa" then
    Converted (value * 6.89476) false
  else if String.eqb from_unit "kPa" && String.eqb to_unit "psi" then
    Converted (value / 6.89476) false
  else if String.eqb from_unit "bar" && String.eqb to_unit "psi" then
    Converted (value * 14.5038) false
  else if String.eqb from_unit "psi" && String.eqb to_unit "bar" then
    Converted (value / 14.5038) false
  else if String.eqb from_unit "kmol/h" && String.eqb to_unit "kg/h" then
    Converted (value * 20) true
  else if String.eqb from_unit "kg/h" && String.eqb to_unit "kmol/h" then
    Converted (value / 20) true
  else if String.eqb from_unit to_unit then
    Converted value false
  else Unsupported from_unit to_unit.

End DataHandler.

(** ** [xml.etree.ElementTree], as the converter uses it *)

(** A JSON number is an [int] or a [float]; [str] prints them
    differently. *)
Inductive number : Set :=
| NInt (z : Z)
| NFloat (q : Q).

(** [str(n)] *)
Definition str (n : number) : frag :=
  match n with
  | NInt z => Int z
  | NFloat q => Num q
  end.

Module ET.

(** An [Element]: tag, attributes in insertion order, text and
    children. *)
Inductive element : Set :=
| Element (tag : string) (attrib : list (string * frag)) (text : option frag)
          (children : list element).

Definition tag (e : element) : string :=
  match e with Element t _ _ _ => t end.

Definition attrib (e : element) : list (string * frag) :=
  match e with Element _ a _ _ => a end.

Definition text (e : element) : option frag :=
  match e with Element _ _ x _ => x end.

Definition children (e : element) : list element :=
  match e with Element _ _ _ c => c end.

(** [ET.SubElement(parent, tag).text = value] adds this child. *)
Definition leaf (tag : string) (value : frag) : element :=
  Element tag [] (Some value) [].

(** [parent.append(child)], also the effect of [ET.SubElement(parent, _)]
    on [parent]. *)
Definition append (child : element) (parent : element) : element :=
  match parent with
  | Element t a x c => Element t a x (c ++ [child])
  end.

End ET.

(** ** [src/dwsim/model_converter.py] *)

Module ModelConverter.

Import ET.

(** The process design, with the keys that the converter reads.  The
    values are taken to have the types that the converter expects
    (strings for ids, names and types, numbers for quantities, lists of
    dicts for the collections). *)
Record compound : Set := {
  name : option string;
  formula : option string;
  mole_fraction : option number
}.

Record stream : Set := {
  stream_id : option string;
  temperature : option number;
  pressure : option number;
  mass_flow : option number;
  compounds : option (list compound)
}.

Record unit_operation : Set := {
  unit_id : option string;
  unit_type : option string;
  reaction_id : option string;
  volume : option number;
  num_trays : option number;
  reflux_ratio : option number;
  heat_duty : option number
}.

Record connection : Set := {
  conn_from : option string;
  conn_to : option string;
  conn_stream_id : option string
}.

Record process_design : Set := {
  process_name : option string;
  description : option string;
  property_package : option string;
  streams : option (list stream);
  unit_operations : option (list unit_operation);
  connections : option (list connection)
}.

(** An entry of the list returned by [_extract_compounds]. *)
Record compound_entry : Set := {
  ce_name : string;
  ce_formula : string
}.

(** The inner loop of [_extract_compounds] over the compounds of one
    stream; [found] is the dict [compounds]. *)
Fixpoint extract_stream (cs : list compound) (found : list (string * compound_entry))
  : result (list (string * compound_entry)) :=
  match cs with
  | [] => Ok found
  | compound :: rest =>
      try! name := subscript "name" (name compound) in
      match dict_get name found with
      | None =>
          extract_stream rest
            (dict_set name
               {| ce_name := name; ce_formula := default name (formula compound) |}
               found)
      | Some _ => extract_stream rest found
      end
  end.

(** The outer loop, over the streams. *)
Fixpoint extract_streams (ss : list stream) (found : list (string * compound_entry))
  : result (list (string * compound_entry)) :=
  match ss with
  | [] => Ok found
  | stream :: rest =>
      try! found := extract_stream (default [] (compounds stream)) found in
      extract_streams rest found
  end.

Definition _extract_compounds (d : process_design) : result (list compound_entry) :=
  try! found := extract_streams (default [] (streams d)) [] in
  Ok (found.*2).

(** The dict [unit_mapping] of [_create_unit_operation]. *)
Definition dwsim_types : list (string * string) :=
  [("reactor", "CSTR"); ("distillation_column", "DistillationColumn");
   ("heat_exchanger", "HeatExchanger"); ("pump", "Pump")]%string.

Definition _create_unit_operation (unit : unit_operation) : result element :=
  let unit_type := lower (default ""%string (unit_type unit)) in
  try! id := subscript "id" (unit_id unit) in
  let attrib := dict_set "ID" (Str id) [] in
  let dwsim_type := default "CustomUnit"%string (dict_get unit_type dwsim_types) in
  let attrib := dict_set "Type" (Lit dwsim_type) attrib in
  let children :=
    if String.eqb unit_type "reactor" then
      [leaf "ReactionID" (Str (default ""%string (reaction_id unit)));
       leaf "Volume" (str (default (NFloat 0) (volume unit)))]
    else if String.eqb unit_type "distillation_column" then
      [leaf "NumberOfTrays" (str (default (NInt 10) (num_trays unit)));
       leaf "RefluxRatio" (str (default (NFloat 1.5) (reflux_ratio unit)))]
    else if String.eqb unit_type "heat_exchanger" then
      [leaf "HeatDuty" (str (default (NFloat 0) (heat_duty unit)))]
    else [] in
  Ok (Element "UnitOperation" attrib None children).

(** The loop of [_create_stream] over the compounds of the stream: the
    children of its [Composition] element. *)
Fixpoint composition (cs : list compound) (comp_elem : list element)
  : result (list element) :=
  match cs with
  | [] => Ok comp_elem
  | compound :: rest =>
      try! name := subscript "name" (name compound) in
      let attrib := dict_set "Name" (Str name) [] in
      let attrib :=
        dict_set "MoleFraction" (str (default (NFloat 0) (mole_fraction compound)))
          attrib in
      composition rest (comp_elem ++ [Element "Compound" attrib None []])
  end.

Definition _create_stream (stream : stream) : result element :=
  try! id := subscript "id" (stream_id stream) in
  let attrib := dict_set "ID" (Str id) [] in
  let children :=
    [leaf "Temperature" (str (default (NFloat 298.15) (temperature stream)));
     leaf "Pressure" (str (default (NInt 101325) (pressure stream)));
     leaf "MassFlow" (str (default (NFloat 1) (mass_flow stream)))] in
  try! comp_elem := composition (default [] (compounds stream)) [] in
  Ok (Element "Stream" attrib None (children ++ [Element "Composition" [] None comp_elem])).

(** [if unit_id and stream_id and unit_id in unit_mapping:] followed by
    [ET.SubElement(unit_mapping[unit_id], tag).set("StreamID", str(stream_id))].
    [unit_mapping] refers to the elements that are the children of
    [UnitOperations]: here it maps an id to the position of the child,
    and the child is updated in place. *)
Definition port (tag : string) (stream_id : string) : element :=
  Element tag (dict_set "StreamID" (Str stream_id) []) None [].

Definition attach (tag : string) (unit_id stream_id : option string)
    (unit_mapping : list (string * nat)) (unit_ops : list element) : list element :=
  match unit_id, stream_id with
  | Some (String _ _ as unit_id), Some (String _ _ as stream_id) =>
      match dict_get unit_id unit_mapping with
      | Some i => alter (append (port tag stream_id)) i unit_ops
      | None => unit_ops
      end
  | _, _ => unit_ops
  end.

(** The body of the loop of [_connect_streams_to_units]. *)
Definition connect (unit_mapping : list (string * nat)) (unit_ops : list element)
    (conn : connection) : list element :=
  let from_id := conn_from conn in
  let to_id := conn_to conn in
  let stream_id := conn_stream_id conn in
  let unit_ops := attach "Outlet" from_id stream_id unit_mapping unit_ops in
  attach "Inlet" to_id stream_id unit_mapping unit_ops.

Definition _connect_streams_to_units (unit_mapping : list (string * nat))
    (d : process_design) (unit_ops : list element) : list element :=
  foldl (connect unit_mapping) unit_ops (default [] (connections d)).

(** The loop of [convert_design_to_dwsim] over the unit operations:
    [unit_ops.append(unit_elem)] and [unit_mapping[unit["id"]] = unit_elem]. *)
Fixpoint create_units (units : list unit_operation) (unit_ops : list element)
    (unit_mapping : list (string * nat)) : result (list element * list (string * nat)) :=
  match units with
  | [] => Ok (unit_ops, unit_mapping)
  | unit :: rest =>
      try! unit_elem := _create_unit_operation unit in
      try! id := subscript "id" (unit_id unit) in
      create_units rest (unit_ops ++ [unit_elem])
        (dict_set id (length unit_ops) unit_mapping)
  end.

(** The loop over the streams.  [stream_mapping] is filled as well, but
    nothing reads it, and [stream["id"]] has been evaluated by
    [_create_stream] before. *)
Fixpoint create_streams (ss : list stream) (streams : list element)
  : result (list element) :=
  match ss with
  | [] => Ok streams
  | stream :: rest =>
      try! stream_elem := _create_stream stream in
      create_streams rest (streams ++ [stream_elem])
  end.

(** The [Compound] children of [Compounds]; [k] counts the calls of
    [uuid.uuid4()]. *)
Fixpoint compound_elements (uuid4 : nat -> string) (k : nat)
    (compounds : list compound_entry) : list element :=
  match compounds with
  | [] => []
  | compound :: rest =>
      Element "Compound" [] None
        [leaf "Name" (Str (ce_name compound));
         leaf "Formula" (Str (ce_formula compound));
         leaf "ID" (Str (uuid4 k))]
      :: compound_elements uuid4 (S k) rest
  end.

(** [convert_design_to_dwsim]; [uuid4 k] is the string of the [k]-th
    UUID drawn during the call. *)
Definition convert_design_to_dwsim (uuid4 : nat -> string) (d : process_design)
  : result element :=
  let sim_info :=
    Element "SimulationInfo" [] None
      [leaf "Name" (Str (default "Agent Generated Process"%string (process_name d)));
       leaf "Description" (Str (default ""%string (description d)));
       leaf "ID" (Str (uuid4 0%nat))] in
  let property_pkg :=
    Element "PropertyPackages" [] None
      [Element "PropertyPackage" [] None
         [leaf "Name" (Str (default "NRTL"%string (property_package d)))]] in
  try! compounds := _extract_compounds d in
  let compounds_element :=
    Element "Compounds" [] None (compound_elements uuid4 1 compounds) in
  try! units := create_units (default [] (unit_operations d)) [] [] in
  let '(unit_ops, unit_mapping) := units in
  try! streams := create_streams (default [] (streams d)) [] in
  let unit_ops := _connect_streams_to_units unit_mapping d unit_ops in
  Ok (Element "DWSIM" (dict_set "Version" (Lit "5.0") []) None
        [sim_info; property_pkg; compounds_element;
         Element "UnitOperations" [] None unit_ops;
         Element "Streams" [] None streams]).

(** The methods the class defines; [run] asks it for [save_model]. *)
Definition methods : list string :=
  ["convert_design_to_dwsim"; "_extract_compounds"; "_create_unit_operation";
   "_create_stream"; "_connect_streams_to_units"]%string.

(** The [try] block of [ProcessDesignerAgent.run] that converts the
    design: [convert_design_to_dwsim], then [save_model]. *)
Definition convert_and_save (uuid4 : nat -> string) (d : process_design)
  : result element :=
  try! dwsim_model := convert_design_to_dwsim uuid4 d in
  try! _ := lookup_method "ModelConverter" methods "save_model" in
  Ok dwsim_model.

End ModelConverter.

(** ** [src/dwsim/property_packages.py] *)

Module PropertyPackageHandler.

Import ET.

Record t : Set := mk {
  supported_packages : list string
}.

Definition __init__ : t :=
  mk ["NRTL"; "UNIQUAC"; "Peng-Robinson"; "Soave-Redlich-Kwong"]%string.

(** The keys of the process design that the handler reads. *)
Record interaction_parameter : Set := {
  compound1 : option string;
  compound2 : option string;
  value : option number
}.

Record process_design : Set := {
  property_package : option string;
  interaction_parameters : option (list interaction_parameter)
}.

(** The loop over [process_design["interaction_parameters"]]: the
    children of the [InteractionParameters] element. *)
Fixpoint parameters (params : list interaction_parameter) (ip_elem : list element)
  : result (list element) :=
  match params with
  | [] => Ok ip_elem
  | param :: rest =>
      try! c1 := subscript "compound1" (compound1 param) in
      let attrib := dict_set "Compound1" (Str c1) [] in
      try! c2 := subscript "compound2" (compound2 param) in
      let attrib := dict_set "Compound2" (Str c2) attrib in
      try! v := subscript "value" (value param) in
      let attrib := dict_set "Value" (str v) attrib in
      parameters rest (ip_elem ++ [Element "Parameter" attrib None []])
  end.

Definition create_property_package (self : t) (d : process_design) : result element :=
  let pp_name := default "NRTL"%string (property_package d) in
  let pp_name :=
    if bool_decide (pp_name ∈ supported_packages self) then pp_name
    else "NRTL"%string in
  let attrib := dict_set "Name" (Str pp_name) [] in
  match interaction_parameters d with
  | Some params =>
      try! ip_elem := parameters params [] in
      Ok (Element "PropertyPackage" attrib None
            [Element "InteractionParameters" [] None ip_elem])
  | None => Ok (Element "PropertyPackage" attrib None [])
  end.

(** [compounds] is not read. *)
Definition validate_property_package {C : Type} (self : t) (d : process_design)
    (compounds : list C) : bool :=
  let pp_name := default "NRTL"%string (property_package d) in
  if bool_decide (pp_name ∈ supported_packages self) then true else false.

End PropertyPackageHandler.

(** ** [ProcessDesignerAgent._save_input_data] *)

(** A value of the configuration as [yaml.safe_load] gives it: a JSON
    value, or a value that [json] cannot serialise (a date, a datetime,
    bytes, a set), known by the name of its class and by the name under
    which error messages cite its type ([date] and [datetime.date]).  The
    keys of a mapping are taken to be strings. *)
Inductive yaml : Set :=
| YNull
| YBool (b : bool)
| YInt (z : Z)
| YFloat (q : Q)
| YStr (s : string)
| YList (items : list yaml)
| YDict (entries : list (string * yaml))
| YOther (name qualified_name : string).

(** The name under which the message of an [AttributeError] cites the type
    of [v]: [datetime.date] for a date. *)
Definition yaml_type_name (v : yaml) : string :=
  match v with
  | YNull => "NoneType"
  | YBool _ => "bool"
  | YInt _ => "int"
  | YFloat _ => "float"
  | YStr _ => "str"
  | YList _ => "list"
  | YDict _ => "dict"
  | YOther _ qualified_name => qualified_name
  end.

(** The first value that [json.dump] cannot serialise, in the order in
    which it goes through the document: the [__name__] of its class. *)
Fixpoint unserialisable (v : yaml) : option string :=
  match v with
  | YOther name _ => Some name
  | YList items =>
      (fix go (l : list yaml) : option string :=
         match l with
         | [] => None
         | x :: rest =>
             match unserialisable x with
             | Some t => Some t
             | None => go rest
             end
         end) items
  | YDict entries =>
      (fix go (l : list (string * yaml)) : option string :=
         match l with
         | [] => None
         | (_, x) :: rest =>
             match unserialisable x with
             | Some t => Some t
             | None => go rest
             end
         end) entries
  | _ => None
  end.

(** What a file holds after the call: a document that [json.dump] wrote
    completely, or a file that was opened for writing and is empty, or one
    that holds the beginning of a document. *)
Inductive written : Set :=
| Document (doc : json)
| Config (entries : list (string * yaml))
| Empty
| Partial.

(** The filter of the first comprehension:
    [k != "agent" or k != "system_message"]. *)
Definition config_key_kept (k : string) : bool :=
  negb (String.eqb k "agent") || negb (String.eqb k "system_message").

(** The files of the output directory that the call leaves, by name, and
    how the call ends.  [config] is the dict [self.config]. *)
Definition _save_input_data (raw_materials product_specs : json)
    (config : list (string * yaml)) : list (string * written) * result unit :=
  let files :=
    [("raw_materials.json"%string, Document raw_materials);
     ("product_specs.json"%string, Document product_specs)] in
  let serializable_config := List.filter (fun kv => config_key_kept kv.1) config in
  match
    match dict_get "agent" serializable_config with
    | Some (YDict agent) =>
        let agent :=
          List.filter (fun kv => negb (String.eqb kv.1 "system_message")) agent in
        Ok (dict_set "agent" (YDict agent) serializable_config)
    | Some agent =>
        Raise (mk_exn AttributeError
                 ("'" +:+ yaml_type_name agent +:+ "' object has no attribute 'items'"))
    | None => Ok serializable_config
    end
  with
  | Raise e => (files ++ [("config.json"%string, Empty)], Raise e)
  | Ok serializable_config =>
      (* json.dump(serializable_config, f, indent=2) *)
      match unserialisable (YDict serializable_config) with
      | Some type_name =>
          (files ++ [("config.json"%string, Partial)],
           Raise (mk_exn TypeError
                    ("Object of type " +:+ type_name +:+ " is not JSON serializable")))
      | None => (files ++ [("config.json"%string, Config serializable_config)], Ok tt)
      end
  end.

(** ** The configuration file, as the agent reads it *)

Module Config.

Record agent_section : Set := {
  model : option string;
  temperature : option Q;
  system_message : option string;
  max_iterations : option Z;
  save_agent_responses : option bool
}.

Record openai_section : Set := {
  api_key : option string;
  organization : option string
}.

Record dwsim_section : Set := {
  install_path : option string;
  property_package : option string;
  calculation_mode : option string;
  timeout : option Z
}.

Record evaluation_section : Set := {
  mass_balance_tolerance : option Q;
  energy_balance_tolerance : option Q;
  purity_tolerance : option Q;
  yield_tolerance : option Q
}.

Record simulation_section : Set := {
  generate_plots : option bool
}.

Record t : Set := {
  agent : option agent_section;
  openai : option openai_section;
  dwsim : option dwsim_section;
  evaluation : option evaluation_section;
  simulation : option simulation_section
}.

End Config.

(** ** The dicts that travel through one iteration *)

(** The keys of a generated process design that the controller reads. *)
Module Design.
Record t : Set := {
  process_name : option string;
  description : option string;
  property_package : option string
}.
End Design.

(** The dict returned by [DWSIMSimulator.run_simulation]; the controller
    only tests it for emptiness. *)
Module Simulation.
Record t : Set := {
  keys : list string
}.

(** [bool(simulation_results)] for a dict *)
Definition truthy (r : t) : bool :=
  match keys r with
  | [] => false
  | _ :: _ => true
  end.
End Simulation.

(** The [feedback] dict.  The two issue lists are absent from the feedback
    built after a caught exception. *)
Record feedback : Set := {
  status : string;
  message : text;
  constraint_issues : option (list text);
  product_issues : option (list text);
  suggestions : list text
}.

(** An entry of [self.history] (the timestamp is left out). *)
Record iteration_record : Set := {
  ir_iteration : Z;
  ir_process_design_path : text;
  ir_feedback : feedback;
  ir_simulation_results_path : option text
}.

(** The [self.best_design] dict. *)
Record best_design_t : Set := {
  bd_iteration : Z;
  bd_process_design : Design.t;
  bd_simulation_results : Simulation.t;
  bd_constraint_check : constraint_results;
  bd_product_evaluation : product_evaluation;
  bd_score : Q
}.

(** [self.best_score]: [-float('inf')] or a score. *)
Inductive best_score_t : Set :=
| NegInf
| Score (q : Q).

(** [current_score > self.best_score] *)
Definition score_gt (current_score : Q) (best : best_score_t) : bool :=
  match best with
  | NegInf => true
  | Score b => Qltb b current_score
  end.

(** [self.best_score] interpolated in an f-string. *)
Definition score_frag (best : best_score_t) : frag :=
  match best with
  | NegInf => Str "-inf"
  | Score q => Num q
  end.

Inductive level : Set := INFO | WARNING | ERROR.

(** The document written to [final_report.json]. *)
Record report_summary : Set := {
  total_iterations : Z;
  best_iteration : Z;
  report_best_score : best_score_t;
  success : bool
}.

Record report_product : Set := {
  rp_target_production_rate : frag;
  rp_actual_production_rate : frag;
  rp_target_purity : frag;
  rp_actual_purity : frag;
  rp_target_yield : frag;
  rp_actual_yield : frag;
  rp_specifications_met : bool
}.

Record report : Set := {
  summary : report_summary;
  report_process_name : string;
  report_description : string;
  report_property_package : string;
  product_results : list (string * report_product);
  performance_metrics : frag * frag
}.

(** ** [src/agent/process_designer.py] *)

(** The raw-materials and product-specification documents; the controller
    only stores and re-serialises them. *)
Record document : Set := {
  entries : list (string * string)
}.

(** A keyword argument passed by [ProcessDesignerAgent.__init__]. *)
Inductive kwarg : Set :=
| KwNum (q : Q)
| KwDoc (d : document).

(** What the collaborators answer during one iteration: the design parsed
    from the model's response ([_generate_process_design] never raises: the
    model manager catches every exception and the parsing is wrapped),
    whether [convert_design_to_dwsim] / [save_model] raise, what
    [run_simulation] returns or raises, and what the two evaluation calls
    [check_constraints] and [analyze_results] return or raise.  Neither
    method is defined by the classes under [src/evaluation] (see
    [ConstraintChecker.methods] and [ResultsAnalyzer.methods]), so the
    evaluators are parameters of the loop; with the two classes as they
    stand both calls raise [AttributeError]. *)
Record iteration_world : Set := {
  generated : Design.t;
  converted : option exn;
  simulated : result Simulation.t;
  constraint_checked : result constraint_results;
  analyzed : result product_evaluation
}.

(** The collaborators over a whole run, by iteration number, and what
    [matplotlib] does when the plots are requested.  Writing a file is taken
    to succeed. *)
Record world : Type := {
  at_iteration : Z -> iteration_world;
  plots : option exn
}.

(** How a call of [run], or one pass through its loop body, ends. *)
Inductive outcome : Set :=
| Returns (b : bool)
| Raises (e : exn)
| OutOfFuel.

Module ProcessDesignerAgent.

Record t : Set := mk {
  config : Config.t;
  raw_materials : document;
  product_specs : document;
  output_dir : string;
  current_iteration : Z;
  max_iterations : Z;
  best_design : option best_design_t;
  best_score : best_score_t;
  history : list iteration_record;
  (** effects that outlive the call: the log and [final_report.json] *)
  log : list (level * text);
  final_report : option report
}.

Definition set_current_iteration (n : Z) (s : t) : t :=
  mk (config s) (raw_materials s) (product_specs s) (output_dir s)
     n (max_iterations s) (best_design s) (best_score s) (history s)
     (log s) (final_report s).

Definition set_best (d : best_design_t) (q : Q) (s : t) : t :=
  mk (config s) (raw_materials s) (product_specs s) (output_dir s)
     (current_iteration s) (max_iterations s) (Some d) (Score q) (history s)
     (log s) (final_report s).

Definition history_append (r : iteration_record) (s : t) : t :=
  mk (config s) (raw_materials s) (product_specs s) (output_dir s)
     (current_iteration s) (max_iterations s) (best_design s) (best_score s)
     (history s ++ [r]) (log s) (final_report s).

Definition logger (l : level) (m : text) (s : t) : t :=
  mk (config s) (raw_materials s) (product_specs s) (output_dir s)
     (current_iteration s) (max_iterations s) (best_design s) (best_score s)
     (history s) (log s ++ [(l, m)]) (final_report s).

Definition write_final_report (r : report) (s : t) : t :=
  mk (config s) (raw_materials s) (product_specs s) (output_dir s)
     (current_iteration s) (max_iterations s) (best_design s) (best_score s)
     (history s) (log s) (Some r).

(** The agent as the last statements of [__init__] leave it:
    [current_iteration = 0], [best_design = None],
    [best_score = -float('inf')], [history = []]. *)
Definition fresh (config : Config.t) (raw_materials product_specs : document)
    (output_dir : string) (max_iterations : Z) : t :=
  mk config raw_materials product_specs output_dir
     0 max_iterations None NegInf [] [] None.

(** [ProcessDesignerAgent.__init__], statement by statement.  Python
    evaluates the arguments of a call, in order, before the call. *)
Definition __init__ (h : host) (config : Config.t)
    (raw_materials product_specs : document) (output_dir : string)
  : result t :=
  let base_output_dir := output_dir in
  let output_dir := base_output_dir +:+ "/run_" +:+ timestamp h in
  try! _ := may_raise (makedirs h) in
  (* self.model_manager = OpenAIModelManager(...) *)
  try! c := subscript "agent" (Config.agent config) in
  try! model := subscript "model" (Config.model c) in
  try! c := subscript "openai" (Config.openai config) in
  try! api_key := subscript "api_key" (Config.api_key c) in
  try! c := subscript "openai" (Config.openai config) in
  let organization := default ""%string (Config.organization c) in
  try! c := subscript "agent" (Config.agent config) in
  try! temperature := subscript "temperature" (Config.temperature c) in
  try! c := subscript "agent" (Config.agent config) in
  try! system_message := subscript "system_message" (Config.system_message c) in
  try! model_manager :=
    OpenAIModelManager.__init__ h model api_key organization temperature
      system_message in
  (* self.simulator = DWSIMSimulator(...) *)
  try! c := subscript "dwsim" (Config.dwsim config) in
  try! dwsim_path := subscript "install_path" (Config.install_path c) in
  try! c := subscript "dwsim" (Config.dwsim config) in
  try! property_package := subscript "property_package" (Config.property_package c) in
  try! c := subscript "dwsim" (Config.dwsim config) in
  try! calculation_mode := subscript "calculation_mode" (Config.calculation_mode c) in
  try! c := subscript "dwsim" (Config.dwsim config) in
  try! timeout := subscript "timeout" (Config.timeout c) in
  try! simulator :=
    DWSIMSimulator.__init__ h dwsim_path property_package calculation_mode
      timeout in
  (* self.model_converter = ModelConverter() *)
  (* self.constraint_checker = ConstraintChecker(...) *)
  try! c := subscript "evaluation" (Config.evaluation config) in
  try! mass_balance_tolerance :=
    subscript "mass_balance_tolerance" (Config.mass_balance_tolerance c) in
  try! c := subscript "evaluation" (Config.evaluation config) in
  try! energy_balance_tolerance :=
    subscript "energy_balance_tolerance" (Config.energy_balance_tolerance c) in
  try! constraint_checker :=
    ConstraintChecker.__init__
      [("mass_balance_tolerance", KwNum mass_balance_tolerance);
       ("energy_balance_tolerance", KwNum energy_balance_tolerance)]%string in
  (* self.results_analyzer = ResultsAnalyzer(...) *)
  try! c := subscript "evaluation" (Config.evaluation config) in
  try! purity_tolerance := subscript "purity_tolerance" (Config.purity_tolerance c) in
  try! c := subscript "evaluation" (Config.evaluation config) in
  try! yield_tolerance := subscript "yield_tolerance" (Config.yield_tolerance c) in
  try! results_analyzer :=
    ResultsAnalyzer.__init__
      [("product_specs", KwDoc product_specs);
       ("purity_tolerance", KwNum purity_tolerance);
       ("yield_tolerance", KwNum yield_tolerance)]%string in
  (* Track iterations and best design *)
  try! c := subscript "agent" (Config.agent config) in
  try! max_iterations := subscript "max_iterations" (Config.max_iterations c) in
  Ok (fresh config raw_materials product_specs output_dir max_iterations).

(** [_generate_feedback]: the suggestion appended for one product issue,
    if its type is one of the five that are recognised. *)
Definition suggestion_for (product_name issue_type : string) : list text :=
  if String.eqb issue_type "purity" then
    [[Lit "Improve separation for "; Str product_name; Lit " to increase purity"]]
  else if String.eqb issue_type "yield" then
    [[Lit "Adjust reaction conditions or improve recovery for "; Str product_name]]
  else if String.eqb issue_type "production_rate" then
    [[Lit "Increase feed rate or improve conversion for "; Str product_name]]
  else if String.eqb issue_type "temperature" then
    [[Lit "Adjust cooling/heating for "; Str product_name; Lit " stream"]]
  else if String.eqb issue_type "pressure" then
    [[Lit "Adjust pressure control for "; Str product_name; Lit " stream"]]
  else [].

(** The interpolation of [d.get(key, 'unknown')] for a numeric key. *)
Definition or_unknown (v : option Q) : frag :=
  match v with
  | Some q => Num q
  | None => Str "unknown"
  end.

(** The two nested loops over [product_issues.items()]: the accumulator
    is the pair of [feedback["product_issues"]] and
    [feedback["suggestions"]]. *)
Definition product_issue_loop
    (product_issues : list (string * list (string * string)))
    (acc : list text * list text) : list text * list text :=
  fold_left
    (fun acc '(product_name, issues) =>
       fold_left
         (fun acc '(issue_type, details) =>
            let issue_msg :=
              [Str product_name; Lit ": "; Str issue_type; Lit " - "; Str details] in
            (acc.1 ++ [issue_msg], acc.2 ++ suggestion_for product_name issue_type))
         issues acc)
    product_issues acc.

Definition _generate_feedback
    (constraint_results : constraint_results)
    (product_evaluation : product_evaluation) : feedback :=
  let constraint_issues := [] in
  let suggestions := [] in
  let mass_balance_satisfied :=
    default false (mass_balance_satisfied constraint_results) in
  let energy_balance_satisfied :=
    default false (energy_balance_satisfied constraint_results) in
  let '(constraint_issues, suggestions) :=
    if negb mass_balance_satisfied then
      (constraint_issues ++
         [[Lit "Mass balance error: ";
           or_unknown (mass_balance_error constraint_results); Lit "%"]],
       suggestions ++
         [[Lit "Adjust flow rates or component splits to ensure mass conservation"]])
    else (constraint_issues, suggestions) in
  let '(constraint_issues, suggestions) :=
    if negb energy_balance_satisfied then
      (constraint_issues ++
         [[Lit "Energy balance error: ";
           or_unknown (energy_balance_error constraint_results); Lit "%"]],
       suggestions ++
         [[Lit "Review heat duties and enthalpy calculations for energy conservation"]])
    else (constraint_issues, suggestions) in
  let all_products_meet_specs :=
    default false (all_specifications_met product_evaluation) in
  let product_issues := default [] (issues product_evaluation) in
  let '(product_issue_msgs, suggestions) :=
    product_issue_loop product_issues ([], suggestions) in
  if mass_balance_satisfied && energy_balance_satisfied && all_products_meet_specs then
    {| status := "success";
       message := [Lit "Process design meets all requirements and constraints!"];
       constraint_issues := Some constraint_issues;
       product_issues := Some product_issue_msgs;
       suggestions := suggestions |}
  else if negb (mass_balance_satisfied && energy_balance_satisfied) then
    {| status := "constraint_violation";
       message := [Lit "Process design violates fundamental constraints"];
       constraint_issues := Some constraint_issues;
       product_issues := Some product_issue_msgs;
       suggestions := suggestions |}
  else
    {| status := "product_specs_not_met";
       message := [Lit "Process design does not meet all product specifications"];
       constraint_issues := Some constraint_issues;
       product_issues := Some product_issue_msgs;
       suggestions := suggestions |}.

(** [1.0 / num_products if num_products > 0 else 0] *)
Definition product_weight (num_products : nat) : Q :=
  if (0 <? num_products)%nat then 1 / inject_Z (Z.of_nat num_products) else 0.

(** The body of [for product_name, product_score in product_scores.items()],
    inside which [product_scores] itself is consulted for its length. *)
Definition score_product_step
    (product_scores : list (string * Q)) (score : Q) (item : string * Q) : Q :=
  let product_score := item.2 in
  let normalized_score := product_score * 100 in
  let num_products := length product_scores in
  score - (100 - normalized_score) * product_weight num_products.

Definition _calculate_design_score
    (constraint_results : constraint_results)
    (product_evaluation : product_evaluation) : Q :=
  let score := 100 in
  let score :=
    if negb (default false (mass_balance_satisfied constraint_results)) then
      score - Qmin 50 (Qabs (default 0 (mass_balance_error constraint_results)) * 10)
    else score in
  let score :=
    if negb (default false (energy_balance_satisfied constraint_results)) then
      score - Qmin 50 (Qabs (default 0 (energy_balance_error constraint_results)) * 5)
    else score in
  let product_scores := default [] (product_scores product_evaluation) in
  let score :=
    fold_left (score_product_step product_scores) product_scores score in
  Qmax 0 score.

Definition iteration_dir_of (s : t) : text :=
  [Str (output_dir s); Lit "/iteration_"; Int (current_iteration s)].

Definition _record_iteration_results
    (iteration_dir : text) (process_design : Design.t)
    (simulation_results : option Simulation.t) (feedback : feedback)
    (s : t) : t :=
  let iteration_record :=
    {| ir_iteration := current_iteration s;
       ir_process_design_path := iteration_dir ++ [Lit "/process_design.json"];
       ir_feedback := feedback;
       ir_simulation_results_path :=
         match simulation_results with
         | Some r =>
             if Simulation.truthy r
             then Some (iteration_dir ++ [Lit "/simulation_results.json"])
             else None
         | None => None
         end |} in
  history_append iteration_record s.

(** [_generate_performance_plots]: everything is inside one
    [try ... except Exception], so it never raises. *)
Definition _generate_performance_plots (w : world) (s : t) : t :=
  match plots w with
  | None =>
      logger INFO [Lit "Performance plots saved to "; Str (output_dir s); Lit "/figures"] s
  | Some e =>
      logger ERROR [Lit "Error generating performance plots: "; Str (exn_msg e)] s
  end.

(** [d.get(key, "Unknown")] for a numeric key. *)
Definition or_Unknown (v : option Q) : frag :=
  match v with
  | Some q => Num q
  | None => Str "Unknown"
  end.

Definition build_report (s : t) (b : best_design_t) : report :=
  {| summary :=
       {| total_iterations := current_iteration s;
          best_iteration := bd_iteration b;
          report_best_score := best_score s;
          success :=
            default false (all_specifications_met (bd_product_evaluation b))
            && default false (mass_balance_satisfied (bd_constraint_check b))
            && default false (energy_balance_satisfied (bd_constraint_check b)) |};
     report_process_name :=
       default "Unknown"%string (Design.process_name (bd_process_design b));
     report_description :=
       default "No description available"%string
         (Design.description (bd_process_design b));
     report_property_package :=
       default "Unknown"%string (Design.property_package (bd_process_design b));
     product_results :=
       List.map
         (fun '(product_name, product_data) =>
            (product_name,
             {| rp_target_production_rate :=
                  or_Unknown (target_production_rate product_data);
                rp_actual_production_rate :=
                  or_Unknown (actual_production_rate product_data);
                rp_target_purity := or_Unknown (target_purity product_data);
                rp_actual_purity := or_Unknown (actual_purity product_data);
                rp_target_yield := or_Unknown (target_yield product_data);
                rp_actual_yield := or_Unknown (actual_yield product_data);
                rp_specifications_met :=
                  default false (specifications_met product_data) |}))
         (default [] (products (bd_product_evaluation b)));
     performance_metrics :=
       (or_Unknown (mass_balance_error (bd_constraint_check b)),
        or_Unknown (energy_balance_error (bd_constraint_check b))) |}.

(** [_generate_final_report]: the agent afterwards and how the call
    ended. *)
Definition _generate_final_report (w : world) (s : t) : t * result unit :=
  match best_design s with
  | None =>
      (logger WARNING
         [Lit "No successful design found, cannot generate final report"] s,
       Ok tt)
  | Some b =>
      let s := write_final_report (build_report s b) s in
      let s :=
        logger INFO
          [Lit "Final report saved to "; Str (output_dir s); Lit "/final_report.json"] s in
      match subscript "simulation" (Config.simulation (config s)) with
      | Raise e => (s, Raise e)
      | Ok c =>
          if default false (Config.generate_plots c)
          then (_generate_performance_plots w s, Ok tt)
          else (s, Ok tt)
      end
  end.

Definition conversion_error_feedback (e : exn) : feedback :=
  {| status := "error";
     message := [Lit "Failed to convert design to DWSIM model: "; Str (exn_msg e)];
     constraint_issues := None;
     product_issues := None;
     suggestions :=
       [[Lit "Ensure all units and connections are properly specified"];
        [Lit "Check for invalid operation parameters"]] |}.

Definition simulation_error_feedback (e : exn) : feedback :=
  {| status := "error";
     message := [Lit "Simulation failed: "; Str (exn_msg e)];
     constraint_issues := None;
     product_issues := None;
     suggestions :=
       [[Lit "Check for invalid input parameters"];
        [Lit "Ensure thermodynamic property package is appropriate for components"]] |}.

(** One pass through the body of [while self.current_iteration <
    self.max_iterations].  [None] means that the body reached its end or a
    [continue]; [Some o] that it left [run]. *)
Definition iteration (w : world) (s : t) : t * option outcome :=
  let s := set_current_iteration (current_iteration s + 1)%Z s in
  let iw := at_iteration w (current_iteration s) in
  let s :=
    logger INFO
      [Lit "Beginning iteration "; Int (current_iteration s); Lit "/";
       Int (max_iterations s)] s in
  let iteration_dir := iteration_dir_of s in
  let process_design := generated iw in
  match converted iw with
  | Some e =>
      let s :=
        logger ERROR
          [Lit "Error converting design to DWSIM model: "; Str (exn_msg e)] s in
      let feedback := conversion_error_feedback e in
      (_record_iteration_results iteration_dir process_design None feedback s, None)
  | None =>
      let s :=
        logger INFO
          ([Lit "Saved DWSIM model to "] ++ iteration_dir ++ [Lit "/dwsim_model.dwxml"]) s in
      match simulated iw with
      | Raise e =>
          let s := logger ERROR [Lit "Error running simulation: "; Str (exn_msg e)] s in
          let feedback := simulation_error_feedback e in
          (_record_iteration_results iteration_dir process_design None feedback s, None)
      | Ok simulation_results =>
          let s :=
            logger INFO
              ([Lit "Saved simulation results to "] ++ iteration_dir
                 ++ [Lit "/simulation_results.json"]) s in
          match constraint_checked iw with
          | Raise e => (s, Some (Raises e))
          | Ok constraint_results =>
              match analyzed iw with
              | Raise e => (s, Some (Raises e))
              | Ok product_evaluation =>
                  let s :=
                    logger INFO
                      ([Lit "Saved evaluation to "] ++ iteration_dir
                         ++ [Lit "/evaluation.json"]) s in
                  let feedback :=
                    _generate_feedback constraint_results product_evaluation in
                  let current_score :=
                    _calculate_design_score constraint_results product_evaluation in
                  let s :=
                    if score_gt current_score (best_score s) then
                      let s :=
                        set_best
                          {| bd_iteration := current_iteration s;
                             bd_process_design := process_design;
                             bd_simulation_results := simulation_results;
                             bd_constraint_check := constraint_results;
                             bd_product_evaluation := product_evaluation;
                             bd_score := current_score |}
                          current_score s in
                      logger INFO
                        [Lit "New best design found at iteration ";
                         Int (current_iteration s); Lit " with score ";
                         Num current_score] s
                    else s in
                  let s :=
                    _record_iteration_results iteration_dir process_design
                      (Some simulation_results) feedback s in
                  if String.eqb (status feedback) "success" then
                    let s := logger INFO [Lit "Process design meets all requirements!"] s in
                    match _generate_final_report w s with
                    | (s, Ok _) => (s, Some (Returns true))
                    | (s, Raise e) => (s, Some (Raises e))
                    end
                  else (s, None)
              end
          end
      end
  end.

(** The [while] loop.  [None] means that the loop condition became false;
    [fuel] bounds the number of passes. *)
Fixpoint while_loop (fuel : nat) (w : world) (s : t) : t * option outcome :=
  if (current_iteration s <? max_iterations s)%Z then
    match fuel with
    | O => (s, Some OutOfFuel)
    | S fuel =>
        match iteration w s with
        | (s, None) => while_loop fuel w s
        | (s, Some o) => (s, Some o)
        end
    end
  else (s, None).

(** What follows the loop in [run]. *)
Definition after_loop (w : world) (s : t) : t * outcome :=
  let s :=
    logger INFO
      [Lit "Reached maximum iterations ("; Int (max_iterations s);
       Lit ") without finding a perfect solution"] s in
  match best_design s with
  | None =>
      (* self.best_design['iteration'] *)
      (s, Raises (mk_exn TypeError "'NoneType' object is not subscriptable"))
  | Some b =>
      let s :=
        logger INFO
          [Lit "Best design found at iteration "; Int (bd_iteration b);
           Lit " with score "; score_frag (best_score s)] s in
      match _generate_final_report w s with
      | (s, Ok _) => (s, Returns false)
      | (s, Raise e) => (s, Raises e)
      end
  end.

(** The passes that the loop can still make. *)
Definition budget (s : t) : nat :=
  Z.to_nat (max_iterations s - current_iteration s).

Definition run (w : world) (s : t) : t * outcome :=
  let s := logger INFO [Lit "Starting process design cycle"] s in
  match while_loop (budget s) w s with
  | (s, Some o) => (s, o)
  | (s, None) => after_loop w s
  end.

(** *** The loop with the scorer as a parameter

    [run] calls [self._calculate_design_score] and compares what it
    returns with [best_score]; which design is kept depends on the value
    returned and on nothing else of the scorer.  Here the scorer is a
    parameter of the loop: [score] can be [_calculate_design_score] above,
    and it can be the scorer as Python computes it, in binary64, whose
    results are read as the rationals they stand for. *)
Section ScoredBy.

Variable score : constraint_results -> product_evaluation -> Q.

(** The body of the loop: [iteration] with [score] in the place of
    [_calculate_design_score]. *)
Definition iteration_scored (w : world) (s : t) : t * option outcome :=
  let s := set_current_iteration (current_iteration s + 1)%Z s in
  let iw := at_iteration w (current_iteration s) in
  let s :=
    logger INFO
      [Lit "Beginning iteration "; Int (current_iteration s); Lit "/";
       Int (max_iterations s)] s in
  let iteration_dir := iteration_dir_of s in
  let process_design := generated iw in
  match converted iw with
  | Some e =>
      let s :=
        logger ERROR
          [Lit "Error converting design to DWSIM model: "; Str (exn_msg e)] s in
      let feedback := conversion_error_feedback e in
      (_record_iteration_results iteration_dir process_design None feedback s, None)
  | None =>
      let s :=
        logger INFO
          ([Lit "Saved DWSIM model to "] ++ iteration_dir ++ [Lit "/dwsim_model.dwxml"]) s in
      match simulated iw with
      | Raise e =>
          let s := logger ERROR [Lit "Error running simulation: "; Str (exn_msg e)] s in
          let feedback := simulation_error_feedback e in
          (_record_iteration_results iteration_dir process_design None feedback s, None)
      | Ok simulation_results =>
          let s :=
            logger INFO
              ([Lit "Saved simulation results to "] ++ iteration_dir
                 ++ [Lit "/simulation_results.json"]) s in
          match constraint_checked iw with
          | Raise e => (s, Some (Raises e))
          | Ok constraint_results =>
              match analyzed iw with
              | Raise e => (s, Some (Raises e))
              | Ok product_evaluation =>
                  let s :=
                    logger INFO
                      ([Lit "Saved evaluation to "] ++ iteration_dir
                         ++ [Lit "/evaluation.json"]) s in
                  let feedback :=
                    _generate_feedback constraint_results product_evaluation in
                  let current_score :=
                    score constraint_results product_evaluation in
                  let s :=
                    if score_gt current_score (best_score s) then
                      let s :=
                        set_best
                          {| bd_iteration := current_iteration s;
                             bd_process_design := process_design;
                             bd_simulation_results := simulation_results;
                             bd_constraint_check := constraint_results;
                             bd_product_evaluation := product_evaluation;
                             bd_score := current_score |}
                          current_score s in
                      logger INFO
                        [Lit "New best design found at iteration ";
                         Int (current_iteration s); Lit " with score ";
                         Num current_score] s
                    else s in
                  let s :=
                    _record_iteration_results iteration_dir process_design
                      (Some simulation_results) feedback s in
                  if String.eqb (status feedback) "success" then
                    let s := logger INFO [Lit "Process design meets all requirements!"] s in
                    match _generate_final_report w s with
                    | (s, Ok _) => (s, Some (Returns true))
                    | (s, Raise e) => (s, Some (Raises e))
                    end
                  else (s, None)
              end
          end
      end
  end.

Fixpoint while_loop_scored (fuel : nat) (w : world) (s : t) : t * option outcome :=
  if (current_iteration s <? max_iterations s)%Z then
    match fuel with
    | O => (s, Some OutOfFuel)
    | S fuel =>
        match iteration_scored w s with
        | (s, None) => while_loop_scored fuel w s
        | (s, Some o) => (s, Some o)
        end
    end
  else (s, None).

Definition run_scored (w : world) (s : t) : t * outcome :=
  let s := logger INFO [Lit "Starting process design cycle"] s in
  match while_loop_scored (budget s) w s with
  | (s, Some o) => (s, o)
  | (s, None) => after_loop w s
  end.

End ScoredBy.

End ProcessDesignerAgent.

(** * The statements of the specification *)

(** ** Scorer (spec 4.2) *)

Definition sum_Q (l : list Q) : Q := fold_right Qplus 0 l.

(** The scores of [product_evaluation["product_scores"]], in order. *)
Definition scores_of (pe : product_evaluation) : list Q :=
  List.map snd (default [] (product_scores pe)).

(** "for each product, (100 - normalized_score x 100) x (1/num_products)" *)
Definition spec_product_penalty (num_products : nat) (normalized_score : Q) : Q :=
  (100 - normalized_score * 100) * (1 / inject_Z (Z.of_nat num_products)).

Definition spec_products_penalty (scores : list Q) : Q :=
  sum_Q (List.map (spec_product_penalty (length scores)) scores).

(** The algorithm of spec 4.2 read literally: both penalties are always
    subtracted. *)
Definition spec_design_score (cr : constraint_results) (pe : product_evaluation) : Q :=
  Qmax 0
    (100
     - Qmin 50 (Qabs (default 0 (mass_balance_error cr)) * 10)
     - Qmin 50 (Qabs (default 0 (energy_balance_error cr)) * 5)
     - spec_products_penalty (scores_of pe)).

(** The penalties as the code applies them: only for a balance that is not
    satisfied (a flag that is absent counts as not satisfied). *)
Definition mass_balance_penalty (cr : constraint_results) : Q :=
  if default false (mass_balance_satisfied cr) then 0
  else Qmin 50 (Qabs (default 0 (mass_balance_error cr)) * 10).

Definition energy_balance_penalty (cr : constraint_results) : Q :=
  if default false (energy_balance_satisfied cr) then 0
  else Qmin 50 (Qabs (default 0 (energy_balance_error cr)) * 5).

Definition guarded_design_score (cr : constraint_results) (pe : product_evaluation) : Q :=
  Qmax 0
    (100 - mass_balance_penalty cr - energy_balance_penalty cr
     - spec_products_penalty (scores_of pe)).

(** Two floats, or two absent values, that denote the same number. *)
Definition same_number (a b : option Q) : Prop :=
  match a, b with
  | Some x, Some y => x == y
  | None, None => True
  | _, _ => False
  end.

(** Two evaluation inputs that are the same up to the representation of
    their numbers. *)
Definition same_constraint_results (a b : constraint_results) : Prop :=
  mass_balance_satisfied a = mass_balance_satisfied b
  /\ energy_balance_satisfied a = energy_balance_satisfied b
  /\ same_number (mass_balance_error a) (mass_balance_error b)
  /\ same_number (energy_balance_error a) (energy_balance_error b).

Definition same_product_scores (a b : product_evaluation) : Prop :=
  Forall2 (fun x y : string * Q => x.1 = y.1 /\ x.2 == y.2)
    (default [] (product_scores a)) (default [] (product_scores b)).

(** The invariant of the data model: a normalized product score lies in
    [0, 1]. *)
Definition normalized_scores (pe : product_evaluation) : Prop :=
  Forall (fun s => 0 <= s <= 1) (scores_of pe).

(** Dicts with every key present, for the examples. *)
Definition constraints_of (ms : bool) (me : Q) (es : bool) (ee : Q) : constraint_results :=
  {| mass_balance_satisfied := Some ms; mass_balance_error := Some me;
     energy_balance_satisfied := Some es; energy_balance_error := Some ee |}.

Definition products_of (met : bool) (scores : list (string * Q)) : product_evaluation :=
  {| all_specifications_met := Some met; issues := None;
     product_scores := Some scores; products := None |}.

(** ** Evaluator (spec 4.1) *)







Definition float_off (bound x y : Float64.t) : bool :=
  Float64.gt (Float64.abs (Float64.sub x y)) bound.

(** ** [compare_to_targets] *)

(** The value that [compare_to_targets] compares with a target: the
    fraction of the compound in the stream of the results, 0 when the stream
    or the compound is absent. *)
Definition actual_value (compositions : gmap string (gmap string Float64.t))
    (stream_id comp_name : string) : Float64.t :=
  default Float64.zero (default ∅ (compositions !! stream_id) !! comp_name).

(** Some targeted component is off its target by more than 0.01, in
    floats. *)
Definition some_component_off (compositions : gmap string (gmap string Float64.t))
    (ts : list (string * list (string * Float64.t))) : Prop :=
  exists stream_id target_comp comp_name target_value,
    In (stream_id, target_comp) ts
    /\ In (comp_name, target_value) target_comp
    /\ float_off (Float64.decimal 1 100)
         (actual_value compositions stream_id comp_name) target_value = true.

(** The results in which the stream [S1] holds the fraction [actual] of
    ethanol, and the targets that want the fraction [target] there; both
    are decimal literals. *)
Definition ethanol_results (actual : Q) : ResultsAnalyzer.results :=
  {| ResultsAnalyzer.product_compositions :=
       Some {[ "S1"%string := {[ "ethanol"%string := Float64.of_Q actual ]} ]};
     ResultsAnalyzer.total_energy_use := None |}.

Definition ethanol_targets (target : Q) : ResultsAnalyzer.targets :=
  {| ResultsAnalyzer.target_product_compositions :=
       Some [("S1"%string, [("ethanol"%string, Float64.of_Q target)])] |}.

(** ** Construction of the agent *)

(** Every statement of [ProcessDesignerAgent.__init__] before the call of
    [ConstraintChecker] passes: the run directory can be created, the
    configuration has the keys that are read, the OpenAI client and the
    simulator can be constructed. *)
Definition reaches_constraint_checker (h : host) (config : Config.t) : Prop :=
  makedirs h = None
  /\ openai_client h = None
  /\ exists a o d ev model api_key temperature system_message
       install_path property_package calculation_mode timeout mbt ebt,
       Config.agent config = Some a
       /\ Config.openai config = Some o
       /\ Config.dwsim config = Some d
       /\ Config.evaluation config = Some ev
       /\ Config.model a = Some model
       /\ Config.api_key o = Some api_key
       /\ Config.temperature a = Some temperature
       /\ Config.system_message a = Some system_message
       /\ Config.install_path d = Some install_path
       /\ Config.property_package d = Some property_package
       /\ Config.calculation_mode d = Some calculation_mode
       /\ Config.timeout d = Some timeout
       /\ DWSIMSimulator._validate_dwsim_installation h install_path = Ok tt
       /\ Config.mass_balance_tolerance ev = Some mbt
       /\ Config.energy_balance_tolerance ev = Some ebt.

(** A configuration file without any section, and a complete one. *)
Definition empty_config : Config.t :=
  {| Config.agent := None; Config.openai := None; Config.dwsim := None;
     Config.evaluation := None; Config.simulation := None |}.

Definition complete_config : Config.t :=
  {| Config.agent :=
       Some {| Config.model := Some "gpt-4o"%string;
               Config.temperature := Some (1 # 5);
               Config.system_message := Some "You are a process engineer."%string;
               Config.max_iterations := Some 3%Z;
               Config.save_agent_responses := None |};
     Config.openai :=
       Some {| Config.api_key := Some "sk-test"%string; Config.organization := None |};
     Config.dwsim :=
       Some {| Config.install_path := Some "/opt/dwsim"%string;
               Config.property_package := Some "NRTL"%string;
               Config.calculation_mode := Some "Sequential"%string;
               Config.timeout := Some 300%Z |};
     Config.evaluation :=
       Some {| Config.mass_balance_tolerance := Some (1 # 100);
               Config.energy_balance_tolerance := Some (1 # 20);
               Config.purity_tolerance := Some (1 # 100);
               Config.yield_tolerance := Some (1 # 50) |};
     Config.simulation := Some {| Config.generate_plots := Some false |} |}.

(** A Linux host on which DWSIM and mono are installed. *)
Definition ready_host : host :=
  {| timestamp := "20240101_000000";
     makedirs := None;
     openai_client := None;
     is_linux := true;
     path_exists := fun _ => true;
     mono := MonoExit 0 |}.

Definition empty_document : document := {| entries := [] |}.

(** ** Iteration controller (spec 4.4) *)

(** The score of iteration [i], when that iteration reaches the scoring
    step: conversion and simulation pass and both evaluation calls
    return. *)
Definition iteration_score (w : world) (i : Z) : option Q :=
  let iw := at_iteration w i in
  match converted iw, simulated iw, constraint_checked iw, analyzed iw with
  | None, Ok _, Ok cr, Ok pe =>
      Some (ProcessDesignerAgent._calculate_design_score cr pe)
  | _, _, _, _ => None
  end.

(** Iteration [i] leaves [run] with the exception of an evaluation call,
    before anything is recorded. *)
Definition evaluation_raises (iw : iteration_world) : bool :=
  match converted iw, simulated iw, constraint_checked iw, analyzed iw with
  | None, Ok _, Raise _, _ => true
  | None, Ok _, Ok _, Raise _ => true
  | _, _, _, _ => false
  end.

(** The order on [best_score]: [-inf] is below every score. *)
Definition score_le (a b : best_score_t) : Prop :=
  match a, b with
  | NegInf, _ => True
  | Score _, NegInf => False
  | Score x, Score y => x <= y
  end.

(** "BestDesign.score equals max over all iteration scores; BestDesign is
    the earliest iteration achieving that max", over the iterations
    [1 .. current_iteration]. *)
Definition best_so_far (w : world) (s : ProcessDesignerAgent.t) : Prop :=
  match ProcessDesignerAgent.best_design s with
  | None =>
      ProcessDesignerAgent.best_score s = NegInf
      /\ forall i, (1 <= i <= ProcessDesignerAgent.current_iteration s)%Z ->
                   iteration_score w i = None
  | Some b =>
      ProcessDesignerAgent.best_score s = Score (bd_score b)
      /\ (1 <= bd_iteration b <= ProcessDesignerAgent.current_iteration s)%Z
      /\ iteration_score w (bd_iteration b) = Some (bd_score b)
      /\ (forall i q,
            (1 <= i <= ProcessDesignerAgent.current_iteration s)%Z ->
            iteration_score w i = Some q -> q <= bd_score b)
      /\ (forall i q,
            (1 <= i < bd_iteration b)%Z ->
            iteration_score w i = Some q -> q < bd_score b)
  end.

(** ** [_calculate_design_score] in binary64

    The scorer as Python computes it.  The evaluation dicts hold their
    numbers as rationals: the decimal literal, or the exact value, of the
    float that the code works with. *)
Definition float_product_step (product_scores : list (string * Q))
    (score : Float64.t) (item : string * Q) : Float64.t :=
  let product_score := Float64.of_Q item.2 in
  let normalized_score := Float64.mul product_score (Float64.of_int 100) in
  let num_products := length product_scores in
  let product_weight :=
    if (0 <? num_products)%nat
    then Float64.div (Float64.of_int 1) (Float64.of_int (Z.of_nat num_products))
    else Float64.zero in
  Float64.sub score
    (Float64.mul (Float64.sub (Float64.of_int 100) normalized_score) product_weight).

Definition float_design_score (cr : constraint_results) (pe : product_evaluation)
  : Float64.t :=
  let score := Float64.of_int 100 in
  let score :=
    if negb (default false (mass_balance_satisfied cr)) then
      Float64.sub score
        (Float64.min (Float64.of_int 50)
           (Float64.mul (Float64.abs (Float64.of_Q (default 0 (mass_balance_error cr))))
              (Float64.of_int 10)))
    else score in
  let score :=
    if negb (default false (energy_balance_satisfied cr)) then
      Float64.sub score
        (Float64.min (Float64.of_int 50)
           (Float64.mul (Float64.abs (Float64.of_Q (default 0 (energy_balance_error cr))))
              (Float64.of_int 5)))
    else score in
  let product_scores := default [] (product_scores pe) in
  let score := fold_left (float_product_step product_scores) product_scores score in
  Float64.max Float64.zero score.

(** The float scorer as a scorer of the loop: the rational that its result
    stands for. *)
Definition scored_in_floats (cr : constraint_results) (pe : product_evaluation) : Q :=
  default 0 (Float64.to_Q (float_design_score cr pe)).

(** The same with the scorer as a parameter: the score that [score] gives
    to iteration [i], and the best design as the earliest maximum of these
    scores over the iterations [1 .. current_iteration]. *)
Definition iteration_score_by (score : constraint_results -> product_evaluation -> Q)
    (w : world) (i : Z) : option Q :=
  let iw := at_iteration w i in
  match converted iw, simulated iw, constraint_checked iw, analyzed iw with
  | None, Ok _, Ok cr, Ok pe => Some (score cr pe)
  | _, _, _, _ => None
  end.

Definition best_so_far_by (score : constraint_results -> product_evaluation -> Q)
    (w : world) (s : ProcessDesignerAgent.t) : Prop :=
  match ProcessDesignerAgent.best_design s with
  | None =>
      ProcessDesignerAgent.best_score s = NegInf
      /\ forall i, (1 <= i <= ProcessDesignerAgent.current_iteration s)%Z ->
                   iteration_score_by score w i = None
  | Some b =>
      ProcessDesignerAgent.best_score s = Score (bd_score b)
      /\ (1 <= bd_iteration b <= ProcessDesignerAgent.current_iteration s)%Z
      /\ iteration_score_by score w (bd_iteration b) = Some (bd_score b)
      /\ bd_process_design b = generated (at_iteration w (bd_iteration b))
      /\ (forall i q,
            (1 <= i <= ProcessDesignerAgent.current_iteration s)%Z ->
            iteration_score_by score w i = Some q -> q <= bd_score b)
      /\ (forall i q,
            (1 <= i < bd_iteration b)%Z ->
            iteration_score_by score w i = Some q -> q < bd_score b)
  end.

(** Iteration [i] is the last one of its run: its feedback is a success,
    or one of its evaluation calls raises. *)
Definition leaves_loop (iw : iteration_world) : bool :=
  match converted iw, simulated iw, constraint_checked iw, analyzed iw with
  | None, Ok _, Ok cr, Ok pe =>
      String.eqb (status (ProcessDesignerAgent._generate_feedback cr pe)) "success"
  | None, Ok _, Raise _, _ => true
  | None, Ok _, Ok _, Raise _ => true
  | _, _, _, _ => false
  end.

(** The iterations [1 .. k] are those of a run with a budget of [n]: none
    before [k] is a last one, and [k] is one unless the budget is used
    up. *)
Definition iterations_run (w : world) (n k : Z) : Prop :=
  (0 <= k <= Z.max 0 n)%Z
  /\ (forall i, (1 <= i < k)%Z -> leaves_loop (at_iteration w i) = false)
  /\ ((k < Z.max 0 n)%Z ->
      (1 <= k)%Z /\ leaves_loop (at_iteration w k) = true).

(** The invariant of the scored loop on an agent with a budget of [n]:
    the iterations [1 .. current_iteration] have been gone through, none of
    them a last one, and the best design is the earliest maximum of their
    scores. *)
Definition scored_so_far (score : constraint_results -> product_evaluation -> Q)
    (w : world) (n : Z) (s : ProcessDesignerAgent.t) : Prop :=
  ProcessDesignerAgent.max_iterations s = n
  /\ (0 <= ProcessDesignerAgent.current_iteration s <= Z.max 0 n)%Z
  /\ best_so_far_by score w s
  /\ (forall i, (1 <= i <= ProcessDesignerAgent.current_iteration s)%Z ->
                leaves_loop (at_iteration w i) = false).

(** The fields of the agent that the loop reads and writes. *)
Definition run_state (s : ProcessDesignerAgent.t) :=
  (ProcessDesignerAgent.config s,
   ProcessDesignerAgent.current_iteration s,
   ProcessDesignerAgent.max_iterations s,
   ProcessDesignerAgent.best_design s,
   ProcessDesignerAgent.best_score s,
   ProcessDesignerAgent.history s).

(** "History length equals the number of completed (recorded)
    iterations". *)
Definition history_in_step (s : ProcessDesignerAgent.t) : Prop :=
  Z.of_nat (length (ProcessDesignerAgent.history s))
  = ProcessDesignerAgent.current_iteration s.

(** The invariant of the loop on a fresh agent with a budget of [n]. *)
Definition counted (w : world) (n : Z) (s : ProcessDesignerAgent.t) : Prop :=
  history_in_step s
  /\ ProcessDesignerAgent.max_iterations s = n
  /\ (0 <= ProcessDesignerAgent.current_iteration s <= Z.max 0 n)%Z
  /\ best_so_far w s.

(** Worlds for the scenarios of the specification. *)
Definition some_design : Design.t :=
  {| Design.process_name := Some "Ethanol dehydration"%string;
     Design.description := None;
     Design.property_package := Some "NRTL"%string |}.

Definition some_simulation : Simulation.t :=
  {| Simulation.keys := ["streams"; "unit_operations"; "mass_balance"; "energy_balance"]%string |}.

(** Scenario D: the simulator times out in every iteration
    ([run_simulation] turns the timeout into a [RuntimeError]). *)
Definition timeout_world : world :=
  {| at_iteration := fun _ =>
       {| generated := some_design;
          converted := None;
          simulated :=
            Raise (mk_exn RuntimeError "DWSIM simulation timed out after 300 seconds");
          constraint_checked := Ok (constraints_of true 0 true 0);
          analyzed := Ok (products_of true []) |};
     plots := None |}.

(** Conversion fails in every iteration. *)
Definition unconvertible_world : world :=
  {| at_iteration := fun _ =>
       {| generated := some_design;
          converted := Some (mk_exn KeyError "id");
          simulated := Ok some_simulation;
          constraint_checked := Ok (constraints_of true 0 true 0);
          analyzed := Ok (products_of true []) |};
     plots := None |}.

(** An agent about to run, with a budget of [n] iterations. *)
Definition agent_with_budget (n : Z) : ProcessDesignerAgent.t :=
  ProcessDesignerAgent.fresh complete_config empty_document empty_document
    "output/run_20240101_000000" n.

(** Two designs that miss the specifications with the same product score
    0.9: the first has one product, the second and every later one has
    three.  In exact arithmetic all of them score 90. *)
Definition rounding_world : world :=
  {| at_iteration := fun i =>
       {| generated := some_design;
          converted := None;
          simulated := Ok some_simulation;
          constraint_checked := Ok (constraints_of true 0 true 0);
          analyzed :=
            Ok (if (i =? 1)%Z
                then products_of false [("ethanol"%string, 9 # 10)]
                else products_of false [("ethanol"%string, 9 # 10);
                                        ("water"%string, 9 # 10);
                                        ("acetic acid"%string, 9 # 10)]) |};
     plots := None |}.

(** * Further properties of the code: their statements *)

(** ** Scorer *)

(** [cr'] is at least as well balanced as [cr]: a balance satisfied in [cr]
    is satisfied in [cr'], and no error is larger in absolute value. *)
Definition at_least_as_balanced (cr' cr : constraint_results) : Prop :=
  (default false (mass_balance_satisfied cr) = true ->
   default false (mass_balance_satisfied cr') = true)
  /\ (default false (energy_balance_satisfied cr) = true ->
      default false (energy_balance_satisfied cr') = true)
  /\ Qabs (default 0 (mass_balance_error cr'))
     <= Qabs (default 0 (mass_balance_error cr))
  /\ Qabs (default 0 (energy_balance_error cr'))
     <= Qabs (default 0 (energy_balance_error cr)).

(** The same products, each with a score at least as high. *)
Definition scores_at_least (pe' pe : product_evaluation) : Prop :=
  Forall2 (fun x y : string * Q => y.2 <= x.2)
    (default [] (product_scores pe')) (default [] (product_scores pe)).

(** The mean of a list of scores. *)
Definition mean (l : list Q) : Q := sum_Q l / inject_Z (Z.of_nat (length l)).

(** ** Feedback synthesizer *)

Definition mass_issue (cr : constraint_results) : text :=
  [Lit "Mass balance error: ";
   ProcessDesignerAgent.or_unknown (mass_balance_error cr); Lit "%"].

Definition energy_issue (cr : constraint_results) : text :=
  [Lit "Energy balance error: ";
   ProcessDesignerAgent.or_unknown (energy_balance_error cr); Lit "%"].

(** One issue string per unsatisfied balance, mass first. *)
Definition expected_constraint_issues (cr : constraint_results) : list text :=
  (if default false (mass_balance_satisfied cr) then [] else [mass_issue cr])
  ++ (if default false (energy_balance_satisfied cr) then [] else [energy_issue cr]).

Definition expected_constraint_suggestions (cr : constraint_results) : list text :=
  (if default false (mass_balance_satisfied cr) then []
   else [[Lit "Adjust flow rates or component splits to ensure mass conservation"]])
  ++ (if default false (energy_balance_satisfied cr) then []
      else [[Lit "Review heat duties and enthalpy calculations for energy conservation"]]).

(** The issues of all products, product by product, as (product, type,
    details). *)
Definition issues_of_product (p : string * list (string * string))
  : list (string * string * string) :=
  List.map (fun i : string * string => (p.1, i.1, i.2)) p.2.

Definition all_product_issues (pe : product_evaluation)
  : list (string * string * string) :=
  flat_map issues_of_product (default [] (issues pe)).

Definition product_issue_text (i : string * string * string) : text :=
  [Str i.1.1; Lit ": "; Str i.1.2; Lit " - "; Str i.2].

(** The issue types for which a suggestion is written. *)
Definition known_issue_types : list string :=
  ["purity"; "yield"; "production_rate"; "temperature"; "pressure"]%string.

(** ** Iteration controller *)

(** The records of the history are numbered 1, 2, ... in order. *)
Definition numbered (h : list iteration_record) : Prop :=
  forall (k : nat) (r : iteration_record),
    h !! k = Some r -> ir_iteration r = (Z.of_nat k + 1)%Z.

Definition not_success (r : iteration_record) : Prop :=
  status (ir_feedback r) <> "success"%string.

(** Two iterations for an edge of the report: a first design that misses
    the product specifications but has no product score, hence the score
    100, and a second design that meets everything with a product score of
    0.9, hence the score 90. *)
Definition unscored_then_success : world :=
  {| at_iteration := fun i =>
       {| generated := some_design;
          converted := None;
          simulated := Ok some_simulation;
          constraint_checked := Ok (constraints_of true 0 true 0);
          analyzed :=
            Ok (if (i =? 1)%Z
                then {| all_specifications_met := Some false; issues := None;
                        product_scores := None; products := None |}
                else products_of true [("ethanol"%string, 9 # 10)]) |};
     plots := None |}.

(** The invariant of the loop on a fresh agent with the configuration [c]
    and a budget of [n]: the counters agree, the records are numbered in
    order and none of them is a success. *)
Definition looping (w : world) (c : Config.t) (n : Z) (s : ProcessDesignerAgent.t)
  : Prop :=
  counted w n s
  /\ ProcessDesignerAgent.config s = c
  /\ numbered (ProcessDesignerAgent.history s)
  /\ Forall not_success (ProcessDesignerAgent.history s).

(** What holds of the agent when [run] returns [b]: the history, the best
    design and the report that was written. *)
Definition returned (w : world) (c : Config.t) (n : Z) (b : bool)
    (s : ProcessDesignerAgent.t) : Prop :=
  Config.simulation c <> None
  /\ best_so_far w s
  /\ history_in_step s
  /\ numbered (ProcessDesignerAgent.history s)
  /\ (if b
      then exists h r,
             ProcessDesignerAgent.history s = h ++ [r]
             /\ status (ir_feedback r) = "success"%string
             /\ Forall not_success h
      else Forall not_success (ProcessDesignerAgent.history s)
           /\ ProcessDesignerAgent.current_iteration s = n)
  /\ exists bd s1,
       ProcessDesignerAgent.best_design s = Some bd
       /\ run_state s1 = run_state s
       /\ ProcessDesignerAgent.final_report s
          = Some (ProcessDesignerAgent.build_report s1 bd).

(** A configuration file without a ["simulation"] section. *)
Definition config_without_simulation : Config.t :=
  {| Config.agent := Config.agent complete_config;
     Config.openai := Config.openai complete_config;
     Config.dwsim := Config.dwsim complete_config;
     Config.evaluation := Config.evaluation complete_config;
     Config.simulation := None |}.

(** ** The design checks of [ConstraintChecker] *)

(** The type of a unit as the checks see it. *)
Definition kind (u : ConstraintChecker.unit_operation) : string :=
  lower (default ""%string (ConstraintChecker.unit_type u)).

(** The requirement of [check_parameters] on one unit. *)
Definition parameters_valid (u : ConstraintChecker.unit_operation) : Prop :=
  (kind u = "reactor"%string -> 0 < default 0 (ConstraintChecker.volume u))
  /\ (kind u = "distillation_column"%string ->
      0 < default 0 (ConstraintChecker.num_trays u)).

(** The requirement of [check_stream_connections] on the unit [u] with the
    id [id]. *)
Definition connected (cs : list ConstraintChecker.connection) (id : string)
    (u : ConstraintChecker.unit_operation) : Prop :=
  (kind u ∈ ["reactor"; "distillation_column"; "heat_exchanger"]%string ->
   (exists c, c ∈ cs /\ ConstraintChecker.conn_to c = Some id)
   /\ (exists c, c ∈ cs /\ ConstraintChecker.conn_from c = Some id))
  /\ (kind u = "pump"%string ->
      (exists c, c ∈ cs /\ ConstraintChecker.conn_to c = Some id)
      /\ length (ConstraintChecker.outlets_of cs id) = 1%nat).

(** A unit with an id and a type only. *)
Definition unit_of (id type : string) : ConstraintChecker.unit_operation :=
  {| ConstraintChecker.unit_id := Some id;
     ConstraintChecker.unit_type := Some type;
     ConstraintChecker.volume := None;
     ConstraintChecker.num_trays := None |}.

Definition connection_of (src dst : string) : ConstraintChecker.connection :=
  {| ConstraintChecker.conn_from := Some src; ConstraintChecker.conn_to := Some dst |}.

(** ** The simulator seen from the controller *)

(** The results of [run_simulation] as the controller sees them: a dict
    with the keys that the script wrote. *)
Definition to_simulation (p : DWSIMSimulator.payload) : Simulation.t :=
  match p with
  | DWSIMSimulator.Success _ _ _ _ =>
      {| Simulation.keys :=
           ["status"; "streams"; "unit_operations"; "mass_balance";
            "energy_balance"]%string |}
  | DWSIMSimulator.Error _ => {| Simulation.keys := ["status"; "message"]%string |}
  | DWSIMSimulator.Loaded (JDict d) => {| Simulation.keys := d.*1 |}
  | DWSIMSimulator.Loaded _ => {| Simulation.keys := [] |}
  end.

(** The documents that [run_simulation] hands on: the results that the
    script writes, and every other dict whose status is not ["error"]. *)
Definition handed_on (p : DWSIMSimulator.payload) : Prop :=
  match p with
  | DWSIMSimulator.Success _ _ _ _ => True
  | DWSIMSimulator.Error _ => False
  | DWSIMSimulator.Loaded (JDict d) => DWSIMSimulator.is_error d = false
  | DWSIMSimulator.Loaded _ => False
  end.

(** What [self.simulator.run_simulation(model_path)] gives [run]. *)
Definition simulated_by (c : DWSIMSimulator.simulation_call) : result Simulation.t :=
  match DWSIMSimulator.outcome c with
  | Ok p => Ok (to_simulation p)
  | Raise e => Raise e
  end.

(** A host on which the DWSIM process runs to its end and the script
    leaves the file [file]. *)
Definition host_with_file (file : option DWSIMSimulator.payload)
  : DWSIMSimulator.simulation_host :=
  {| DWSIMSimulator.prepare := None;
     DWSIMSimulator.launch := None;
     DWSIMSimulator.process := DWSIMSimulator.Exited 0;
     DWSIMSimulator.results_file := option_map Ok file |}.

Definition some_simulator : DWSIMSimulator.t :=
  DWSIMSimulator.mk "/opt/dwsim" "NRTL" "Sequential" 300.

(** A world in which the simulator of every iteration is [run_simulation]
    on a DWSIM calculation that does not converge. *)
Definition diverging_world : world :=
  {| at_iteration := fun _ =>
       {| generated := some_design;
          converted := None;
          simulated :=
            simulated_by
              (DWSIMSimulator.run_simulation some_simulator
                 (host_with_file
                    (DWSIMSimulator.automation_script DWSIMSimulator.NotConverged true)));
          constraint_checked := Ok (constraints_of true 0 true 0);
          analyzed := Ok (products_of true []) |};
     plots := None |}.

(** The streams that the script counts as input: nothing is attached to
    their inlet. *)
Definition is_input (s : DWSIMSimulator.script_stream) : bool :=
  String.eqb (DWSIMSimulator.stream_from s) "none".

(** The streams that it counts as output: their inlet is attached and
    nothing is attached to their outlet. *)
Definition is_output (s : DWSIMSimulator.script_stream) : bool :=
  negb (String.eqb (DWSIMSimulator.stream_from s) "none")
  && String.eqb (DWSIMSimulator.stream_to s) "none".

Definition flow_sum (f : DWSIMSimulator.script_stream -> bool)
    (streams : list (string * DWSIMSimulator.script_stream)) : Q :=
  sum_Q (List.map (fun x => DWSIMSimulator.total_flow x.2)
           (List.filter (fun x => f x.2) streams)).

(** ** Input data *)

(** Every item is a dict that has all the required keys. *)
Definition well_formed_entries (required_keys : list string) (items : list json) : Prop :=
  Forall (fun item =>
            exists entry,
              item = JDict entry
              /\ Forall (fun key => dict_get key entry <> None) required_keys)
    items.

(** The pairs of different units that [convert_units] knows. *)
Definition conversion_table : list (string * string) :=
  [("C", "K"); ("K", "C"); ("F", "K"); ("K", "F"); ("F", "C"); ("C", "F");
   ("kPa", "bar"); ("bar", "kPa"); ("psi", "kPa"); ("kPa", "psi");
   ("bar", "psi"); ("psi", "bar"); ("kmol/h", "kg/h"); ("kg/h", "kmol/h")]%string.

(** The value of a conversion that did not raise. *)
Definition converted_value (c : DataHandler.conversion) : option Q :=
  match c with
  | DataHandler.Converted v _ => Some v
  | DataHandler.Unsupported _ _ => None
  end.

(** [v] psi in kPa. *)
Definition value_of_psi (v : Q) : Q := v * 6.89476.

(** ** [main.py] *)

Module Main.

(** The parsed command line. *)
Record args : Set := {
  raw_materials : string;
  product_specs : string;
  config : string;
  output_dir : string;
  property_package : option string;
  max_iterations : option Z;
  verbose : bool
}.

(** What [yaml.safe_load] returns for the configuration file.  A mapping:
    [sections] holds its sections that are mappings, and [others] gives,
    for each key of the five whose value is not a mapping, the name of the
    type of that value ([NoneType] for a section left empty); a key listed
    in [others] counts as not held by [sections].  Or anything else, known
    by the name of its type: [NoneType] for an empty file. *)
Inductive loaded : Set :=
| Mapping (sections : Config.t) (others : list (string * string))
| NotAMapping (type_name : string).

(** The message of the [TypeError] of [x["key"]] for an [x] of the type
    [type_name], which is not a dict.  (The message for [str] is that of
    CPython 3.11 and later; earlier versions stop after [integers].) *)
Definition subscript_error (type_name : string) : string :=
  if String.eqb type_name "str" then "string indices must be integers, not 'str'"
  else if String.eqb type_name "list"
       then "list indices must be integers or slices, not str"
  else if String.eqb type_name "bytes"
       then "byte indices must be integers or slices, not str"
  else "'" +:+ type_name +:+ "' object is not subscriptable".

(** The message of the [TypeError] of [x["key"] = value]. *)
Definition assignment_error (type_name : string) : string :=
  if String.eqb type_name "list"
  then "list indices must be integers or slices, not str"
  else "'" +:+ type_name +:+ "' object does not support item assignment".

(** [config[k]["..."]]: the first subscript, and what the second one
    raises when the value under [k] is not a mapping. *)
Definition section {V : Type} (others : list (string * string)) (k : string)
    (field : option V) : result V :=
  match dict_get k others with
  | Some type_name => Raise (mk_exn TypeError (subscript_error type_name))
  | None => subscript k field
  end.

(** What [main] finds around it: whether the output directory exists and
    what [os.makedirs] does, what reading the configuration file gives,
    what the two loaders of [DataHandler] return or raise, and the host
    and the collaborators of the agent. *)
Record environment : Type := {
  output_dir_exists : bool;
  make_output_dir : option exn;
  config_file : result loaded;
  raw_materials_file : result document;
  product_specs_file : result document;
  agent_host : host;
  agent_world : world
}.

(** How [main] ends. *)
Inductive ending : Set :=
| Returned
| Escaped (e : exn).

(** [config['dwsim']['property_package'] = value] *)
Definition set_property_package (value : string) (config : loaded)
  : result loaded :=
  match config with
  | NotAMapping type_name => Raise (mk_exn TypeError (subscript_error type_name))
  | Mapping config others =>
      match dict_get "dwsim" others with
      | Some type_name => Raise (mk_exn TypeError (assignment_error type_name))
      | None =>
          try! c := subscript "dwsim" (Config.dwsim config) in
          Ok (Mapping
                {| Config.agent := Config.agent config;
                   Config.openai := Config.openai config;
                   Config.dwsim :=
                     Some {| Config.install_path := Config.install_path c;
                             Config.property_package := Some value;
                             Config.calculation_mode := Config.calculation_mode c;
                             Config.timeout := Config.timeout c |};
                   Config.evaluation := Config.evaluation config;
                   Config.simulation := Config.simulation config |}
                others)
      end
  end.

(** [config['agent']['max_iterations'] = value] *)
Definition set_max_iterations (value : Z) (config : loaded) : result loaded :=
  match config with
  | NotAMapping type_name => Raise (mk_exn TypeError (subscript_error type_name))
  | Mapping config others =>
      match dict_get "agent" others with
      | Some type_name => Raise (mk_exn TypeError (assignment_error type_name))
      | None =>
          try! c := subscript "agent" (Config.agent config) in
          Ok (Mapping
                {| Config.agent :=
                     Some {| Config.model := Config.model c;
                             Config.temperature := Config.temperature c;
                             Config.system_message := Config.system_message c;
                             Config.max_iterations := Some value;
                             Config.save_agent_responses :=
                               Config.save_agent_responses c |};
                   Config.openai := Config.openai config;
                   Config.dwsim := Config.dwsim config;
                   Config.evaluation := Config.evaluation config;
                   Config.simulation := Config.simulation config |}
                others)
      end
  end.

(** [ProcessDesignerAgent(config=config, ...)] for a configuration as it
    was loaded: the statements of [ProcessDesignerAgent.__init__], in
    which reading a key of a section that is not a mapping, or a section
    of a document that is not a mapping, raises [TypeError]. *)
Definition construct (h : host) (config : loaded)
    (raw_materials product_specs : document) (output_dir : string)
  : result ProcessDesignerAgent.t :=
  match config with
  | NotAMapping type_name =>
      try! _ := may_raise (makedirs h) in
      (* config["agent"] *)
      Raise (mk_exn TypeError (subscript_error type_name))
  | Mapping config others =>
      let base_output_dir := output_dir in
      let output_dir := base_output_dir +:+ "/run_" +:+ timestamp h in
      try! _ := may_raise (makedirs h) in
      (* self.model_manager = OpenAIModelManager(...) *)
      try! c := section others "agent" (Config.agent config) in
      try! model := subscript "model" (Config.model c) in
      try! c := section others "openai" (Config.openai config) in
      try! api_key := subscript "api_key" (Config.api_key c) in
      try! c := section others "openai" (Config.openai config) in
      let organization := default ""%string (Config.organization c) in
      try! c := section others "agent" (Config.agent config) in
      try! temperature := subscript "temperature" (Config.temperature c) in
      try! c := section others "agent" (Config.agent config) in
      try! system_message := subscript "system_message" (Config.system_message c) in
      try! model_manager :=
        OpenAIModelManager.__init__ h model api_key organization temperature
          system_message in
      (* self.simulator = DWSIMSimulator(...) *)
      try! c := section others "dwsim" (Config.dwsim config) in
      try! dwsim_path := subscript "install_path" (Config.install_path c) in
      try! c := section others "dwsim" (Config.dwsim config) in
      try! property_package :=
        subscript "property_package" (Config.property_package c) in
      try! c := section others "dwsim" (Config.dwsim config) in
      try! calculation_mode :=
        subscript "calculation_mode" (Config.calculation_mode c) in
      try! c := section others "dwsim" (Config.dwsim config) in
      try! timeout := subscript "timeout" (Config.timeout c) in
      try! simulator :=
        DWSIMSimulator.__init__ h dwsim_path property_package calculation_mode
          timeout in
      (* self.constraint_checker = ConstraintChecker(...) *)
      try! c := section others "evaluation" (Config.evaluation config) in
      try! mass_balance_tolerance :=
        subscript "mass_balance_tolerance" (Config.mass_balance_tolerance c) in
      try! c := section others "evaluation" (Config.evaluation config) in
      try! energy_balance_tolerance :=
        subscript "energy_balance_tolerance" (Config.energy_balance_tolerance c) in
      try! constraint_checker :=
        ConstraintChecker.__init__
          [("mass_balance_tolerance", KwNum mass_balance_tolerance);
           ("energy_balance_tolerance", KwNum energy_balance_tolerance)]%string in
      (* self.results_analyzer = ResultsAnalyzer(...) *)
      try! c := section others "evaluation" (Config.evaluation config) in
      try! purity_tolerance :=
        subscript "purity_tolerance" (Config.purity_tolerance c) in
      try! c := section others "evaluation" (Config.evaluation config) in
      try! yield_tolerance := subscript "yield_tolerance" (Config.yield_tolerance c) in
      try! results_analyzer :=
        ResultsAnalyzer.__init__
          [("product_specs", KwDoc product_specs);
           ("purity_tolerance", KwNum purity_tolerance);
           ("yield_tolerance", KwNum yield_tolerance)]%string in
      try! c := section others "agent" (Config.agent config) in
      try! max_iterations := subscript "max_iterations" (Config.max_iterations c) in
      Ok (ProcessDesignerAgent.fresh config raw_materials product_specs output_dir
            max_iterations)
  end.

(** The try block that constructs and runs the agent, with the log of
    [main] so far. *)
Definition design (env : environment) (a : args) (config : loaded)
    (raw_materials product_specs : document) (log : list (level * text))
  : list (level * text) :=
  match construct (agent_host env) config raw_materials product_specs
          (output_dir a) with
  | Raise e => log ++ [(ERROR, [Lit "Error during process design: "; Str (exn_msg e)])]
  | Ok agent =>
      match (ProcessDesignerAgent.run (agent_world env) agent).2 with
      | Returns true =>
          log ++ [(INFO, [Lit "Process design completed successfully!"]);
                  (INFO, [Lit "Final results saved to "; Str (output_dir a)])]
      | Returns false =>
          log ++ [(WARNING,
                   [Lit "Process design did not fully meet specifications within the iteration limit"]);
                  (INFO, [Lit "Best attempt results saved to "; Str (output_dir a)])]
      | Raises e =>
          log ++ [(ERROR, [Lit "Error during process design: "; Str (exn_msg e)])]
      | OutOfFuel => log
      end
  end.

(** What follows the overrides: loading the input data, then the
    agent. *)
Definition load_and_design (env : environment) (a : args) (config : loaded)
    (log : list (level * text)) : list (level * text) :=
  match (try! raw_materials := raw_materials_file env in
         try! product_specs := product_specs_file env in
         Ok (raw_materials, product_specs)) with
  | Raise e => log ++ [(ERROR, [Lit "Error loading input data: "; Str (exn_msg e)])]
  | Ok (raw_materials, product_specs) =>
      let log :=
        log ++ [(INFO, [Lit "Loaded "; Int (Z.of_nat (length (entries raw_materials)));
                        Lit " raw materials and ";
                        Int (Z.of_nat (length (entries product_specs)));
                        Lit " product specifications"])] in
      design env a config raw_materials product_specs log
  end.

(** The two overrides of the configuration by the command line. *)
Definition overrides (a : args) (config : loaded) (log : list (level * text))
  : list (level * text) * result loaded :=
  match
    match property_package a with
    | Some (String _ _ as value) =>
        try! config := set_property_package value config in
        Ok (config,
            log ++ [(INFO, [Lit "Using property package from command line: ";
                            Str value])])
    | _ => Ok (config, log)
    end
  with
  | Raise e => (log, Raise e)
  | Ok (config, log) =>
      match max_iterations a with
      | Some value =>
          if (value =? 0)%Z then (log, Ok config)
          else
            match set_max_iterations value config with
            | Raise e => (log, Raise e)
            | Ok config =>
                (log ++ [(INFO, [Lit "Using max iterations from command line: ";
                                 Int value])],
                 Ok config)
            end
      | None => (log, Ok config)
      end
  end.

Definition main (env : environment) (a : args) : list (level * text) * ending :=
  let log := [(INFO, [Lit "Starting Chemical Process Design Agent"])] in
  let config_path := config a in
  match
    (if output_dir_exists env then Ok log
     else
       try! _ := may_raise (make_output_dir env) in
       Ok (log ++ [(INFO, [Lit "Created output directory: "; Str (output_dir a)])]))
  with
  | Raise e => (log, Escaped e)
  | Ok log =>
      match config_file env with
      | Raise e =>
          (log ++ [(ERROR, [Lit "Error loading configuration: "; Str (exn_msg e)])],
           Returned)
      | Ok config =>
          let log :=
            log ++ [(INFO, [Lit "Loaded configuration from "; Str config_path])] in
          match overrides a config log with
          | (log, Raise e) => (log, Escaped e)
          | (log, Ok config) => (load_and_design env a config log, Returned)
          end
      end
  end.

End Main.

(** Each string of [l] once, in the order of first occurrence. *)
Fixpoint first_occurrences (l : list string) : list string :=
  match l with
  | [] => []
  | x :: rest => x :: filter (fun y => y <> x) (first_occurrences rest)
  end.

(** The compounds of all the streams of a design, in order. *)
Definition all_compounds (d : ModelConverter.process_design)
  : list ModelConverter.compound :=
  concat (List.map (fun s => default [] (ModelConverter.compounds s))
            (default [] (ModelConverter.streams d))).

(** The first compound called [n]. *)
Definition first_named (n : string) (cs : list ModelConverter.compound)
  : option ModelConverter.compound :=
  List.find (fun c => bool_decide (ModelConverter.name c = Some n)) cs.

(** An entry of the extracted list is [ok] for the compounds [cs] when its
    formula is that of the first compound of [cs] with its name, or the name
    itself when that compound has no formula. *)
Definition entry_of (cs : list ModelConverter.compound)
    (e : ModelConverter.compound_entry) : Prop :=
  exists c, first_named (ModelConverter.ce_name e) cs = Some c
            /\ ModelConverter.ce_formula e
               = default (ModelConverter.ce_name e) (ModelConverter.formula c).

(** What the dict [compounds] of [_extract_compounds] holds after the
    compounds [pre] have been seen. *)
Definition extracted (pre : list ModelConverter.compound)
    (found : list (string * ModelConverter.compound_entry)) : Prop :=
  Forall (fun c => ModelConverter.name c <> None) pre
  /\ found.*1 = first_occurrences (omap ModelConverter.name pre)
  /\ Forall (fun kv => ModelConverter.ce_name kv.2 = kv.1 /\ entry_of pre kv.2) found.

(** The first child of [e] with the tag [t], and its text. *)
Definition child (t : string) (e : ET.element)
  : option ET.element :=
  List.find (fun c => String.eqb (ET.tag c) t) (ET.children e).

Definition child_text (t : string) (e : ET.element) : option frag :=
  child t e ≫= ET.text.

(** The element [e] with the children [cs] added after its own. *)
Definition with_children (cs : list ET.element) (e : ET.element)
  : ET.element :=
  ET.Element (ET.tag e) (ET.attrib e)
    (ET.text e) (ET.children e ++ cs).

(** The [Outlet] and [Inlet] elements that a connection gives to the unit
    called [id]: none when the connection has no [stream_id] or an empty
    one, an [Outlet] when the connection comes from [id], then an [Inlet]
    when it goes to [id]. *)
Definition ports_of_connection (id : string) (conn : ModelConverter.connection)
  : list ET.element :=
  match ModelConverter.conn_stream_id conn with
  | Some (String _ _ as stream_id) =>
      (if bool_decide (ModelConverter.conn_from conn = Some id)
       then [ModelConverter.port "Outlet" stream_id] else [])
      ++ (if bool_decide (ModelConverter.conn_to conn = Some id)
          then [ModelConverter.port "Inlet" stream_id] else [])
  | _ => []
  end.

(** The ports of the unit called [id], in the order of the connections;
    the empty id gets none. *)
Definition ports_of (id : string) (connections : list ModelConverter.connection)
  : list ET.element :=
  if String.eqb id "" then []
  else flat_map (ports_of_connection id) connections.

(** The exception that a call raises, if any. *)
Definition raised {A : Type} (r : result A) : option exn :=
  match r with
  | Ok _ => None
  | Raise e => Some e
  end.

(** A world in which the conversion step of every iteration is the one of
    [ModelConverter] as it is written, on some design and with some
    UUIDs. *)
Definition converter_as_written (w : world) : Prop :=
  forall i, exists uuid4 d,
    converted (at_iteration w i) = raised (ModelConverter.convert_and_save uuid4 d).

(** The exceptions of the conversion step. *)
Definition conversion_failure (e : exn) : Prop :=
  e = mk_exn KeyError "name"
  \/ e = mk_exn KeyError "id"
  \/ e = mk_exn AttributeError "'ModelConverter' object has no attribute 'save_model'".

(** The record of an iteration in which the conversion failed. *)
Definition conversion_failed (rec : iteration_record) : Prop :=
  ir_simulation_results_path rec = None
  /\ exists e, conversion_failure e
               /\ ir_feedback rec = ProcessDesignerAgent.conversion_error_feedback e.

Definition unit_called (id type : string) : ModelConverter.unit_operation :=
  {| ModelConverter.unit_id := Some id;
     ModelConverter.unit_type := Some type;
     ModelConverter.reaction_id := None;
     ModelConverter.volume := None;
     ModelConverter.num_trays := None;
     ModelConverter.reflux_ratio := None;
     ModelConverter.heat_duty := None |}.

(** Two pumps with the same id and a feed connected to that id. *)
Definition twin_design : ModelConverter.process_design :=
  {| ModelConverter.process_name := None;
     ModelConverter.description := None;
     ModelConverter.property_package := None;
     ModelConverter.streams := None;
     ModelConverter.unit_operations := Some [unit_called "P1" "pump"; unit_called "P1" "pump"];
     ModelConverter.connections :=
       Some [{| ModelConverter.conn_from := Some "feed"%string;
                ModelConverter.conn_to := Some "P1"%string;
                ModelConverter.conn_stream_id := Some "S1"%string |}] |}.

(** A world whose conversions are made by [ModelConverter], and in which
    everything after the conversion would pass. *)
Definition written_world : world :=
  {| at_iteration := fun _ =>
       {| generated := some_design;
          converted :=
            raised (ModelConverter.convert_and_save (fun _ => ""%string) twin_design);
          simulated := Ok some_simulation;
          constraint_checked := Ok (constraints_of true 0 true 0);
          analyzed := Ok (products_of true []) |};
     plots := None |}.

(** What holds of the agent during a run in which no conversion passes. *)
Definition never_converted (n : Z) (s : ProcessDesignerAgent.t) : Prop :=
  ProcessDesignerAgent.best_design s = None
  /\ ProcessDesignerAgent.final_report s = None
  /\ ProcessDesignerAgent.max_iterations s = n
  /\ (0 <= ProcessDesignerAgent.current_iteration s <= Z.max 0 n)%Z
  /\ length (ProcessDesignerAgent.history s)
     = Z.to_nat (ProcessDesignerAgent.current_iteration s)
  /\ Forall conversion_failed (ProcessDesignerAgent.history s).

(** The first key of an interaction parameter that is missing, in the
    order in which [create_property_package] reads them. *)
Definition missing_key (p : PropertyPackageHandler.interaction_parameter)
  : option string :=
  match PropertyPackageHandler.compound1 p, PropertyPackageHandler.compound2 p,
        PropertyPackageHandler.value p with
  | None, _, _ => Some "compound1"%string
  | Some _, None, _ => Some "compound2"%string
  | Some _, Some _, None => Some "value"%string
  | Some _, Some _, Some _ => None
  end.

(** The config that [_save_input_data] means to dump, for the config
    [config]: the same keys in the same order with the same values, except
    that the agent section, [agent], has lost its ["system_message"]. *)
Definition saved_config (config : list (string * yaml)) (agent : option (list (string * yaml)))
    (saved : list (string * yaml)) : Prop :=
  saved.*1 = config.*1
  /\ (forall k, k <> "agent"%string -> dict_get k saved = dict_get k config)
  /\ match agent with
     | None => dict_get "agent" saved = None
     | Some items =>
         exists items',
           dict_get "agent" saved = Some (YDict items')
           /\ dict_get "system_message" items' = None
           /\ forall k, k <> "system_message"%string ->
                        dict_get k items' = dict_get k items
     end.

(** The messages that [main] logs after [agent.run()] has returned. *)
Definition agent_ran (log : list (level * text)) : Prop :=
  (INFO, [Lit "Process design completed successfully!"]) ∈ log
  \/ (WARNING,
      [Lit "Process design did not fully meet specifications within the iteration limit"])
     ∈ log.

(** The three error messages of [main]. *)
Definition main_error (entry : level * text) : Prop :=
  exists msg,
    entry = (ERROR, [Lit "Error loading configuration: "; Str msg])
    \/ entry = (ERROR, [Lit "Error loading input data: "; Str msg])
    \/ entry = (ERROR, [Lit "Error during process design: "; Str msg]).

(** [bool(args.property_package)] and [bool(args.max_iterations)] *)
Definition package_given (a : Main.args) : bool :=
  match Main.property_package a with
  | Some (String _ _) => true
  | _ => false
  end.

Definition iterations_given (a : Main.args) : bool :=
  match Main.max_iterations a with
  | Some z => negb (z =? 0)%Z
  | None => false
  end.

(** The command line without the options that [main] treats as absent: an
    empty [--property-package] and [--max-iterations 0]. *)
Definition effective (a : Main.args) : Main.args :=
  {| Main.raw_materials := Main.raw_materials a;
     Main.product_specs := Main.product_specs a;
     Main.config := Main.config a;
     Main.output_dir := Main.output_dir a;
     Main.property_package :=
       if package_given a then Main.property_package a else None;
     Main.max_iterations :=
       if iterations_given a then Main.max_iterations a else None;
     Main.verbose := Main.verbose a |}.

(** What [config[name][...] = value] does in [main], for the section
    [name] that [held] reads from a mapping: it raises [e]. *)
Definition assignment_raises {V : Type} (name : string) (held : Config.t -> option V)
    (config : Main.loaded) (e : exn) : Prop :=
  match config with
  | Main.NotAMapping type_name => e = mk_exn TypeError (Main.subscript_error type_name)
  | Main.Mapping sections others =>
      match dict_get name others with
      | Some type_name => e = mk_exn TypeError (Main.assignment_error type_name)
      | None => held sections = None /\ e = mk_exn KeyError name
      end
  end.

(** The assignment passes: the configuration is a mapping that holds a
    mapping under [name]. *)
Definition assignment_passes {V : Type} (name : string) (held : Config.t -> option V)
    (config : Main.loaded) : Prop :=
  match config with
  | Main.NotAMapping _ => False
  | Main.Mapping sections others =>
      dict_get name others = None /\ held sections <> None
  end.

(** An environment in which the output directory exists, the configuration
    file gives [config] and the input files are empty. *)
Definition environment_with (config : Main.loaded) : Main.environment :=
  {| Main.output_dir_exists := true;
     Main.make_output_dir := None;
     Main.config_file := Ok config;
     Main.raw_materials_file := Ok empty_document;
     Main.product_specs_file := Ok empty_document;
     Main.agent_host := ready_host;
     Main.agent_world := written_world |}.

(** A command line with [--max-iterations 5] and no property package. *)
Definition five_iterations : Main.args :=
  {| Main.raw_materials := "raw_materials.json";
     Main.product_specs := "product_specs.json";
     Main.config := "config.yaml";
     Main.output_dir := "output";
     Main.property_package := None;
     Main.max_iterations := Some 5%Z;
     Main.verbose := false |}.

Import ProcessDesignerAgent.

(** * Proofs *)

(** ** Arithmetic on floats *)

Lemma Qltb_lt (x y : Q) : Qltb x y = true <-> x < y.
Proof.
  unfold Qltb. rewrite negb_true_iff.
  destruct (Qle_bool y x) eqn:E.
  - apply Qle_bool_iff in E. split; [discriminate | intros H; exfalso; lra].
  - split; [intros _ | reflexivity].
    destruct (Qlt_le_dec x y) as [H | H]; [exact H |].
    apply Qle_bool_iff in H. congruence.
Qed.

Lemma Qltb_ge (x y : Q) : Qltb x y = false <-> y <= x.
Proof.
  unfold Qltb. rewrite negb_false_iff. apply Qle_bool_iff.
Qed.

Lemma Qmin_50_nonneg (x : Q) : 0 <= x -> 0 <= Qmin 50 x.
Proof.
  intros H. apply Q.min_glb; lra.
Qed.

Lemma sum_Q_nonneg (l : list Q) : Forall (fun x => 0 <= x) l -> 0 <= sum_Q l.
Proof.
  induction 1 as [| x l Hx _ IH]; simpl; lra.
Qed.

(** ** The scorer *)

Section Scorer.

Lemma product_weight_pos (n : nat) :
  (0 < n)%nat -> product_weight n = 1 / inject_Z (Z.of_nat n).
Proof.
  intros H. unfold product_weight.
  destruct (Nat.ltb_spec 0 n); [reflexivity | lia].
Qed.

Lemma product_weight_nonneg (n : nat) : 0 <= product_weight n.
Proof.
  unfold product_weight. destruct (Nat.ltb_spec 0 n) as [H | H]; [| lra].
  apply Qle_shift_div_l.
  - unfold Qlt, inject_Z. simpl. lia.
  - unfold Qle, inject_Z. simpl. lia.
Qed.

(** The loop over the product scores subtracts the sum of the
    per-product penalties. *)
Lemma product_loop_sum (ps l : list (string * Q)) (acc : Q) :
  (l <> [] -> 0 < length ps)%nat ->
  fold_left (score_product_step ps) l acc
  == acc - sum_Q (List.map (spec_product_penalty (length ps)) (List.map snd l)).
Proof.
  revert acc. induction l as [| a l IH]; intros acc Hn; simpl.
  - ring.
  - assert (Hpos : (0 < length ps)%nat) by (apply Hn; discriminate).
    rewrite IH by (intros _; exact Hpos).
    unfold score_product_step, spec_product_penalty.
    rewrite (product_weight_pos _ Hpos). ring.
Qed.

Lemma calculate_design_score_closed (cr : constraint_results) (pe : product_evaluation) :
  _calculate_design_score cr pe == guarded_design_score cr pe.
Proof.
  unfold _calculate_design_score, guarded_design_score,
    mass_balance_penalty, energy_balance_penalty,
    spec_products_penalty, scores_of.
  set (ps := default [] (product_scores pe)).
  rewrite product_loop_sum.
  2:{ intros H. destruct ps; [congruence | simpl; lia]. }
  rewrite length_map.
  apply Q.max_compat; [reflexivity |].
  destruct (default false (mass_balance_satisfied cr)),
    (default false (energy_balance_satisfied cr)); simpl; ring.
Qed.

End Scorer.

Section ScorerClaims.

(** C3, as stated, fails: with a mass balance that is satisfied within
    its tolerance but has a non-zero error of 0.5 %, the code subtracts
    nothing and returns 100, while the algorithm of the specification
    subtracts [min(50, 0.5 x 10) = 5] and gives 95. *)
Lemma C3_penalty_needs_violation :
  _calculate_design_score (constraints_of true (1 # 2) true 0) (products_of true []) == 100
  /\ spec_design_score (constraints_of true (1 # 2) true 0) (products_of true []) == 95
  /\ ~ _calculate_design_score (constraints_of true (1 # 2) true 0) (products_of true [])
       == spec_design_score (constraints_of true (1 # 2) true 0) (products_of true []).
Proof.
  repeat split; try reflexivity.
  vm_compute. discriminate.
Qed.

(** C3, amended: the design score starts at 100; the mass-balance penalty
    [min(50, |error| x 10)] and the energy-balance penalty
    [min(50, |error| x 5)] are subtracted only for a balance that is not
    satisfied; for each product [(100 - score x 100) x (1/num_products)] is
    subtracted; the result is clamped at 0.  When neither balance is
    satisfied this is the algorithm of the specification.  With mass in =
    100 and mass out = 90 the error is 10 and the penalty of the
    unsatisfied balance is [min(50, 100) = 50]. *)
Theorem C3_design_score_formula (cr : constraint_results) (pe : product_evaluation) :
  _calculate_design_score cr pe
  == Qmax 0 (100 - mass_balance_penalty cr - energy_balance_penalty cr
             - spec_products_penalty (scores_of pe))
  /\ (default false (mass_balance_satisfied cr) = false ->
      default false (energy_balance_satisfied cr) = false ->
      _calculate_design_score cr pe == spec_design_score cr pe)
  /\ DWSIMSimulator.mass_balance_error 100 90 == 10
  /\ (forall es ee,
        mass_balance_penalty
          (constraints_of false (DWSIMSimulator.mass_balance_error 100 90) es ee)
        == 50).
Proof.
  split; [apply calculate_design_score_closed |].
  split.
  - intros Hm He. rewrite calculate_design_score_closed.
    unfold guarded_design_score, spec_design_score,
      mass_balance_penalty, energy_balance_penalty.
    rewrite Hm, He. reflexivity.
  - split; [reflexivity | intros es ee; reflexivity].
Qed.

Lemma spec_products_penalty_nonneg (scores : list Q) :
  Forall (fun s => s <= 1) scores -> 0 <= spec_products_penalty scores.
Proof.
  intros H. unfold spec_products_penalty.
  apply sum_Q_nonneg. apply Forall_map.
  destruct scores as [| s0 scores0] eqn:E; [constructor |].
  rewrite <- E in *. clear E.
  assert (Hw : 0 <= 1 / inject_Z (Z.of_nat (length scores))).
  { destruct (Nat.eq_dec (length scores) 0%nat) as [H0 | H0].
    - rewrite H0. vm_compute. discriminate.
    - rewrite <- product_weight_pos by lia. apply product_weight_nonneg. }
  eapply Forall_impl; [exact H |].
  intros s Hs. cbv beta in Hs. unfold spec_product_penalty.
  apply Qmult_le_0_compat; [lra | exact Hw].
Qed.

Lemma same_number_default (a b : option Q) :
  same_number a b -> default 0 a == default 0 b.
Proof.
  destruct a, b; simpl; intros H; try contradiction; [exact H | reflexivity].
Qed.

Lemma same_scores_penalty (l l' : list (string * Q)) :
  Forall2 (fun x y : string * Q => x.1 = y.1 /\ x.2 == y.2) l l' ->
  spec_products_penalty (List.map snd l) == spec_products_penalty (List.map snd l').
Proof.
  intros H. unfold spec_products_penalty.
  rewrite !length_map.
  rewrite (Forall2_length _ _ _ H).
  generalize (length l'). intros n.
  induction H as [| x y l l' [_ Hxy] _ IH]; simpl; [reflexivity |].
  rewrite IH. unfold spec_product_penalty. rewrite Hxy. reflexivity.
Qed.

(** The score does not depend on how its numeric inputs are
    represented. *)
Lemma calculate_design_score_deterministic
    (cr cr' : constraint_results) (pe pe' : product_evaluation) :
  same_constraint_results cr cr' -> same_product_scores pe pe' ->
  _calculate_design_score cr pe == _calculate_design_score cr' pe'.
Proof.
  intros (Hm & He & Hme & Hee) Hp.
  rewrite !calculate_design_score_closed.
  unfold guarded_design_score, mass_balance_penalty, energy_balance_penalty, scores_of.
  rewrite Hm, He.
  apply same_number_default in Hme, Hee.
  apply same_scores_penalty in Hp.
  apply Q.max_compat; [reflexivity |].
  rewrite Hp.
  destruct (default false (mass_balance_satisfied cr')),
    (default false (energy_balance_satisfied cr')); simpl;
    rewrite ?Hme, ?Hee; reflexivity.
Qed.

(** C8: for every constraint result and every product evaluation whose
    normalized scores lie in [0, 1], the design score lies between 0 and
    100; and the score is a function of its inputs: inputs that denote the
    same flags and numbers give the same score. *)
Theorem C8_score_bounds_deterministic
    (cr : constraint_results) (pe : product_evaluation) :
  normalized_scores pe ->
  (0 <= _calculate_design_score cr pe <= 100)
  /\ (forall cr' pe',
        same_constraint_results cr cr' -> same_product_scores pe pe' ->
        _calculate_design_score cr pe == _calculate_design_score cr' pe').
Proof.
  intros Hn. split.
  - rewrite calculate_design_score_closed. unfold guarded_design_score.
    assert (Hp : 0 <= spec_products_penalty (scores_of pe)).
    { apply spec_products_penalty_nonneg.
      eapply Forall_impl; [exact Hn |]. intros s Hs. simpl in Hs. lra. }
    assert (Hm : 0 <= mass_balance_penalty cr).
    { unfold mass_balance_penalty.
      destruct (default false (mass_balance_satisfied cr)); [lra |].
      apply Qmin_50_nonneg.
      pose proof (Qabs_nonneg (default 0 (mass_balance_error cr))). lra. }
    assert (He : 0 <= energy_balance_penalty cr).
    { unfold energy_balance_penalty.
      destruct (default false (energy_balance_satisfied cr)); [lra |].
      apply Qmin_50_nonneg.
      pose proof (Qabs_nonneg (default 0 (energy_balance_error cr))). lra. }
    split; [apply Q.le_max_l |].
    apply Q.max_lub; lra.
  - intros cr' pe'. apply calculate_design_score_deterministic.
Qed.

(** The bound of 100 rests on the invariant: a product score of 2 gives
    a design score of 200. *)
Lemma score_above_100_without_invariant :
  _calculate_design_score (constraints_of true 0 true 0)
    (products_of true [("ethanol"%string, 2)]) == 200.
Proof. reflexivity. Qed.

Lemma C8_score_bounds_witness :
  normalized_scores (products_of false [("ethanol"%string, 3 # 4)])
  /\ 0 <= _calculate_design_score (constraints_of false 10 true 0)
            (products_of false [("ethanol"%string, 3 # 4)]) <= 100.
Proof.
  assert (H : normalized_scores (products_of false [("ethanol"%string, 3 # 4)])).
  { repeat constructor; simpl; lra. }
  split; [exact H |].
  exact (proj1 (C8_score_bounds_deterministic (constraints_of false 10 true 0)
                  (products_of false [("ethanol"%string, 3 # 4)]) H)).
Defined.

End ScorerClaims.

(** ** The feedback synthesizer *)

Section Feedback.

Lemma generate_feedback_status (cr : constraint_results) (pe : product_evaluation) :
  status (_generate_feedback cr pe)
  = if default false (mass_balance_satisfied cr)
       && default false (energy_balance_satisfied cr)
       && default false (all_specifications_met pe)
    then "success"%string
    else if negb (default false (mass_balance_satisfied cr)
                  && default false (energy_balance_satisfied cr))
         then "constraint_violation"%string
         else "product_specs_not_met"%string.
Proof.
  unfold _generate_feedback.
  destruct (default false (mass_balance_satisfied cr)),
    (default false (energy_balance_satisfied cr)),
    (default false (all_specifications_met pe)); simpl;
    match goal with
    | |- context [product_issue_loop ?a ?b] => destruct (product_issue_loop a b)
    end; reflexivity.
Qed.

(** C4: the feedback status is [success] exactly when both balances are
    satisfied and all product specifications are met; it is
    [constraint_violation], and so never [product_specs_not_met], as soon
    as one balance is not satisfied, whatever the product specifications;
    it is [product_specs_not_met] in the remaining case. *)
Theorem C4_feedback_status (cr : constraint_results) (pe : product_evaluation) :
  let m := default false (mass_balance_satisfied cr) in
  let e := default false (energy_balance_satisfied cr) in
  let p := default false (all_specifications_met pe) in
  let fb := _generate_feedback cr pe in
  (status fb = "success"%string <-> m = true /\ e = true /\ p = true)
  /\ (m = false \/ e = false ->
      status fb = "constraint_violation"%string
      /\ status fb <> "product_specs_not_met"%string)
  /\ (m = true -> e = true -> p = false ->
      status fb = "product_specs_not_met"%string).
Proof.
  cbv zeta. rewrite generate_feedback_status.
  destruct (default false (mass_balance_satisfied cr)),
    (default false (energy_balance_satisfied cr)),
    (default false (all_specifications_met pe)); simpl;
    repeat split; try discriminate; try reflexivity;
    try (intros [? | ?]; discriminate);
    try (intros (? & ? & ?); discriminate);
    intuition discriminate.
Qed.

End Feedback.

(** ** The evaluators under [src/evaluation] *)

Section MassBalance.




End MassBalance.

Section CompareToTargets.

Import ResultsAnalyzer.

Lemma compare_components_cases
    (compositions : gmap string (gmap string Float64.t)) (stream_id : string)
    (target_comp : list (string * Float64.t)) :
  (compare_components (default ∅ (compositions !! stream_id)) target_comp = Some false
   /\ exists comp_name target_value,
        In (comp_name, target_value) target_comp
        /\ float_off (Float64.decimal 1 100)
             (actual_value compositions stream_id comp_name) target_value = true)
  \/ (compare_components (default ∅ (compositions !! stream_id)) target_comp = None
      /\ forall comp_name target_value,
           In (comp_name, target_value) target_comp ->
           float_off (Float64.decimal 1 100)
             (actual_value compositions stream_id comp_name) target_value <> true).
Proof.
  induction target_comp as [| [c v] rest IH].
  - right. split; [reflexivity | intros ? ? []].
  - change (compare_components (default ∅ (compositions !! stream_id)) ((c, v) :: rest))
      with (if float_off (Float64.decimal 1 100)
                 (actual_value compositions stream_id c) v
            then Some false
            else compare_components (default ∅ (compositions !! stream_id)) rest).
    destruct (float_off (Float64.decimal 1 100)
                (actual_value compositions stream_id c) v) eqn:E.
    + left. split; [reflexivity |].
      exists c, v. split; [left; reflexivity | exact E].
    + destruct IH as [[H (c' & v' & Hin & Hoff)] | [H Hall]].
      * left. split; [exact H |]. exists c', v'. split; [right; exact Hin | exact Hoff].
      * right. split; [exact H |].
        intros c' v' [Heq | Hin]; [| apply Hall; exact Hin].
        inversion Heq; subst. rewrite E. discriminate.
Qed.

Lemma compare_streams_cases (r : results)
    (compositions : gmap string (gmap string Float64.t))
    (ts : list (string * list (string * Float64.t))) :
  product_compositions r = Some compositions ->
  (compare_streams r ts = Ok (Some false) /\ some_component_off compositions ts)
  \/ (compare_streams r ts = Ok None /\ ~ some_component_off compositions ts).
Proof.
  intros Hr. induction ts as [| [sid tc] rest IH]; simpl.
  - right. split; [reflexivity |]. intros (? & ? & ? & ? & [] & _).
  - rewrite Hr. simpl.
    destruct (compare_components_cases compositions sid tc)
      as [[H (c & v & Hin & Hoff)] | [H Hall]]; rewrite H.
    + left. split; [reflexivity |].
      exists sid, tc, c, v. split; [left; reflexivity | split; assumption].
    + destruct IH as [[H' (sid' & tc' & c & v & Hin1 & Hin2 & Hoff)] | [H' Hnone]].
      * left. split; [exact H' |].
        exists sid', tc', c, v. split; [right; exact Hin1 | split; assumption].
      * right. split; [exact H' |].
        intros (sid' & tc' & c & v & [Heq | Hin1] & Hin2 & Hoff).
        -- inversion Heq; subst. exact (Hall c v Hin2 Hoff).
        -- apply Hnone. exists sid', tc', c, v. repeat split; assumption.
Qed.

Lemma compare_streams_without_results (r : results)
    (ts : list (string * list (string * Float64.t))) :
  product_compositions r = None -> ts <> [] ->
  compare_streams r ts = Raise (mk_exn KeyError "product_compositions").
Proof.
  intros Hr Hts. destruct ts as [| [sid tc] rest]; [congruence |].
  simpl. rewrite Hr. reflexivity.
Qed.

(** C10, as stated, fails: when the results have no
    ["product_compositions"] key and the targets name a stream,
    [compare_to_targets] raises [KeyError], neither returning [False] nor
    raising [NameError]; this is so when the stream has no targeted
    component, and also when one of its components is 0.5 off. *)
Lemma C10_missing_results_key :
  let r := {| product_compositions := None; total_energy_use := None |} in
  (forall compositions, ~ some_component_off compositions [("S1"%string, [])])
  /\ compare_to_targets r
       {| target_product_compositions := Some [("S1"%string, [])] |}
     = Raise (mk_exn KeyError "product_compositions")
  /\ some_component_off ∅ [("S1"%string, [("ethanol"%string, Float64.of_Q (1 # 2))])]
  /\ compare_to_targets r (ethanol_targets (1 # 2))
     = Raise (mk_exn KeyError "product_compositions").
Proof.
  cbv zeta. split; [| split; [reflexivity | split; [| reflexivity]]].
  - intros compositions (sid & tc & c & v & [Heq | []] & Hin & _).
    inversion Heq; subst. destruct Hin.
  - exists "S1"%string, [("ethanol"%string, Float64.of_Q (1 # 2))],
      "ethanol"%string, (Float64.of_Q (1 # 2)).
    split; [left; reflexivity | split; [left; reflexivity |]].
    vm_compute. reflexivity.
Qed.

(** C10, amended: [compare_to_targets] never returns [True].  When the
    results have a ["product_compositions"] key, it returns [False] if some
    targeted component is more than 0.01 off its target and raises
    [NameError] (the name [Truex] is not defined) otherwise; the
    difference is the rounded difference of the two floats, compared with
    the float 0.01, so that the fraction 0.96 is off the target 0.95,
    0.01 away in decimals, while 0.94 against 0.93 is not.  When the
    results lack that key, it raises [NameError] if the targets name no
    stream and [KeyError] if they name one. *)
Theorem C10_compare_to_targets (r : results) (t : targets) :
  let ts := default [] (target_product_compositions t) in
  compare_to_targets r t <> Ok true
  /\ match product_compositions r with
     | Some compositions =>
         (some_component_off compositions ts -> compare_to_targets r t = Ok false)
         /\ (~ some_component_off compositions ts ->
             compare_to_targets r t
             = Raise (mk_exn NameError "name 'Truex' is not defined"))
     | None =>
         (ts = [] ->
          compare_to_targets r t
          = Raise (mk_exn NameError "name 'Truex' is not defined"))
         /\ (ts <> [] ->
             compare_to_targets r t
             = Raise (mk_exn KeyError "product_compositions"))
     end
  /\ compare_to_targets (ethanol_results (24 # 25)) (ethanol_targets (19 # 20))
     = Ok false
  /\ compare_to_targets (ethanol_results (47 # 50)) (ethanol_targets (93 # 100))
     = Raise (mk_exn NameError "name 'Truex' is not defined").
Proof.
  cbv zeta. unfold compare_to_targets at 1 2 3 4 5.
  set (ts := default [] (target_product_compositions t)).
  assert (Hex : compare_to_targets (ethanol_results (24 # 25)) (ethanol_targets (19 # 20))
                = Ok false
                /\ compare_to_targets (ethanol_results (47 # 50))
                     (ethanol_targets (93 # 100))
                   = Raise (mk_exn NameError "name 'Truex' is not defined"))
    by (split; vm_compute; reflexivity).
  destruct (product_compositions r) as [compositions |] eqn:Hr.
  - destruct (compare_streams_cases r compositions ts Hr) as [[H Hoff] | [H Hnone]];
      rewrite H; simpl.
    + split; [discriminate |]. split; [| exact Hex]. split; [reflexivity | contradiction].
    + split; [discriminate |]. split; [| exact Hex]. split; [contradiction | reflexivity].
  - destruct ts as [| p rest] eqn:Hts.
    + simpl. split; [discriminate |]. split; [| exact Hex].
      split; [reflexivity | congruence].
    + rewrite (compare_streams_without_results r (p :: rest) Hr) by discriminate.
      simpl. split; [discriminate |]. split; [| exact Hex].
      split; [discriminate | reflexivity].
Qed.

End CompareToTargets.

(** ** Construction of the agent *)

Section Construction.

(** The two evaluation methods that [run] calls are not defined by the
    classes under [src/evaluation]. *)
Lemma evaluation_methods_undefined :
  lookup_method "ConstraintChecker" ConstraintChecker.methods "check_constraints"
  = Raise (mk_exn AttributeError
             "'ConstraintChecker' object has no attribute 'check_constraints'")
  /\ lookup_method "ResultsAnalyzer" ResultsAnalyzer.methods "analyze_results"
     = Raise (mk_exn AttributeError
                "'ResultsAnalyzer' object has no attribute 'analyze_results'").
Proof. split; reflexivity. Qed.

Lemma constraint_checker_rejects_keywords (mbt ebt : kwarg) :
  ConstraintChecker.__init__
    [("mass_balance_tolerance"%string, mbt); ("energy_balance_tolerance"%string, ebt)]
  = Raise (mk_exn TypeError
             "ConstraintChecker.__init__() got an unexpected keyword argument 'mass_balance_tolerance'").
Proof. reflexivity. Qed.

Lemma results_analyzer_rejects_keywords (ps pt yt : kwarg) :
  ResultsAnalyzer.__init__
    [("product_specs"%string, ps); ("purity_tolerance"%string, pt);
     ("yield_tolerance"%string, yt)]
  = Raise (mk_exn TypeError
             "ResultsAnalyzer.__init__() got an unexpected keyword argument 'product_specs'").
Proof. reflexivity. Qed.

Ltac step_init :=
  match goal with
  | |- exists e, Raise ?x = Raise e => exists x; reflexivity
  | |- context [may_raise ?o] => destruct o; simpl
  | |- context [subscript _ ?o] => destruct o; simpl
  | |- context [DWSIMSimulator._validate_dwsim_installation ?h ?p] =>
      destruct (DWSIMSimulator._validate_dwsim_installation h p); simpl
  end.

Lemma init_never_returns (h : host) (config : Config.t)
    (raw_materials product_specs : document) (output_dir : string) :
  exists e, __init__ h config raw_materials product_specs output_dir = Raise e.
Proof.
  unfold __init__, OpenAIModelManager.__init__, DWSIMSimulator.__init__.
  repeat step_init.
Qed.

(** C1, as stated, fails: with a configuration that has no ["agent"]
    section the constructor raises [KeyError], and with a complete
    configuration on a host where DWSIM is not installed it raises
    [FileNotFoundError]; neither is a [TypeError]. *)
Lemma C1_other_exceptions_first :
  __init__ ready_host empty_config empty_document empty_document "output"
  = Raise (mk_exn KeyError "agent")
  /\ __init__
       {| timestamp := "20240101_000000"; makedirs := None; openai_client := None;
          is_linux := true; path_exists := fun _ => false; mono := MonoNotFound |}
       complete_config empty_document empty_document "output"
     = Raise (mk_exn FileNotFoundError "DWSIM installation not found at: /opt/dwsim").
Proof. split; reflexivity. Qed.

(** C1, amended: for every host, config, raw materials, product specs and
    output directory, constructing the agent raises, so that no iteration
    can run; when every statement before the construction of the
    constraint checker passes, the exception is the [TypeError] of
    [ConstraintChecker.__init__], which takes no argument besides [self]
    and is called with [mass_balance_tolerance]; [ResultsAnalyzer.__init__]
    rejects its keyword arguments in the same way. *)
Theorem C1_constructor_raises (h : host) (config : Config.t)
    (raw_materials product_specs : document) (output_dir : string) :
  (exists e, __init__ h config raw_materials product_specs output_dir = Raise e)
  /\ (reaches_constraint_checker h config ->
      __init__ h config raw_materials product_specs output_dir
      = Raise (mk_exn TypeError
                 "ConstraintChecker.__init__() got an unexpected keyword argument 'mass_balance_tolerance'"))
  /\ (forall mbt ebt : Q,
        exists e,
          ConstraintChecker.__init__
            [("mass_balance_tolerance"%string, KwNum mbt);
             ("energy_balance_tolerance"%string, KwNum ebt)] = Raise e
          /\ exn_cls e = TypeError)
  /\ (forall (ps : document) (pt yt : Q),
        exists e,
          ResultsAnalyzer.__init__
            [("product_specs"%string, KwDoc ps); ("purity_tolerance"%string, KwNum pt);
             ("yield_tolerance"%string, KwNum yt)] = Raise e
          /\ exn_cls e = TypeError).
Proof.
  split; [apply init_never_returns |].
  split.
  - intros (Hmk & Hcl & a & o & d & ev & model & key & temp & sysm & path & pp & cm
            & tmo & mbt & ebt & Ha & Ho & Hd & Hev & H1 & H2 & H3 & H4 & H5 & H6
            & H7 & H8 & Hval & H9 & H10).
    unfold __init__, OpenAIModelManager.__init__, DWSIMSimulator.__init__.
    rewrite Hmk, Hcl, Ha, Ho, Hd, Hev. simpl.
    rewrite H1, H2, H3, H4. simpl.
    rewrite H5, H6, H7, H8. simpl.
    rewrite Hval. simpl.
    rewrite H9, H10. reflexivity.
  - split.
    + intros mbt ebt. eexists. split; [apply constraint_checker_rejects_keywords | reflexivity].
    + intros ps pt yt. eexists. split; [apply results_analyzer_rejects_keywords | reflexivity].
Qed.

Lemma C1_constructor_raises_witness :
  reaches_constraint_checker ready_host complete_config
  /\ __init__ ready_host complete_config empty_document empty_document "output"
     = Raise (mk_exn TypeError
                "ConstraintChecker.__init__() got an unexpected keyword argument 'mass_balance_tolerance'").
Proof.
  assert (H : reaches_constraint_checker ready_host complete_config).
  { split; [reflexivity |]. split; [reflexivity |].
    do 14 eexists. repeat split. }
  split; [exact H |].
  exact (proj1 (proj2 (C1_constructor_raises ready_host complete_config
                         empty_document empty_document "output")) H).
Defined.

End Construction.

(** ** The iteration controller *)

Section Controller.

Implicit Types (w : world) (s : t).

Lemma final_report_frame w s :
  run_state (_generate_final_report w s).1 = run_state s.
Proof.
  unfold _generate_final_report, _generate_performance_plots.
  destruct (best_design s) eqn:Hb; [| reflexivity].
  cbn [config write_final_report logger].
  destruct (Config.simulation (config s)) as [c |]; simpl;
    [| unfold run_state; simpl; rewrite Hb; reflexivity].
  destruct (default false (Config.generate_plots c));
    [destruct (plots w) |]; unfold run_state; simpl; rewrite Hb; reflexivity.
Qed.

(** The sibling path: the report step itself copes with an absent best
    design, logging a warning and writing nothing. *)
Lemma final_report_without_best w s :
  best_design s = None ->
  _generate_final_report w s
  = (logger WARNING [Lit "No successful design found, cannot generate final report"] s,
     Ok tt).
Proof.
  intros H. unfold _generate_final_report. rewrite H. reflexivity.
Qed.

(** What one pass of the loop body does to the fields of the agent. *)
Lemma iteration_run_state w s :
  let s' := (iteration w s).1 in
  let i := (current_iteration s + 1)%Z in
  config s' = config s
  /\ current_iteration s' = i
  /\ max_iterations s' = max_iterations s
  /\ (if evaluation_raises (at_iteration w i)
      then history s' = history s
           /\ exists e, (iteration w s).2 = Some (Raises e)
      else exists r, history s' = history s ++ [r] /\ ir_iteration r = i)
  /\ match iteration_score w i with
     | Some q =>
         if score_gt q (best_score s)
         then best_score s' = Score q
              /\ exists b, best_design s' = Some b
                           /\ bd_iteration b = i /\ bd_score b = q
         else best_design s' = best_design s /\ best_score s' = best_score s
     | None => best_design s' = best_design s /\ best_score s' = best_score s
     end.
Proof.
  cbv zeta. unfold iteration, iteration_score, evaluation_raises.
  cbn [current_iteration set_current_iteration logger].
  destruct (at_iteration w (current_iteration s + 1)) as [g c sim cc an].
  cbn [generated converted simulated constraint_checked analyzed].
  destruct c as [e |].
  { simpl. repeat split; eauto. }
  destruct sim as [sr | e].
  2:{ simpl. repeat split; eauto. }
  destruct cc as [cr | e].
  2:{ simpl. repeat split; eauto. }
  destruct an as [pe | e].
  2:{ simpl. repeat split; eauto. }
  set (q := _calculate_design_score cr pe).
  set (fb := _generate_feedback cr pe).
  cbn -[String.eqb _generate_final_report score_gt].
  destruct (score_gt q (best_score s)) eqn:Hgt;
    destruct (String.eqb (status fb) "success");
    try match goal with
      | |- context [_generate_final_report ?w ?x] =>
          let H := fresh "H" in
          pose proof (final_report_frame w x) as H;
          destruct (_generate_final_report w x) as [x' [[] | ?]];
          unfold run_state in H; simpl in H; inversion H; clear H
      end;
    simpl; repeat split; eauto.
Qed.


Lemma score_gt_lt (q b : Q) : score_gt q (Score b) = true <-> b < q.
Proof. apply Qltb_lt. Qed.

Lemma score_gt_ge (q : Q) (best : best_score_t) :
  score_gt q best = false -> exists b, best = Score b /\ q <= b.
Proof.
  destruct best as [| b]; simpl; [discriminate |].
  intros H. exists b. split; [reflexivity | apply Qltb_ge; exact H].
Qed.

(** [best_score] never decreases over a pass, and the best design is
    replaced only by an iteration whose score is strictly higher. *)
Lemma best_score_step w s :
  let s' := (iteration w s).1 in
  score_le (best_score s) (best_score s')
  /\ ((best_design s' = best_design s /\ best_score s' = best_score s)
      \/ exists q b,
           iteration_score w (current_iteration s + 1) = Some q
           /\ score_gt q (best_score s) = true
           /\ best_design s' = Some b
           /\ bd_iteration b = (current_iteration s + 1)%Z
           /\ bd_score b = q
           /\ best_score s' = Score q).
Proof.
  cbv zeta.
  destruct (iteration_run_state w s) as (_ & _ & _ & _ & Hbest).
  assert (Hrefl : score_le (best_score s) (best_score s)).
  { destruct (best_score s); simpl; [exact I | lra]. }
  destruct (iteration_score w (current_iteration s + 1)) as [q |] eqn:Hq.
  - destruct (score_gt q (best_score s)) eqn:Hgt.
    + destruct Hbest as (Hbs & b & Hb & Hbi & Hbq). split.
      * rewrite Hbs. destruct (best_score s) as [| b0]; simpl; [exact I |].
        apply score_gt_lt in Hgt. lra.
      * right. exists q, b. repeat split; solve [assumption | reflexivity].
    + destruct Hbest as [Hb Hbs]. rewrite Hbs.
      split; [exact Hrefl | left; split; solve [assumption | reflexivity]].
  - destruct Hbest as [Hb Hbs]. rewrite Hbs.
    split; [exact Hrefl | left; split; solve [assumption | reflexivity]].
Qed.

Lemma best_so_far_step w s :
  (0 <= current_iteration s)%Z -> best_so_far w s ->
  best_so_far w (iteration w s).1.
Proof.
  intros Hpos Hinv.
  destruct (iteration_run_state w s) as (_ & Hcur & _ & _ & Hbest).
  unfold best_so_far in *. rewrite Hcur.
  destruct (iteration_score w (current_iteration s + 1)) as [q |] eqn:Hq.
  - destruct (score_gt q (best_score s)) eqn:Hgt.
    + destruct Hbest as (Hbs & b & Hb & Hbi & Hbq).
      rewrite Hb, Hbs, Hbi, Hbq.
      assert (Hold : forall i q',
                 (1 <= i <= current_iteration s)%Z ->
                 iteration_score w i = Some q' -> q' < q).
      { intros i q' Hi Hs.
        destruct (best_design s) as [b0 |].
        - destruct Hinv as (Hbs0 & _ & _ & Hmax & _).
          rewrite Hbs0 in Hgt. apply score_gt_lt in Hgt.
          specialize (Hmax i q' Hi Hs). lra.
        - destruct Hinv as (_ & Hnone). rewrite (Hnone i Hi) in Hs. discriminate. }
      split; [reflexivity |]. split; [lia |]. split; [exact Hq |]. split.
      * intros i q' Hi Hs.
        destruct (Z.eq_dec i (current_iteration s + 1)%Z) as [-> | Hne].
        -- rewrite Hq in Hs. inversion Hs. lra.
        -- apply Qlt_le_weak. apply (Hold i q'); [lia | exact Hs].
      * intros i q' Hi Hs. apply (Hold i q'); [lia | exact Hs].
    + destruct Hbest as [Hb Hbs]. rewrite Hb, Hbs.
      apply score_gt_ge in Hgt. destruct Hgt as (b0 & Hb0 & Hle).
      destruct (best_design s) as [bd |].
      * destruct Hinv as (Hbs0 & Hr & Hsc & Hmax & Hfirst).
        rewrite Hbs0 in Hb0. inversion Hb0; subst b0.
        split; [exact Hbs0 |]. split; [lia |]. split; [exact Hsc |]. split.
        -- intros i q' Hi Hs.
           destruct (Z.eq_dec i (current_iteration s + 1)%Z) as [-> | Hne].
           ++ rewrite Hq in Hs. inversion Hs. subst q'. exact Hle.
           ++ apply (Hmax i q'); [lia | exact Hs].
        -- exact Hfirst.
      * destruct Hinv as (Hbs0 & _). congruence.
  - destruct Hbest as [Hb Hbs]. rewrite Hb, Hbs.
    destruct (best_design s) as [bd |].
    + destruct Hinv as (Hbs0 & Hr & Hsc & Hmax & Hfirst).
      split; [exact Hbs0 |]. split; [lia |]. split; [exact Hsc |]. split.
      * intros i q' Hi Hs.
        destruct (Z.eq_dec i (current_iteration s + 1)%Z) as [-> | Hne].
        -- rewrite Hq in Hs. discriminate.
        -- apply (Hmax i q'); [lia | exact Hs].
      * exact Hfirst.
    + destruct Hinv as (Hbs0 & Hnone). split; [exact Hbs0 |].
      intros i Hi.
      destruct (Z.eq_dec i (current_iteration s + 1)%Z) as [-> | Hne].
      * exact Hq.
      * apply Hnone. lia.
Qed.

Lemma best_so_far_frame w s s' :
  run_state s' = run_state s -> best_so_far w s -> best_so_far w s'.
Proof.
  unfold run_state, best_so_far. intros H.
  injection H as _ Hc _ Hb Hs _.
  rewrite Hc, Hb, Hs. exact (fun x => x).
Qed.

Lemma history_in_step_frame s s' :
  run_state s' = run_state s -> history_in_step s -> history_in_step s'.
Proof.
  unfold run_state, history_in_step. intros H.
  injection H as _ Hc _ _ _ Hh.
  rewrite Hc, Hh. exact (fun x => x).
Qed.

(** *** The loop *)

Lemma while_loop_preserves (P : t -> Prop) w :
  (forall s, P s -> P (iteration w s).1) ->
  forall fuel s, P s -> P (while_loop fuel w s).1.
Proof.
  intros Hstep. induction fuel as [| fuel IH]; intros s HP; simpl.
  - destruct (current_iteration s <? max_iterations s)%Z; exact HP.
  - destruct (current_iteration s <? max_iterations s)%Z; [| exact HP].
    specialize (Hstep s HP).
    destruct (iteration w s) as [s1 [o |]]; simpl in *; [exact Hstep |].
    apply IH. exact Hstep.
Qed.

(** How the loop is left: by its condition, with [P] still true, or from
    inside a pass that started in a state where [P] was true. *)
Lemma while_loop_exit (P : t -> Prop) w :
  (forall s, P s -> (current_iteration s < max_iterations s)%Z ->
             (iteration w s).2 = None -> P (iteration w s).1) ->
  forall fuel s, P s ->
  match (while_loop fuel w s).2 with
  | None =>
      P (while_loop fuel w s).1
      /\ (max_iterations (while_loop fuel w s).1
          <= current_iteration (while_loop fuel w s).1)%Z
  | Some OutOfFuel => True
  | Some o =>
      exists s0, P s0
                 /\ (current_iteration s0 < max_iterations s0)%Z
                 /\ iteration w s0 = ((while_loop fuel w s).1, Some o)
  end.
Proof.
  intros Hstep. induction fuel as [| fuel IH]; intros s HP; simpl.
  - destruct (Z.ltb_spec (current_iteration s) (max_iterations s)); simpl.
    + exact I.
    + split; [exact HP | assumption].
  - destruct (Z.ltb_spec (current_iteration s) (max_iterations s)) as [Hlt | Hge]; simpl.
    + specialize (Hstep s HP Hlt).
      destruct (iteration w s) as [s1 [o |]] eqn:Hit; simpl in *.
      * destruct o; [| | exact I]; exists s; repeat split; assumption.
      * apply IH. apply Hstep. reflexivity.
    + split; [exact HP | assumption].
Qed.

Lemma while_loop_enough_fuel w :
  forall fuel s, (budget s <= fuel)%nat ->
                 (while_loop fuel w s).2 <> Some OutOfFuel.
Proof.
  induction fuel as [| fuel IH]; intros s Hf; simpl.
  - destruct (Z.ltb_spec (current_iteration s) (max_iterations s)); simpl;
      [| discriminate].
    unfold budget in Hf. lia.
  - destruct (Z.ltb_spec (current_iteration s) (max_iterations s)) as [Hlt | Hge];
      simpl; [| discriminate].
    destruct (iteration_run_state w s) as (_ & Hcur & Hmax & Hev & _).
    destruct (iteration w s) as [s1 [o |]] eqn:Hit; simpl in *.
    + intros Ho. injection Ho as ->.
      clear - Hit. unfold iteration in Hit. revert Hit.
      destruct (at_iteration w _) as [g c sim cc an]; simpl.
      destruct c; [discriminate |].
      destruct sim; [| discriminate].
      destruct cc; [| intros H; inversion H].
      destruct an; [| intros H; inversion H].
      match goal with |- context [String.eqb ?a ?b] => destruct (String.eqb a b) end;
        [| discriminate].
      match goal with
      | |- context [_generate_final_report ?w ?x] =>
          destruct (_generate_final_report w x) as [x' [[] | ?]]
      end; intros H; inversion H.
    + apply IH. unfold budget in *. rewrite Hcur, Hmax. lia.
Qed.

Lemma after_loop_frame w s : run_state (after_loop w s).1 = run_state s.
Proof.
  unfold after_loop. cbn [best_design logger].
  destruct (best_design s) eqn:Hb; [| unfold run_state; simpl; rewrite Hb; reflexivity].
  match goal with
  | |- context [_generate_final_report ?w ?x] =>
      pose proof (final_report_frame w x) as H;
      destruct (_generate_final_report w x) as [x' [[] | ?]]
  end; simpl in *; rewrite H; unfold run_state; simpl; rewrite Hb; reflexivity.
Qed.

Lemma run_unfold w s :
  run w s
  = match while_loop (budget s) w (logger INFO [Lit "Starting process design cycle"] s) with
    | (s1, Some o) => (s1, o)
    | (s1, None) => after_loop w s1
    end.
Proof. reflexivity. Qed.


Lemma iteration_returns_true w s b :
  (iteration w s).2 = Some (Returns b) -> b = true.
Proof.
  unfold iteration.
  destruct (at_iteration w _) as [g c sim cc an]; simpl.
  destruct c; [discriminate |].
  destruct sim; [| discriminate].
  destruct cc; [| discriminate].
  destruct an; [| discriminate].
  match goal with |- context [String.eqb ?a ?b] => destruct (String.eqb a b) end;
    [| discriminate].
  match goal with
  | |- context [_generate_final_report ?w ?x] =>
      destruct (_generate_final_report w x) as [x' [[] | ?]]
  end; simpl; intros H; inversion H; reflexivity.
Qed.

(** The general form of the defect behind C2: whenever the loop is left
    by its condition with no best design, [run] raises [TypeError] while
    formatting its log message, before the report step is called. *)
Lemma run_without_best_raises w s :
  let r := while_loop (budget s) w (logger INFO [Lit "Starting process design cycle"] s) in
  r.2 = None -> best_design r.1 = None ->
  (run w s).2 = Raises (mk_exn TypeError "'NoneType' object is not subscriptable")
  /\ final_report (run w s).1 = final_report r.1.
Proof.
  cbv zeta. intros Hexit Hbest. rewrite run_unfold.
  destruct (while_loop _ w _) as [s1 o]; simpl in *. subst o.
  unfold after_loop. cbn [best_design logger]. rewrite Hbest. split; reflexivity.
Qed.

(** C2 (a defect of the code): with a budget of one iteration in which
    the simulator times out, no iteration completes evaluation and
    [best_design] stays [None]; [run] then raises [TypeError] while
    formatting [self.best_design['iteration']] for the log, so the report
    step is never reached: no warning is logged and the run fails.  The
    report step called on the same agent would have logged the warning,
    skipped the report body and returned. *)
Theorem C2_exhausted_budget_without_best_design :
  let r := run timeout_world (agent_with_budget 1) in
  r.2 = Raises (mk_exn TypeError "'NoneType' object is not subscriptable")
  /\ best_design r.1 = None
  /\ List.map (fun rec => status (ir_feedback rec)) (history r.1) = ["error"%string]
  /\ final_report r.1 = None
  /\ log r.1
     = [(INFO, [Lit "Starting process design cycle"]);
        (INFO, [Lit "Beginning iteration "; Int 1; Lit "/"; Int 1]);
        (INFO, [Lit "Saved DWSIM model to "; Str "output/run_20240101_000000";
                Lit "/iteration_"; Int 1; Lit "/dwsim_model.dwxml"]);
        (ERROR, [Lit "Error running simulation: ";
                 Str "DWSIM simulation timed out after 300 seconds"]);
        (INFO, [Lit "Reached maximum iterations ("; Int 1;
                Lit ") without finding a perfect solution"])]
  /\ _generate_final_report timeout_world r.1
     = (logger WARNING [Lit "No successful design found, cannot generate final report"] r.1,
        Ok tt).
Proof.
  cbv zeta. repeat split; reflexivity.
Qed.

(** C6: in an iteration in which the conversion or the simulation
    raises, the pass appends one record with feedback status [error] and
    no simulation result, leaves the best score, the best design and the
    report untouched, advances the counter by one and falls through to the
    loop test, which starts the next iteration or stops when the budget is
    used up. *)
Theorem C6_failed_iteration_is_recorded w s e :
  converted (at_iteration w (current_iteration s + 1)) = Some e
  \/ (converted (at_iteration w (current_iteration s + 1)) = None
      /\ simulated (at_iteration w (current_iteration s + 1)) = Raise e) ->
  let s' := (iteration w s).1 in
  (iteration w s).2 = None
  /\ (exists r,
        history s' = history s ++ [r]
        /\ ir_iteration r = (current_iteration s + 1)%Z
        /\ status (ir_feedback r) = "error"%string
        /\ ir_simulation_results_path r = None)
  /\ best_design s' = best_design s
  /\ best_score s' = best_score s
  /\ final_report s' = final_report s
  /\ current_iteration s' = (current_iteration s + 1)%Z
  /\ (forall fuel,
        (current_iteration s < max_iterations s)%Z ->
        while_loop (S fuel) w s = while_loop fuel w s')
  /\ (forall fuel,
        max_iterations s = (current_iteration s + 1)%Z ->
        while_loop (S fuel) w s = (s', None)).
Proof.
  intros H. cbv zeta.
  assert (Hshape :
            (iteration w s).2 = None
            /\ (exists r,
                  history (iteration w s).1 = history s ++ [r]
                  /\ ir_iteration r = (current_iteration s + 1)%Z
                  /\ status (ir_feedback r) = "error"%string
                  /\ ir_simulation_results_path r = None)
            /\ best_design (iteration w s).1 = best_design s
            /\ best_score (iteration w s).1 = best_score s
            /\ final_report (iteration w s).1 = final_report s
            /\ current_iteration (iteration w s).1 = (current_iteration s + 1)%Z
            /\ max_iterations (iteration w s).1 = max_iterations s).
  { unfold iteration. cbn [current_iteration set_current_iteration logger].
    destruct (at_iteration w (current_iteration s + 1)) as [g c sim cc an].
    cbn [generated converted simulated] in *.
    destruct H as [-> | [-> ->]]; simpl.
    all: (split; [reflexivity |]); (split; [eexists; repeat split |]);
      repeat split. }
  destruct Hshape as (Hnone & Hrec & Hbd & Hbs & Hfr & Hcur & Hmax).
  repeat (split; [assumption |]).
  split.
  - intros fuel Hlt. simpl.
    destruct (Z.ltb_spec (current_iteration s) (max_iterations s)); [| lia].
    destruct (iteration w s) as [s1 o]; simpl in *. subst o. reflexivity.
  - intros fuel Hlast. simpl.
    destruct (Z.ltb_spec (current_iteration s) (max_iterations s)); [| lia].
    destruct (iteration w s) as [s1 o]; simpl in *. subst o.
    destruct fuel; simpl;
      destruct (Z.ltb_spec (current_iteration s1) (max_iterations s1));
      try reflexivity; lia.
Qed.

Lemma C6_failed_iteration_witness :
  (iteration timeout_world (agent_with_budget 3)).2 = None
  /\ best_design (iteration timeout_world (agent_with_budget 3)).1 = None
  /\ current_iteration (iteration timeout_world (agent_with_budget 3)).1 = 1%Z.
Proof.
  pose proof
    (C6_failed_iteration_is_recorded timeout_world (agent_with_budget 3)
       (mk_exn RuntimeError "DWSIM simulation timed out after 300 seconds")
       (or_intror (conj eq_refl eq_refl))) as H.
  cbv zeta in H.
  destruct H as (H1 & _ & H2 & _ & _ & H3 & _).
  exact (conj H1 (conj H2 H3)).
Defined.



Lemma counted_step w n s :
  counted w n s -> (current_iteration s < max_iterations s)%Z ->
  (iteration w s).2 <> None \/ counted w n (iteration w s).1.
Proof.
  intros (Hh & Hm & Hc & Hb) Hlt.
  destruct (iteration_run_state w s) as (_ & Hcur & Hmax & Hev & _).
  destruct (evaluation_raises (at_iteration w (current_iteration s + 1))).
  - left. destruct Hev as (_ & e & ->). discriminate.
  - right. destruct Hev as (r & Hr & _).
    split; [| split; [| split]].
    + unfold history_in_step in *. rewrite Hr, Hcur, length_app. simpl. lia.
    + congruence.
    + rewrite Hcur. lia.
    + apply best_so_far_step; [lia | exact Hb].
Qed.

Lemma counted_last_pass w n s0 s1 b :
  counted w n s0 -> (current_iteration s0 < max_iterations s0)%Z ->
  iteration w s0 = (s1, Some (Returns b)) ->
  b = true /\ history_in_step s1 /\ (1 <= current_iteration s1 <= n)%Z.
Proof.
  intros (Hh & Hm & Hc & Hb) Hlt Hit.
  pose proof (iteration_returns_true w s0 b) as Htrue.
  destruct (iteration_run_state w s0) as (_ & Hcur & Hmax & Hev & _).
  rewrite Hit in *. simpl in *.
  split; [apply Htrue; reflexivity |].
  destruct (evaluation_raises (at_iteration w (current_iteration s0 + 1))).
  - destruct Hev as (_ & e & He). discriminate.
  - destruct Hev as (r & Hr & _). split.
    + unfold history_in_step in *. rewrite Hr, Hcur, length_app. simpl. lia.
    + lia.
Qed.


End Controller.

(** ** The loop with the scorer as a parameter *)

Section ScoredLoop.

Implicit Types (w : world) (s : t).

Variable score : constraint_results -> product_evaluation -> Q.

(** What one pass does with the scorer [score]: the counter advances,
    the pass leaves the loop exactly at a last iteration, and the best
    design is replaced exactly when the pass reaches the scoring step with
    a score above the best score. *)
Lemma iteration_scored_state w s :
  let s' := (iteration_scored score w s).1 in
  let i := (current_iteration s + 1)%Z in
  current_iteration s' = i
  /\ max_iterations s' = max_iterations s
  /\ ((iteration_scored score w s).2 = None <-> leaves_loop (at_iteration w i) = false)
  /\ (iteration_scored score w s).2 <> Some OutOfFuel
  /\ (iteration_scored score w s).2 <> Some (Returns false)
  /\ match iteration_score_by score w i with
     | Some q =>
         if score_gt q (best_score s)
         then best_score s' = Score q
              /\ exists b, best_design s' = Some b
                           /\ bd_iteration b = i /\ bd_score b = q
                           /\ bd_process_design b = generated (at_iteration w i)
         else best_design s' = best_design s /\ best_score s' = best_score s
     | None => best_design s' = best_design s /\ best_score s' = best_score s
     end.
Proof.
  cbv zeta. unfold iteration_scored, iteration_score_by, leaves_loop.
  cbn [current_iteration set_current_iteration logger].
  destruct (at_iteration w (current_iteration s + 1)) as [g c sim cc an].
  cbn [generated converted simulated constraint_checked analyzed].
  destruct c as [e |].
  { simpl. repeat split; eauto; discriminate. }
  destruct sim as [sr | e].
  2:{ simpl. repeat split; eauto; discriminate. }
  destruct cc as [cr | e].
  2:{ simpl. repeat split; eauto; discriminate. }
  destruct an as [pe | e].
  2:{ simpl. repeat split; eauto; discriminate. }
  set (q := score cr pe).
  set (fb := _generate_feedback cr pe).
  cbn -[String.eqb _generate_final_report score_gt].
  destruct (score_gt q (best_score s)) eqn:Hgt;
    destruct (String.eqb (status fb) "success");
    try match goal with
      | |- context [_generate_final_report ?w ?x] =>
          let H := fresh "H" in
          pose proof (final_report_frame w x) as H;
          destruct (_generate_final_report w x) as [x' [[] | ?]];
          unfold run_state in H; simpl in H; inversion H; clear H
      end;
    simpl; repeat split; eauto; discriminate.
Qed.

Lemma best_so_far_by_step w s :
  (0 <= current_iteration s)%Z -> best_so_far_by score w s ->
  best_so_far_by score w (iteration_scored score w s).1.
Proof.
  intros Hpos Hinv.
  destruct (iteration_scored_state w s) as (Hcur & _ & _ & _ & _ & Hbest).
  unfold best_so_far_by in *. rewrite Hcur.
  destruct (iteration_score_by score w (current_iteration s + 1)) as [q |] eqn:Hq.
  - destruct (score_gt q (best_score s)) eqn:Hgt.
    + destruct Hbest as (Hbs & b & Hb & Hbi & Hbq & Hbd).
      rewrite Hb, Hbs, Hbi, Hbq.
      assert (Hold : forall i q',
                 (1 <= i <= current_iteration s)%Z ->
                 iteration_score_by score w i = Some q' -> q' < q).
      { intros i q' Hi Hs.
        destruct (best_design s) as [b0 |].
        - destruct Hinv as (Hbs0 & _ & _ & _ & Hmax & _).
          rewrite Hbs0 in Hgt. apply score_gt_lt in Hgt.
          specialize (Hmax i q' Hi Hs). lra.
        - destruct Hinv as (_ & Hnone). rewrite (Hnone i Hi) in Hs. discriminate. }
      split; [reflexivity |]. split; [lia |]. split; [exact Hq |].
      split; [exact Hbd |]. split.
      * intros i q' Hi Hs.
        destruct (Z.eq_dec i (current_iteration s + 1)%Z) as [-> | Hne].
        -- rewrite Hq in Hs. inversion Hs. lra.
        -- apply Qlt_le_weak. apply (Hold i q'); [lia | exact Hs].
      * intros i q' Hi Hs. apply (Hold i q'); [lia | exact Hs].
    + destruct Hbest as [Hb Hbs]. rewrite Hb, Hbs.
      apply score_gt_ge in Hgt. destruct Hgt as (b0 & Hb0 & Hle).
      destruct (best_design s) as [bd |].
      * destruct Hinv as (Hbs0 & Hr & Hsc & Hpd & Hmax & Hfirst).
        rewrite Hbs0 in Hb0. inversion Hb0; subst b0.
        split; [exact Hbs0 |]. split; [lia |]. split; [exact Hsc |].
        split; [exact Hpd |]. split.
        -- intros i q' Hi Hs.
           destruct (Z.eq_dec i (current_iteration s + 1)%Z) as [-> | Hne].
           ++ rewrite Hq in Hs. inversion Hs. subst q'. exact Hle.
           ++ apply (Hmax i q'); [lia | exact Hs].
        -- exact Hfirst.
      * destruct Hinv as (Hbs0 & _). congruence.
  - destruct Hbest as [Hb Hbs]. rewrite Hb, Hbs.
    destruct (best_design s) as [bd |].
    + destruct Hinv as (Hbs0 & Hr & Hsc & Hpd & Hmax & Hfirst).
      split; [exact Hbs0 |]. split; [lia |]. split; [exact Hsc |].
      split; [exact Hpd |]. split.
      * intros i q' Hi Hs.
        destruct (Z.eq_dec i (current_iteration s + 1)%Z) as [-> | Hne].
        -- rewrite Hq in Hs. discriminate.
        -- apply (Hmax i q'); [lia | exact Hs].
      * exact Hfirst.
    + destruct Hinv as (Hbs0 & Hnone). split; [exact Hbs0 |].
      intros i Hi.
      destruct (Z.eq_dec i (current_iteration s + 1)%Z) as [-> | Hne].
      * exact Hq.
      * apply Hnone. lia.
Qed.

Lemma best_so_far_by_frame w s s' :
  run_state s' = run_state s -> best_so_far_by score w s -> best_so_far_by score w s'.
Proof.
  unfold run_state, best_so_far_by. intros H.
  injection H as _ Hc _ Hb Hs _.
  rewrite Hc, Hb, Hs. exact (fun x => x).
Qed.

(** The invariant of the scored loop on an agent with a budget of [n]:
    the iterations [1 .. current_iteration] have been gone through, none
    of them a last one, and the best design is the earliest maximum of
    their scores. *)
Lemma scored_loop_step w n s :
  scored_so_far score w n s ->
  (current_iteration s < max_iterations s)%Z ->
  let s' := (iteration_scored score w s).1 in
  max_iterations s' = n
  /\ (1 <= current_iteration s' <= Z.max 0 n)%Z
  /\ best_so_far_by score w s'
  /\ (forall i, (1 <= i < current_iteration s')%Z ->
                leaves_loop (at_iteration w i) = false)
  /\ ((iteration_scored score w s).2 = None
      <-> leaves_loop (at_iteration w (current_iteration s')) = false)
  /\ (iteration_scored score w s).2 <> Some OutOfFuel
  /\ (iteration_scored score w s).2 <> Some (Returns false).
Proof.
  intros (Hm & Hc & Hb & Hl) Hlt. cbv zeta.
  destruct (iteration_scored_state w s) as (Hcur & Hmax & Hout & Hfuel & Hret & _).
  rewrite Hcur, Hmax.
  split; [exact Hm |]. split; [lia |].
  split; [apply best_so_far_by_step; [lia | exact Hb] |].
  split; [intros i Hi; apply Hl; lia |].
  split; [exact Hout |]. split; [exact Hfuel | exact Hret].
Qed.

Lemma while_loop_scored_ends w n :
  forall fuel s,
    scored_so_far score w n s -> (budget s <= fuel)%nat ->
    let r := while_loop_scored score fuel w s in
    max_iterations r.1 = n
    /\ best_so_far_by score w r.1
    /\ iterations_run w n (current_iteration r.1)
    /\ match r.2 with
       | None => (n <= current_iteration r.1)%Z
       | Some OutOfFuel => False
       | Some (Returns false) => False
       | Some _ =>
           (1 <= current_iteration r.1)%Z
           /\ leaves_loop (at_iteration w (current_iteration r.1)) = true
       end.
Proof.
  induction fuel as [| fuel IH]; intros s Hinv Hf; cbv zeta; simpl.
  - destruct Hinv as (Hm & Hc & Hb & Hl).
    destruct (Z.ltb_spec (current_iteration s) (max_iterations s)) as [Hlt | Hge];
      simpl.
    + unfold budget in Hf. lia.
    + split; [exact Hm |]. split; [exact Hb |].
      split; [| lia].
      split; [lia |]. split; [intros i Hi; apply Hl; lia | lia].
  - destruct (Z.ltb_spec (current_iteration s) (max_iterations s)) as [Hlt | Hge];
      simpl.
    + destruct (scored_loop_step w n s Hinv Hlt)
        as (Hm' & Hc' & Hb' & Hl' & Hout & Hfuel & Hret).
      destruct (iteration_scored_state w s) as (Hcur & Hmax & _).
      destruct (iteration_scored score w s) as [s1 [o |]] eqn:Hit; simpl in *.
      * split; [exact Hm' |]. split; [exact Hb' |].
        assert (Hlast : leaves_loop (at_iteration w (current_iteration s1)) = true).
        { destruct (leaves_loop (at_iteration w (current_iteration s1))); [reflexivity |].
          assert (Some o = None) by (by apply Hout). discriminate. }
        split.
        -- split; [lia |]. split; [exact Hl' |]. intros _. split; [lia | exact Hlast].
        -- destruct o as [[|] | e |]; [| congruence | | congruence];
             (split; [lia | exact Hlast]).
      * apply IH.
        -- split; [exact Hm' |]. split; [lia |]. split; [exact Hb' |].
           intros i Hi.
           destruct (Z.eq_dec i (current_iteration s1)) as [-> | Hne];
             [by apply Hout | apply Hl'; lia].
        -- unfold budget in *. rewrite Hcur, Hmax. lia.
    + destruct Hinv as (Hm & Hc & Hb & Hl).
      split; [exact Hm |]. split; [exact Hb |].
      split; [| lia].
      split; [lia |]. split; [intros i Hi; apply Hl; lia | lia].
Qed.

Lemma run_scored_ends w config raw_materials product_specs output_dir n :
  let r := run_scored score w (fresh config raw_materials product_specs output_dir n) in
  r.2 <> OutOfFuel
  /\ iterations_run w n (current_iteration r.1)
  /\ best_so_far_by score w r.1
  /\ (r.2 = Returns false -> current_iteration r.1 = n).
Proof.
  cbv zeta. unfold run_scored.
  set (s0 := fresh config raw_materials product_specs output_dir n).
  set (s1 := logger INFO [Lit "Starting process design cycle"] s0).
  assert (H1 : scored_so_far score w n s1).
  { split; [reflexivity |]. split; [simpl; lia |]. split.
    - unfold best_so_far_by. simpl. split; [reflexivity | intros i Hi; lia].
    - simpl. intros i Hi. lia. }
  pose proof (while_loop_scored_ends w n (budget s1) s1 H1 (le_n _)) as Hends.
  cbv zeta in Hends.
  destruct (while_loop_scored score (budget s1) w s1) as [s2 [o |]]; simpl in *.
  - destruct Hends as (_ & Hb & Hrun & Ho).
    destruct o as [[|] | e |]; try contradiction;
      (split; [discriminate |]; split; [exact Hrun |]; split; [exact Hb |];
       discriminate).
  - destruct Hends as (Hm & Hb & Hrun & Hge).
    pose proof (after_loop_frame w s2) as Hfr.
    pose proof (best_so_far_by_frame w s2 _ Hfr Hb) as Hb'.
    assert (Hcur : current_iteration (after_loop w s2).1 = current_iteration s2).
    { unfold run_state in Hfr. by injection Hfr as _ Hc _ _ _ _. }
    rewrite Hcur.
    split.
    { unfold after_loop. destruct (best_design (logger _ _ s2)); [| discriminate].
      destruct (_generate_final_report w _) as [x [[] | e]]; discriminate. }
    split; [exact Hrun |]. split; [exact Hb' |].
    intros Hret.
    assert (Hbd : exists b, best_design s2 = Some b).
    { revert Hret. unfold after_loop. cbn [best_design logger].
      destruct (best_design s2) as [b |]; [by exists b | discriminate]. }
    destruct Hbd as (b & Hbd).
    unfold best_so_far_by in Hb. rewrite Hbd in Hb.
    destruct Hb as (_ & Hr & _). destruct Hrun as (Hc & _). lia.
Qed.

End ScoredLoop.

(** C5: for every scoring function.  Over one pass of the loop the counter
    advances by one, [best_score] does not decrease, and the best design is
    replaced exactly when the pass reaches the scoring step with a score
    strictly above [best_score]; it is then the design of this pass.  A run
    on a fresh agent with a budget of [n] goes through the iterations
    [1 .. current_iteration], which are all [n] of them when it returns
    [False] and otherwise end with the first last iteration, and however it
    ends the best design carries the maximum of the scores of these
    iterations and is the earliest of them with that score (none is kept
    when none was scored).  [run] is the loop scored by
    [_calculate_design_score]; with the scorer in binary64 a tie of the
    exact scores can be broken by rounding: for the product scores [0.9]
    and then [0.9, 0.9, 0.9] the floats are 90.0 and 90.00000000000001 and
    the second design is kept, where exact arithmetic keeps the first. *)
Theorem C5_best_design_is_earliest_maximum
    (score : constraint_results -> product_evaluation -> Q) :
  (forall w s,
      let s' := (iteration_scored score w s).1 in
      let i := (current_iteration s + 1)%Z in
      current_iteration s' = i
      /\ score_le (best_score s) (best_score s')
      /\ match iteration_score_by score w i with
         | Some q =>
             if score_gt q (best_score s)
             then best_score s' = Score q
                  /\ exists b, best_design s' = Some b
                               /\ bd_iteration b = i /\ bd_score b = q
                               /\ bd_process_design b = generated (at_iteration w i)
             else best_design s' = best_design s /\ best_score s' = best_score s
         | None => best_design s' = best_design s /\ best_score s' = best_score s
         end)
  /\ (forall w config raw_materials product_specs output_dir n,
        let r :=
          run_scored score w (fresh config raw_materials product_specs output_dir n) in
        r.2 <> OutOfFuel
        /\ iterations_run w n (current_iteration r.1)
        /\ best_so_far_by score w r.1
        /\ (r.2 = Returns false -> current_iteration r.1 = n))
  /\ (forall w s, run w s = run_scored _calculate_design_score w s)
  /\ (bd_iteration <$> best_design (run_scored scored_in_floats rounding_world
                                       (agent_with_budget 2)).1 = Some 2%Z
      /\ bd_iteration <$> best_design (run rounding_world (agent_with_budget 2)).1
         = Some 1%Z
      /\ Float64.to_Q (float_design_score (constraints_of true 0 true 0)
                         (products_of false [("ethanol"%string, 9 # 10)]))
         = Some 90
      /\ _calculate_design_score (constraints_of true 0 true 0)
           (products_of false [("ethanol"%string, 9 # 10);
                               ("water"%string, 9 # 10);
                               ("acetic acid"%string, 9 # 10)]) == 90).
Proof.
  split.
  { intros w s. cbv zeta.
    destruct (iteration_scored_state score w s) as (Hcur & _ & _ & _ & _ & Hbest).
    split; [exact Hcur |]. split; [| exact Hbest].
    assert (Hrefl : score_le (best_score s) (best_score s)).
    { destruct (best_score s); simpl; [exact I | lra]. }
    destruct (iteration_score_by score w (current_iteration s + 1)) as [q |].
    - destruct (score_gt q (best_score s)) eqn:Hgt.
      + destruct Hbest as (-> & _).
        destruct (best_score s) as [| b0]; simpl; [exact I |].
        apply score_gt_lt in Hgt. lra.
      + destruct Hbest as [_ ->]. exact Hrefl.
    - destruct Hbest as [_ ->]. exact Hrefl. }
  split; [intros w config rm ps out n; apply run_scored_ends |].
  split; [reflexivity |].
  split; [vm_compute; reflexivity |].
  split; [vm_compute; reflexivity |].
  split; vm_compute; reflexivity.
Qed.


(** * Further properties of the code *)

Set Warnings "-clear-no-such-hyp".

(** ** The scorer, beyond the claims *)

Section ScorerExtras.

Lemma mass_balance_penalty_range (cr : constraint_results) :
  0 <= mass_balance_penalty cr <= 50.
Proof.
  unfold mass_balance_penalty.
  destruct (default false (mass_balance_satisfied cr)); [lra |].
  pose proof (Qabs_nonneg (default 0 (mass_balance_error cr))).
  split; [apply Qmin_50_nonneg; lra | apply Q.le_min_l].
Qed.

Lemma energy_balance_penalty_range (cr : constraint_results) :
  0 <= energy_balance_penalty cr <= 50.
Proof.
  unfold energy_balance_penalty.
  destruct (default false (energy_balance_satisfied cr)); [lra |].
  pose proof (Qabs_nonneg (default 0 (energy_balance_error cr))).
  split; [apply Qmin_50_nonneg; lra | apply Q.le_min_l].
Qed.

Lemma penalties_monotone (cr cr' : constraint_results) :
  at_least_as_balanced cr' cr ->
  mass_balance_penalty cr' <= mass_balance_penalty cr
  /\ energy_balance_penalty cr' <= energy_balance_penalty cr.
Proof.
  intros (Hm & He & Hme & Hee).
  pose proof (mass_balance_penalty_range cr) as Rm.
  pose proof (energy_balance_penalty_range cr) as Re.
  unfold mass_balance_penalty, energy_balance_penalty in *.
  split.
  - destruct (default false (mass_balance_satisfied cr'));
      [destruct (default false (mass_balance_satisfied cr)); lra |].
    destruct (default false (mass_balance_satisfied cr)).
    + specialize (Hm eq_refl). discriminate.
    + apply Q.min_le_compat_l. lra.
  - destruct (default false (energy_balance_satisfied cr'));
      [destruct (default false (energy_balance_satisfied cr)); lra |].
    destruct (default false (energy_balance_satisfied cr)).
    + specialize (He eq_refl). discriminate.
    + apply Q.min_le_compat_l. lra.
Qed.

Lemma inject_length_nonneg (n : nat) : 0 <= 1 / inject_Z (Z.of_nat n).
Proof.
  destruct n as [| n]; [vm_compute; discriminate |].
  rewrite <- product_weight_pos by lia. apply product_weight_nonneg.
Qed.

Lemma products_penalty_monotone (l' l : list (string * Q)) :
  Forall2 (fun x y : string * Q => y.2 <= x.2) l' l ->
  spec_products_penalty (List.map snd l') <= spec_products_penalty (List.map snd l).
Proof.
  intros H. unfold spec_products_penalty. rewrite !length_map.
  rewrite (Forall2_length _ _ _ H).
  pose proof (inject_length_nonneg (length l)) as Hw.
  revert Hw. generalize (length l). intros n Hw.
  induction H as [| x y l' l Hxy _ IH]; simpl; [lra |].
  unfold spec_product_penalty at 1 3.
  assert ((100 - x.2 * 100) * (1 / inject_Z (Z.of_nat n))
          <= (100 - y.2 * 100) * (1 / inject_Z (Z.of_nat n))).
  { apply Qmult_le_compat_r; [lra | exact Hw]. }
  lra.
Qed.

(** X1: a design that is at least as well balanced, with the same
    products scoring at least as high, never gets a lower score. *)
Theorem score_monotone (cr cr' : constraint_results) (pe pe' : product_evaluation) :
  at_least_as_balanced cr' cr -> scores_at_least pe' pe ->
  _calculate_design_score cr pe <= _calculate_design_score cr' pe'.
Proof.
  intros Hb Hs. rewrite !calculate_design_score_closed.
  unfold guarded_design_score.
  destruct (penalties_monotone cr cr' Hb) as [Hm He].
  pose proof (products_penalty_monotone _ _ Hs) as Hp.
  fold (scores_of pe') in Hp. fold (scores_of pe) in Hp.
  apply Q.max_le_compat_l. lra.
Qed.

Lemma score_monotone_witness :
  _calculate_design_score (constraints_of false 10 true 0)
    (products_of false [("ethanol"%string, 1 # 2)])
  <= _calculate_design_score (constraints_of false 2 true 0)
       (products_of false [("ethanol"%string, 3 # 4)]).
Proof.
  apply score_monotone.
  - unfold at_least_as_balanced. simpl.
    repeat split; try (intros H; exact H); vm_compute; discriminate.
  - unfold scores_at_least. simpl. repeat constructor. simpl. lra.
Defined.


Lemma sum_penalties_scaled (c : Q) (l : list Q) :
  sum_Q (List.map (fun s => (100 - s * 100) * c) l)
  == (100 * inject_Z (Z.of_nat (length l)) - 100 * sum_Q l) * c.
Proof.
  induction l as [| s l IH].
  - simpl. ring.
  - change (sum_Q (List.map (fun s0 => (100 - s0 * 100) * c) (s :: l)))
      with ((100 - s * 100) * c + sum_Q (List.map (fun s0 => (100 - s0 * 100) * c) l)).
    rewrite IH.
    change (sum_Q (s :: l)) with (s + sum_Q l).
    replace (Z.of_nat (length (s :: l))) with (Z.of_nat (length l) + 1)%Z
      by (simpl length; lia).
    rewrite inject_Z_plus. change (inject_Z 1) with 1. ring.
Qed.

Lemma products_penalty_mean (scores : list Q) :
  scores <> [] ->
  spec_products_penalty scores == 100 - 100 * mean scores.
Proof.
  intros Hne. unfold spec_products_penalty, mean.
  change (List.map (spec_product_penalty (length scores)) scores)
    with (List.map (fun s => (100 - s * 100) * (1 / inject_Z (Z.of_nat (length scores))))
            scores).
  rewrite sum_penalties_scaled.
  assert (Hn : ~ inject_Z (Z.of_nat (length scores)) == 0).
  { destruct scores; [congruence |].
    unfold Qeq, inject_Z. simpl. lia. }
  field. exact Hn.
Qed.

(** X2: with at least one product, the product penalties add up to
    [100 - 100 x mean]: the score is the mean product score on a scale of
    100, less the balance penalties, clamped at 0.  Without products only
    the balance penalties count. *)
Theorem score_is_mean_less_penalties (cr : constraint_results) (pe : product_evaluation) :
  (scores_of pe <> [] ->
   _calculate_design_score cr pe
   == Qmax 0 (100 * mean (scores_of pe)
              - mass_balance_penalty cr - energy_balance_penalty cr))
  /\ (scores_of pe = [] ->
      _calculate_design_score cr pe
      == 100 - mass_balance_penalty cr - energy_balance_penalty cr).
Proof.
  split; intros H; rewrite calculate_design_score_closed; unfold guarded_design_score.
  - rewrite (products_penalty_mean _ H).
    apply Q.max_compat; [reflexivity | ring].
  - rewrite H.
    pose proof (mass_balance_penalty_range cr).
    pose proof (energy_balance_penalty_range cr).
    change (spec_products_penalty []) with 0.
    rewrite Q.max_r by lra. ring.
Qed.

Lemma sum_Q_zero (l : list Q) :
  Forall (fun x => 0 <= x) l -> sum_Q l == 0 -> Forall (fun x => x == 0) l.
Proof.
  induction 1 as [| x l Hx Hl IH]; intros Hs; [constructor |].
  change (sum_Q (x :: l)) with (x + sum_Q l) in Hs.
  pose proof (sum_Q_nonneg l Hl).
  constructor; [lra | apply IH; lra].
Qed.

Lemma Qmin_50_zero (x : Q) : 0 <= x -> (Qmin 50 x == 0 <-> x == 0).
Proof.
  intros Hx. destruct (Q.min_spec 50 x) as [[H1 H2] | [H1 H2]]; rewrite H2; lra.
Qed.

Lemma mass_balance_penalty_zero (cr : constraint_results) :
  mass_balance_penalty cr == 0
  <-> default false (mass_balance_satisfied cr) = true
      \/ default 0 (mass_balance_error cr) == 0.
Proof.
  unfold mass_balance_penalty.
  destruct (default false (mass_balance_satisfied cr)).
  - split; [left; reflexivity | reflexivity].
  - set (e := default 0 (mass_balance_error cr)).
    pose proof (Qabs_nonneg e) as Hn.
    rewrite Qmin_50_zero by lra.
    split.
    + intros H. right.
      assert (Ha : Qabs e == 0) by lra.
      revert Ha. apply Qabs_case; intros; lra.
    + intros [H | H]; [discriminate |]. rewrite H. reflexivity.
Qed.


Lemma energy_balance_penalty_zero (cr : constraint_results) :
  energy_balance_penalty cr == 0
  <-> default false (energy_balance_satisfied cr) = true
      \/ default 0 (energy_balance_error cr) == 0.
Proof.
  unfold energy_balance_penalty.
  destruct (default false (energy_balance_satisfied cr)).
  - split; [left; reflexivity | reflexivity].
  - set (e := default 0 (energy_balance_error cr)).
    pose proof (Qabs_nonneg e) as Hn.
    rewrite Qmin_50_zero by lra.
    split.
    + intros H. right.
      assert (Ha : Qabs e == 0) by lra.
      revert Ha. apply Qabs_case; intros; lra.
    + intros [H | H]; [discriminate |]. rewrite H. reflexivity.
Qed.

Lemma products_penalty_zero (scores : list Q) :
  Forall (fun s => s <= 1) scores ->
  (spec_products_penalty scores == 0 <-> Forall (fun s => s == 1) scores).
Proof.
  intros Hle. destruct scores as [| s0 rest] eqn:E.
  { split; [constructor | reflexivity]. }
  rewrite <- E in *. assert (Hne : scores <> []) by (rewrite E; discriminate).
  clear E s0 rest.
  assert (Hn : 0 < inject_Z (Z.of_nat (length scores))).
  { destruct scores; [congruence |]. unfold Qlt, inject_Z. simpl. lia. }
  assert (Hw : 0 < 1 / inject_Z (Z.of_nat (length scores))).
  { apply Qlt_shift_div_l; [exact Hn | lra]. }
  unfold spec_products_penalty.
  split.
  - intros H0.
    apply sum_Q_zero in H0.
    + rewrite Forall_map in H0.
      rewrite Forall_forall in *. intros s Hs.
      specialize (H0 s Hs). specialize (Hle s Hs).
      unfold spec_product_penalty in H0. simpl in H0.
      set (w := 1 / inject_Z (Z.of_nat (length scores))) in *.
      assert (100 - s * 100 == 0).
      { destruct (Qeq_dec (100 - s * 100) 0) as [Hz | Hz]; [exact Hz |].
        exfalso. apply Qmult_integral in H0. destruct H0; lra. }
      lra.
    + rewrite Forall_map. rewrite Forall_forall in *. intros s Hs.
      specialize (Hle s Hs). unfold spec_product_penalty. simpl.
      apply Qmult_le_0_compat; lra.
  - intros H1.
    generalize (length scores). intros n. clear Hn Hw Hne Hle.
    induction H1 as [| s l Hs _ IH]; [reflexivity |].
    change (sum_Q (List.map (spec_product_penalty n) (s :: l)))
      with (spec_product_penalty n s + sum_Q (List.map (spec_product_penalty n) l)).
    rewrite IH. unfold spec_product_penalty. rewrite Hs. ring.
Qed.

(** X3: in exact arithmetic and for normalized product scores, the
    score is the full 100 exactly when no penalty applies: each balance is
    satisfied or has a zero error, and every product score is 1.  In
    binary64 the penalties can be rounded away: the float scorer returns
    100.0 for the product scores 1.0, 1.0 and 1 - 2^-53
    (0.9999999999999999), and for an unsatisfied mass balance with the
    error 1e-16. *)
Theorem score_is_100_iff (cr : constraint_results) (pe : product_evaluation) :
  normalized_scores pe ->
  (_calculate_design_score cr pe == 100
   <-> (default false (mass_balance_satisfied cr) = true
        \/ default 0 (mass_balance_error cr) == 0)
       /\ (default false (energy_balance_satisfied cr) = true
           \/ default 0 (energy_balance_error cr) == 0)
       /\ Forall (fun s => s == 1) (scores_of pe))
  /\ Float64.to_Q
       (float_design_score (constraints_of true 0 true 0)
          (products_of false
             [("ethanol"%string, 1); ("water"%string, 1);
              ("acetic acid"%string, 9007199254740991 # 9007199254740992)]))
     = Some 100
  /\ Float64.to_Q
       (float_design_score (constraints_of false (1 # 10000000000000000) true 0)
          (products_of true []))
     = Some 100.
Proof.
  intros Hn.
  split; [| split; vm_compute; reflexivity].
  assert (Hle : Forall (fun s => s <= 1) (scores_of pe)).
  { eapply Forall_impl; [exact Hn |]. intros s Hs. simpl in Hs. lra. }
  rewrite calculate_design_score_closed. unfold guarded_design_score.
  rewrite <- mass_balance_penalty_zero, <- energy_balance_penalty_zero,
    <- (products_penalty_zero _ Hle).
  pose proof (mass_balance_penalty_range cr).
  pose proof (energy_balance_penalty_range cr).
  pose proof (spec_products_penalty_nonneg _ Hle).
  set (x := 100 - mass_balance_penalty cr - energy_balance_penalty cr
            - spec_products_penalty (scores_of pe)).
  destruct (Q.max_spec 0 x) as [[Hx1 Hx2] | [Hx1 Hx2]]; rewrite Hx2; unfold x in *;
    split; intros; try lra; repeat split; lra.
Qed.

Lemma score_is_100_witness :
  _calculate_design_score (constraints_of false 0 true 7)
    (products_of false [("ethanol"%string, 1)]) == 100.
Proof.
  assert (Hn : normalized_scores (products_of false [("ethanol"%string, 1)])).
  { repeat constructor; simpl; lra. }
  apply (proj2 (proj1 (score_is_100_iff (constraints_of false 0 true 7)
                         (products_of false [("ethanol"%string, 1)]) Hn))).
  split; [right; reflexivity |]. split; [left; reflexivity |].
  repeat constructor.
Defined.

End ScorerExtras.
(** ** The feedback synthesizer, beyond the claims *)

Section FeedbackExtras.

Lemma inner_issue_loop (product_name : string) (l : list (string * string))
    (acc : list text * list text) :
  fold_left
    (fun acc '(issue_type, details) =>
       let issue_msg :=
         [Str product_name; Lit ": "; Str issue_type; Lit " - "; Str details] in
       (acc.1 ++ [issue_msg], acc.2 ++ suggestion_for product_name issue_type))
    l acc
  = (acc.1 ++ List.map product_issue_text (issues_of_product (product_name, l)),
     acc.2 ++ flat_map (fun i : string * string * string => suggestion_for i.1.1 i.1.2)
                (issues_of_product (product_name, l))).
Proof.
  revert acc. induction l as [| [ty d] l IH]; intros [a b].
  - simpl. rewrite !app_nil_r. reflexivity.
  - simpl fold_left. rewrite IH. unfold issues_of_product. simpl.
    rewrite <- !app_assoc. reflexivity.
Qed.

Lemma product_issue_loop_lists (l : list (string * list (string * string)))
    (acc : list text * list text) :
  product_issue_loop l acc
  = (acc.1 ++ List.map product_issue_text (flat_map issues_of_product l),
     acc.2 ++ flat_map (fun i : string * string * string => suggestion_for i.1.1 i.1.2)
                (flat_map issues_of_product l)).
Proof.
  unfold product_issue_loop.
  revert acc. induction l as [| [name iss] l IH]; intros [a b].
  - simpl. rewrite !app_nil_r. reflexivity.
  - simpl fold_left. rewrite inner_issue_loop. rewrite IH.
    simpl. rewrite map_app, flat_map_app, <- !app_assoc. reflexivity.
Qed.

Lemma suggestion_for_length (product_name issue_type : string) :
  (length (suggestion_for product_name issue_type) <= 1)%nat
  /\ (In issue_type known_issue_types ->
      length (suggestion_for product_name issue_type) = 1%nat).
Proof.
  unfold suggestion_for, known_issue_types.
  repeat match goal with
         | |- context [String.eqb ?a ?b] => destruct (String.eqb_spec a b)
         end; simpl; split; try lia; try reflexivity.
  intros [H | [H | [H | [H | [H | []]]]]]; congruence.
Qed.

Lemma suggestions_count (l : list (string * string * string)) :
  (length (flat_map (fun i : string * string * string => suggestion_for i.1.1 i.1.2) l)
   <= length l)%nat
  /\ (Forall (fun i : string * string * string => In i.1.2 known_issue_types) l ->
      length (flat_map (fun i : string * string * string => suggestion_for i.1.1 i.1.2) l)
      = length l).
Proof.
  induction l as [| i l [IH1 IH2]]; simpl; [split; [lia | reflexivity] |].
  rewrite length_app.
  destruct (suggestion_for_length i.1.1 i.1.2) as [H1 H2].
  split; [lia |].
  intros H. inversion H; subst. rewrite H2, IH2 by assumption. reflexivity.
Qed.

(** X4: the feedback lists one issue per unsatisfied balance (mass
    first), then one issue per entry of the product issues, product by
    product; the suggestions are those of the constraint issues followed
    by those of the product issues, one for each issue of a known type and
    none for an issue of another type.  So there are never more
    suggestions than issues, and exactly as many when every issue type is
    known. *)
Theorem feedback_issue_lists (cr : constraint_results) (pe : product_evaluation) :
  let fb := _generate_feedback cr pe in
  constraint_issues fb = Some (expected_constraint_issues cr)
  /\ product_issues fb = Some (List.map product_issue_text (all_product_issues pe))
  /\ suggestions fb
     = expected_constraint_suggestions cr
       ++ flat_map (fun i : string * string * string => suggestion_for i.1.1 i.1.2)
            (all_product_issues pe)
  /\ (length (suggestions fb)
      <= length (expected_constraint_issues cr) + length (all_product_issues pe))%nat
  /\ (Forall (fun i : string * string * string => In i.1.2 known_issue_types)
        (all_product_issues pe) ->
      length (suggestions fb)
      = (length (expected_constraint_issues cr) + length (all_product_issues pe))%nat).
Proof.
  cbv zeta.
  assert (Hl : constraint_issues (_generate_feedback cr pe)
               = Some (expected_constraint_issues cr)
               /\ product_issues (_generate_feedback cr pe)
                  = Some (List.map product_issue_text (all_product_issues pe))
               /\ suggestions (_generate_feedback cr pe)
                  = expected_constraint_suggestions cr
                    ++ flat_map
                         (fun i : string * string * string => suggestion_for i.1.1 i.1.2)
                         (all_product_issues pe)).
  { unfold _generate_feedback, expected_constraint_issues,
      expected_constraint_suggestions, all_product_issues, mass_issue, energy_issue.
    destruct (default false (mass_balance_satisfied cr)),
      (default false (energy_balance_satisfied cr)),
      (default false (all_specifications_met pe)); simpl;
      rewrite product_issue_loop_lists; simpl; repeat split. }
  destruct Hl as (Hc & Hp & Hs).
  repeat (split; [assumption |]).
  rewrite Hs, length_app.
  destruct (suggestions_count (all_product_issues pe)) as [H1 H2].
  assert (Hcs : length (expected_constraint_suggestions cr)
                = length (expected_constraint_issues cr)).
  { unfold expected_constraint_suggestions, expected_constraint_issues.
    destruct (default false (mass_balance_satisfied cr)),
      (default false (energy_balance_satisfied cr)); reflexivity. }
  split; [lia |]. intros H. rewrite H2 by exact H. lia.
Qed.

End FeedbackExtras.

(** ** The iteration controller, beyond the claims *)

Section ControllerExtras.

Implicit Types (w : world) (s : t).

(** The step of the report on an agent that has a best design. *)
Lemma final_report_with_best w s b :
  best_design s = Some b ->
  final_report (_generate_final_report w s).1 = Some (build_report s b)
  /\ ((_generate_final_report w s).2 = Ok tt -> Config.simulation (config s) <> None)
  /\ (forall e, (_generate_final_report w s).2 = Raise e ->
                Config.simulation (config s) = None
                /\ e = mk_exn KeyError "simulation").
Proof.
  intros Hb. unfold _generate_final_report, _generate_performance_plots. rewrite Hb.
  cbn [config write_final_report logger].
  destruct (Config.simulation (config s)) as [c |]; simpl.
  - destruct (default false (Config.generate_plots c)); [destruct (plots w) |];
      simpl; repeat split; try congruence; intros e He; discriminate.
  - repeat split; congruence.
Qed.

(** What a pass leaves behind, by the way it ends. *)
Lemma iteration_outcome_record w s :
  (best_design s = None -> best_score s = NegInf) ->
  match (iteration w s).2 with
  | None =>
      exists r, history (iteration w s).1 = history s ++ [r]
                /\ ir_iteration r = (current_iteration s + 1)%Z
                /\ not_success r
  | Some (Returns b) =>
      b = true
      /\ (exists r, history (iteration w s).1 = history s ++ [r]
                    /\ ir_iteration r = (current_iteration s + 1)%Z
                    /\ status (ir_feedback r) = "success"%string)
      /\ Config.simulation (config s) <> None
      /\ exists bd, best_design (iteration w s).1 = Some bd
                    /\ exists s1, run_state s1 = run_state (iteration w s).1
                                  /\ final_report (iteration w s).1
                                     = Some (build_report s1 bd)
  | Some (Raises e) =>
      Config.simulation (config s) = None
      \/ evaluation_raises (at_iteration w (current_iteration s + 1)) = true
  | Some OutOfFuel => False
  end.
Proof.
  intros Hinv. unfold iteration, evaluation_raises, not_success.
  cbn [current_iteration set_current_iteration logger].
  destruct (at_iteration w (current_iteration s + 1)) as [g c sim cc an].
  cbn [generated converted simulated constraint_checked analyzed].
  destruct c as [e |].
  { simpl. eexists. repeat split. discriminate. }
  destruct sim as [sr | e].
  2:{ simpl. eexists. repeat split. discriminate. }
  destruct cc as [cr | e]; [| simpl; right; reflexivity].
  destruct an as [pe | e]; [| simpl; right; reflexivity].
  set (q := _calculate_design_score cr pe).
  set (fb := _generate_feedback cr pe).
  cbn -[String.eqb _generate_final_report score_gt].
  destruct (String.eqb_spec (status fb) "success") as [Hst | Hst].
  2:{ destruct (score_gt q (best_score s)); simpl; eexists; repeat split; exact Hst. }
  match goal with
  | |- context [_generate_final_report ?w ?x] => set (s1 := x)
  end.
  assert (Hbd : exists bd, best_design s1 = Some bd).
  { unfold s1. destruct (score_gt q (best_score s)) eqn:Hgt; simpl; [eauto |].
    destruct (best_design s) as [bd |]; [eauto |].
    rewrite Hinv in Hgt by reflexivity. discriminate. }
  destruct Hbd as [bd Hbd].
  assert (Hcfg : config s1 = config s).
  { unfold s1. destruct (score_gt q (best_score s)); reflexivity. }
  assert (Hh : exists r, history s1 = history s ++ [r]
                         /\ ir_iteration r = (current_iteration s + 1)%Z
                         /\ status (ir_feedback r) = "success"%string).
  { unfold s1. destruct (score_gt q (best_score s)); simpl; eexists; repeat split; exact Hst. }
  pose proof (final_report_frame w s1) as Hfr.
  destruct (final_report_with_best w s1 bd Hbd) as (Hrep & Hok & Hraise).
  rewrite Hcfg in Hok, Hraise.
  destruct (_generate_final_report w s1) as [s2 [[] | e]]; simpl in *.
  - split; [reflexivity |].
    assert (Hfr' := Hfr).
    unfold run_state in Hfr'. injection Hfr' as _ _ _ Hb2 _ Hh2.
    split; [rewrite Hh2; exact Hh |].
    split; [apply Hok; reflexivity |].
    exists bd. split; [congruence |].
    exists s1. split; [symmetry; exact Hfr | exact Hrep].
  - left. apply (Hraise e). reflexivity.
Qed.


Lemma after_loop_returns w s :
  match (after_loop w s).2 with
  | Returns b =>
      b = false
      /\ Config.simulation (config s) <> None
      /\ exists bd s1,
           best_design s = Some bd
           /\ run_state s1 = run_state s
           /\ final_report (after_loop w s).1 = Some (build_report s1 bd)
  | Raises e => best_design s = None \/ Config.simulation (config s) = None
  | OutOfFuel => False
  end.
Proof.
  unfold after_loop. cbn [best_design logger].
  destruct (best_design s) as [bd |] eqn:Hb; [| left; reflexivity].
  match goal with
  | |- context [_generate_final_report ?w ?x] => set (s1 := x)
  end.
  assert (Hb1 : best_design s1 = Some bd) by exact Hb.
  assert (Hr1 : run_state s1 = run_state s) by reflexivity.
  destruct (final_report_with_best w s1 bd Hb1) as (Hrep & Hok & Hraise).
  destruct (_generate_final_report w s1) as [s2 [[] | e]]; simpl in *.
  - split; [reflexivity |]. split; [apply Hok; reflexivity |].
    exists bd, s1. repeat split; assumption.
  - right. apply (Hraise e). reflexivity.
Qed.

Lemma numbered_snoc (h : list iteration_record) (r : iteration_record) :
  numbered h -> ir_iteration r = (Z.of_nat (length h) + 1)%Z -> numbered (h ++ [r]).
Proof.
  intros Hn Hr k x Hk.
  destruct (decide (k < length h)%nat) as [Hlt | Hge].
  - rewrite lookup_app_l in Hk by exact Hlt. apply Hn. exact Hk.
  - rewrite lookup_app_r in Hk by lia.
    destruct (k - length h)%nat as [| m] eqn:Hm; simpl in Hk; [| discriminate].
    injection Hk as <-. rewrite Hr. f_equal. lia.
Qed.

Lemma looping_step w c n s :
  looping w c n s -> (current_iteration s < max_iterations s)%Z ->
  (iteration w s).2 = None -> looping w c n (iteration w s).1.
Proof.
  intros (Hc & Hcfg & Hnum & Hns) Hlt Hnone.
  destruct (counted_step w n s Hc Hlt) as [Hne | Hc']; [congruence |].
  assert (Hbest : best_design s = None -> best_score s = NegInf).
  { destruct Hc as (_ & _ & _ & Hb). unfold best_so_far in Hb.
    intros H0. rewrite H0 in Hb. apply Hb. }
  pose proof (iteration_outcome_record w s Hbest) as Hrec.
  destruct (iteration_run_state w s) as (Hcfg' & _).
  rewrite Hnone in Hrec. destruct Hrec as (r & Hh & Hi & Hs).
  split; [exact Hc' |]. split; [congruence |].
  rewrite Hh. split.
  - apply numbered_snoc; [exact Hnum |].
    destruct Hc as (Hstep & _). unfold history_in_step in Hstep. lia.
  - apply Forall_app. split; [exact Hns | repeat constructor; exact Hs].
Qed.

(** What holds whenever [run], started on a fresh agent, returns. *)
Lemma run_returned w c raw_materials product_specs output_dir n :
  match (run w (fresh c raw_materials product_specs output_dir n)).2 with
  | Returns b =>
      returned w c n b (run w (fresh c raw_materials product_specs output_dir n)).1
  | Raises _ => True
  | OutOfFuel => False
  end.
Proof.
  set (s0 := fresh c raw_materials product_specs output_dir n).
  rewrite run_unfold.
  pose proof (while_loop_enough_fuel w (budget s0)
                (logger INFO [Lit "Starting process design cycle"] s0)
                (Nat.le_refl _)) as Hfuel.
  pose proof (while_loop_exit (looping w c n) w (looping_step w c n) (budget s0)
                (logger INFO [Lit "Starting process design cycle"] s0)) as Hexit.
  assert (H0 : looping w c n (logger INFO [Lit "Starting process design cycle"] s0)).
  { unfold looping, counted, history_in_step, best_so_far, numbered. simpl.
    repeat split; try reflexivity; try lia; try constructor.
    intros k r Hk. rewrite lookup_nil in Hk. discriminate. }
  specialize (Hexit H0).
  destruct (while_loop _ w _) as [s1 [o |]]; simpl in *.
  - destruct o as [b | e |]; [| exact I | apply Hfuel; reflexivity].
    destruct Hexit as (sl & (Hc & Hcfg & Hnum & Hns) & Hlt & Hit).
    assert (Hbest : best_design sl = None -> best_score sl = NegInf).
    { destruct Hc as (_ & _ & _ & Hb). unfold best_so_far in Hb.
      intros Hn0. rewrite Hn0 in Hb. apply Hb. }
    pose proof (iteration_outcome_record w sl Hbest) as Hrec.
    destruct (counted_last_pass w n sl s1 b Hc Hlt Hit) as (_ & Hstep & _).
    assert (Hbsf : best_so_far w s1).
    { replace s1 with (iteration w sl).1 by (rewrite Hit; reflexivity).
      destruct Hc as (_ & _ & Hr & Hb). apply best_so_far_step; [lia | exact Hb]. }
    rewrite Hit in Hrec. simpl in Hrec.
    destruct Hrec as (-> & (r & Hh & Hi & Hs) & Hsim & bd & Hbd & s2 & Hrs & Hrep).
    unfold returned. rewrite Hcfg in Hsim.
    split; [exact Hsim |]. split; [exact Hbsf |]. split; [exact Hstep |].
    split.
    { rewrite Hh. apply numbered_snoc; [exact Hnum |].
      destruct Hc as (Hst0 & _). unfold history_in_step in Hst0. lia. }
    split; [exists (history sl), r; repeat split; assumption |].
    exists bd, s2. repeat split; assumption.
  - destruct Hexit as [((Hstep & Hmax & Hrange & Hbsf) & Hcfg & Hnum & Hns) Hge].
    pose proof (after_loop_returns w s1) as Hret.
    pose proof (after_loop_frame w s1) as Hfr.
    destruct (after_loop w s1) as [s2 o2]; simpl in *.
    destruct o2 as [b | e |]; [| exact I | exact Hret].
    destruct Hret as (-> & Hsim & bd & s3 & Hbd & Hrs & Hrep).
    assert (Hfr' := Hfr). unfold run_state in Hfr'.
    injection Hfr' as _ Hc2 _ Hb2 _ Hh2.
    unfold returned. rewrite Hcfg in Hsim.
    split; [exact Hsim |].
    split; [eapply best_so_far_frame; [exact Hfr | exact Hbsf] |].
    split; [eapply history_in_step_frame; [exact Hfr | exact Hstep] |].
    rewrite Hh2. split; [exact Hnum |].
    split.
    { split; [exact Hns |]. rewrite Hc2.
      unfold best_so_far in Hbsf. rewrite Hbd in Hbsf.
      destruct Hbsf as (_ & Hr & _). lia. }
    exists bd, s3. repeat split; [congruence | congruence | exact Hrep].
Qed.


(** X5: [run] stops at the first success.  When it returns [True], the
    last record of the history is a success and no earlier record is;
    when it returns [False], no record is a success.  In both cases the
    records are numbered 1, 2, ... in order and there are as many as
    iterations were started. *)
Theorem run_stops_at_first_success w c raw_materials product_specs output_dir n :
  let r := run w (fresh c raw_materials product_specs output_dir n) in
  (r.2 = Returns true ->
   exists h rec,
     history r.1 = h ++ [rec]
     /\ status (ir_feedback rec) = "success"%string
     /\ Forall not_success h)
  /\ (r.2 = Returns false -> Forall not_success (history r.1))
  /\ (forall b, r.2 = Returns b ->
                numbered (history r.1)
                /\ Z.of_nat (length (history r.1)) = current_iteration r.1).
Proof.
  cbv zeta.
  pose proof (run_returned w c raw_materials product_specs output_dir n) as H.
  destruct (run w _) as [s o]; simpl in *.
  split; [| split].
  - intros ->. destruct H as (_ & _ & _ & _ & Hh & _). exact Hh.
  - intros ->. destruct H as (_ & _ & _ & _ & Hh & _). apply Hh.
  - intros b ->. destruct H as (_ & _ & Hs & Hn & _). split; assumption.
Qed.

Lemma report_fields s1 s bd :
  run_state s1 = run_state s -> best_score s = Score (bd_score bd) ->
  total_iterations (summary (build_report s1 bd)) = current_iteration s
  /\ best_iteration (summary (build_report s1 bd)) = bd_iteration bd
  /\ report_best_score (summary (build_report s1 bd)) = Score (bd_score bd)
  /\ (success (summary (build_report s1 bd)) = true
      <-> status (_generate_feedback (bd_constraint_check bd) (bd_product_evaluation bd))
          = "success"%string).
Proof.
  intros Hrs Hbs. unfold run_state in Hrs. injection Hrs as _ Hc _ _ Hs _.
  simpl. rewrite Hc, Hs, Hbs. repeat split; try reflexivity.
  - intros H. rewrite generate_feedback_status.
    apply andb_prop in H. destruct H as [H He].
    apply andb_prop in H. destruct H as [Hp Hm].
    rewrite Hp, Hm, He. reflexivity.
  - rewrite generate_feedback_status.
    destruct (default false (mass_balance_satisfied (bd_constraint_check bd))),
      (default false (energy_balance_satisfied (bd_constraint_check bd))),
      (default false (all_specifications_met (bd_product_evaluation bd)));
      simpl; intros H; try reflexivity; discriminate.
Qed.

(** X6: whenever [run] returns, [final_report.json] has been written
    for the best design: it carries the number of iterations run, the
    iteration and the score of the best design, and its success flag is
    set exactly when the feedback for the best design is a success.  The
    best design need not be the design that ended the run: [run] can
    return [True] with a report whose success flag is [False]. *)
Theorem report_describes_best_design :
  (forall w c raw_materials product_specs output_dir n b,
      let r := run w (fresh c raw_materials product_specs output_dir n) in
      r.2 = Returns b ->
      exists bd rep,
        best_design r.1 = Some bd
        /\ final_report r.1 = Some rep
        /\ total_iterations (summary rep) = current_iteration r.1
        /\ best_iteration (summary rep) = bd_iteration bd
        /\ report_best_score (summary rep) = Score (bd_score bd)
        /\ iteration_score w (bd_iteration bd) = Some (bd_score bd)
        /\ (success (summary rep) = true
            <-> status (_generate_feedback (bd_constraint_check bd)
                          (bd_product_evaluation bd)) = "success"%string))
  /\ (exists w n rep,
        (run w (agent_with_budget n)).2 = Returns true
        /\ final_report (run w (agent_with_budget n)).1 = Some rep
        /\ best_iteration (summary rep) = 1%Z
        /\ total_iterations (summary rep) = 2%Z
        /\ success (summary rep) = false).
Proof.
  split.
  - intros w c raw_materials product_specs output_dir n b. cbv zeta.
    pose proof (run_returned w c raw_materials product_specs output_dir n) as H.
    destruct (run w _) as [s o]; simpl in *. intros ->.
    destruct H as (_ & Hbsf & _ & _ & _ & bd & s1 & Hbd & Hrs & Hrep).
    unfold best_so_far in Hbsf. rewrite Hbd in Hbsf.
    destruct Hbsf as (Hbs & _ & Hsc & _).
    destruct (report_fields s1 s bd Hrs Hbs) as (H1 & H2 & H3 & H4).
    exists bd, (build_report s1 bd). repeat split; try assumption; apply H4.
  - exists unscored_then_success, 3%Z.
    eexists. split; [vm_compute; reflexivity |].
    split; [vm_compute; reflexivity |]. repeat split.
Qed.

(** X7: with a configuration that has no ["simulation"] section, [run]
    never returns: every ending is an exception ([KeyError] from the
    report step once there is a best design). *)
Theorem run_needs_simulation_section w c raw_materials product_specs output_dir n :
  Config.simulation c = None ->
  exists e, (run w (fresh c raw_materials product_specs output_dir n)).2 = Raises e.
Proof.
  intros Hsim.
  pose proof (run_returned w c raw_materials product_specs output_dir n) as H.
  destruct (run w _) as [s o]; simpl in *.
  destruct o as [b | e |]; [| eauto | contradiction].
  destruct H as (Hne & _). contradiction.
Qed.

Lemma run_needs_simulation_section_witness :
  Config.simulation config_without_simulation = None
  /\ exists e,
       (run unscored_then_success
          (fresh config_without_simulation empty_document empty_document "output" 3)).2
       = Raises e.
Proof.
  split; [reflexivity |].
  exact (run_needs_simulation_section unscored_then_success
           config_without_simulation empty_document empty_document "output" 3
           eq_refl).
Defined.

Lemma while_loop_keeps (P : t -> Prop) w :
  (forall s, P s -> (current_iteration s < max_iterations s)%Z -> P (iteration w s).1) ->
  forall fuel s, P s -> P (while_loop fuel w s).1.
Proof.
  intros Hstep. induction fuel as [| fuel IH]; intros s HP; simpl.
  - destruct (current_iteration s <? max_iterations s)%Z; exact HP.
  - destruct (Z.ltb_spec (current_iteration s) (max_iterations s)) as [Hlt | Hge];
      [| exact HP].
    specialize (Hstep s HP Hlt).
    destruct (iteration w s) as [s1 [o |]]; simpl in *; [exact Hstep |].
    apply IH. exact Hstep.
Qed.

(** X8: however [run] ends on a fresh agent with a budget of [n], the
    iteration counter lies between 0 and [max 0 n], and the budget and the
    configuration of the agent are unchanged. *)
Theorem counter_within_budget w c raw_materials product_specs output_dir n :
  let r := run w (fresh c raw_materials product_specs output_dir n) in
  (0 <= current_iteration r.1 <= Z.max 0 n)%Z
  /\ max_iterations r.1 = n
  /\ config r.1 = c.
Proof.
  cbv zeta.
  set (s0 := fresh c raw_materials product_specs output_dir n).
  set (P := fun s => (0 <= current_iteration s <= Z.max 0 n)%Z
                     /\ max_iterations s = n /\ config s = c).
  assert (HP : P (while_loop (budget s0) w
                    (logger INFO [Lit "Starting process design cycle"] s0)).1).
  { apply while_loop_keeps.
    - intros s (Hr & Hm & Hc) Hlt.
      destruct (iteration_run_state w s) as (Hcfg & Hcur & Hmax & _).
      unfold P. rewrite Hcfg, Hcur, Hmax. repeat split; try assumption; lia.
    - unfold P. simpl. repeat split; lia. }
  rewrite run_unfold.
  destruct (while_loop _ w _) as [s1 [o |]]; simpl in HP |- *; [exact HP |].
  pose proof (after_loop_frame w s1) as Hfr.
  unfold run_state in Hfr. injection Hfr as Hc1 Hc2 Hc3 _ _ _.
  unfold P in *. rewrite Hc1, Hc2, Hc3. exact HP.
Qed.

End ControllerExtras.

(** ** The design checks of [ConstraintChecker] *)

Section DesignChecks.

Import ConstraintChecker.

Lemma parameter_invalid_spec (u : unit_operation) :
  parameter_invalid u = false <-> parameters_valid u.
Proof.
  unfold parameter_invalid, parameters_valid, kind.
  set (ty := lower (default ""%string (unit_type u))).
  destruct (String.eqb_spec ty "reactor") as [Hr | Hr]; simpl.
  - destruct (Qle_bool (default 0 (volume u)) 0) eqn:E.
    + apply Qle_bool_iff in E. split; [discriminate |].
      intros [H _]. specialize (H Hr). lra.
    + assert (Hv : 0 < default 0 (volume u)).
      { destruct (Qlt_le_dec 0 (default 0 (volume u))) as [H | H]; [exact H |].
        apply Qle_bool_iff in H. congruence. }
      destruct (String.eqb_spec ty "distillation_column") as [Hc | Hc];
        [rewrite Hr in Hc; discriminate |].
      simpl. split; [| reflexivity]. intros _. split; [intros _; exact Hv | congruence].
  - destruct (String.eqb_spec ty "distillation_column") as [Hc | Hc]; simpl.
    + destruct (Qle_bool (default 0 (num_trays u)) 0) eqn:E.
      * apply Qle_bool_iff in E. split; [discriminate |].
        intros [_ H]. specialize (H Hc). lra.
      * split; [| reflexivity]. intros _. split; [congruence |]. intros _.
        destruct (Qlt_le_dec 0 (default 0 (num_trays u))) as [H | H]; [exact H |].
        apply Qle_bool_iff in H. congruence.
    + split; [| reflexivity]. intros _. split; congruence.
Qed.

Lemma check_parameters_loop_spec (units : list unit_operation) :
  check_parameters_loop units = true <-> Forall parameters_valid units.
Proof.
  induction units as [| u units IH]; simpl.
  - split; [constructor | reflexivity].
  - destruct (parameter_invalid u) eqn:E.
    + split; [discriminate |]. intros H. inversion H; subst.
      apply parameter_invalid_spec in H2. congruence.
    + rewrite IH. apply parameter_invalid_spec in E.
      split; [intros H; constructor; assumption | intros H; inversion H; assumption].
Qed.

(** X9: [check_parameters] answers [True] exactly when every reactor has
    a positive volume and every distillation column a positive number of
    trays, the type being compared without regard to case; an absent
    volume or number of trays counts as 0, units of another type are not
    looked at, and a design without units passes. *)
Theorem check_parameters_spec (d : flowsheet) :
  (check_parameters d = true
   <-> Forall parameters_valid (default [] (unit_operations d)))
  /\ (unit_operations d = None -> check_parameters d = true)
  /\ (forall id, check_parameters
                   {| unit_operations := Some [unit_of id "Reactor"];
                      connections := connections d |} = false).
Proof.
  split; [apply check_parameters_loop_spec |].
  split; [intros H; unfold check_parameters; rewrite H; reflexivity |].
  intros id. reflexivity.
Qed.


Lemma dict_set_fresh {V : Type} (k : string) (v : V) (d : list (string * V)) :
  k ∉ d.*1 -> dict_set k v d = d ++ [(k, v)].
Proof.
  induction d as [| [k' v'] d IH]; simpl; intros Hk; [reflexivity |].
  destruct (String.eqb_spec k' k) as [-> | Hne].
  - exfalso. apply Hk. left.
  - rewrite IH; [reflexivity |]. intros Hin. apply Hk. right. exact Hin.
Qed.

Lemma units_by_id_distinct (units : list unit_operation) (ids : list string)
    (acc : list (string * unit_operation)) :
  Forall2 (fun u id => unit_id u = Some id) units ids ->
  NoDup (acc.*1 ++ ids) ->
  units_by_id units acc = Ok (acc ++ zip ids units).
Proof.
  intros H. revert acc. induction H as [| u id units ids Hu _ IH]; intros acc Hnd.
  - simpl. rewrite app_nil_r. reflexivity.
  - simpl. rewrite Hu. simpl.
    apply NoDup_app in Hnd. destruct Hnd as (Hacc & Hdis & Hids).
    inversion Hids as [| ? ? Hnotin Hids']; subst.
    rewrite dict_set_fresh.
    2:{ intros Hin. apply (Hdis id Hin). left. }
    rewrite IH.
    + rewrite <- app_assoc. reflexivity.
    + rewrite fmap_app. simpl. rewrite <- app_assoc. simpl.
      apply NoDup_app. split; [exact Hacc |]. split.
      * intros x Hx Hin. apply (Hdis x Hx). exact Hin.
      * constructor; assumption.
Qed.

Lemma units_by_id_raises (units : list unit_operation)
    (acc : list (string * unit_operation)) :
  (units_by_id units acc = Raise (mk_exn KeyError "id")
   /\ Exists (fun u => unit_id u = None) units)
  \/ ((exists dict, units_by_id units acc = Ok dict)
      /\ Forall (fun u => unit_id u <> None) units).
Proof.
  revert acc. induction units as [| u units IH]; intros acc; simpl.
  - right. split; [eauto | constructor].
  - destruct (unit_id u) as [id |] eqn:Hu; simpl.
    + destruct (IH (dict_set id u acc)) as [[H1 H2] | [H1 H2]].
      * left. split; [exact H1 | right; exact H2].
      * right. split; [exact H1 | constructor; [congruence | exact H2]].
    + left. split; [reflexivity | left; exact Hu].
Qed.

Lemma empty_filter {A : Type} (f : A -> bool) (l : list A) :
  empty (List.filter f l) = false <-> exists x, x ∈ l /\ f x = true.
Proof.
  induction l as [| a l IH]; simpl.
  - split; [discriminate |]. intros (x & Hx & _). inversion Hx.
  - destruct (f a) eqn:E; simpl.
    + split; [| reflexivity]. intros _. exists a. split; [left | exact E].
    + rewrite IH. split.
      * intros (x & Hx & Hf). exists x. split; [right; exact Hx | exact Hf].
      * intros (x & Hx & Hf). inversion Hx; subst; [congruence |]. eauto.
Qed.

Lemma has_inlet (cs : list connection) (id : string) :
  empty (inlets_of cs id) = false <-> exists c, c ∈ cs /\ conn_to c = Some id.
Proof.
  unfold inlets_of. rewrite empty_filter.
  split; intros (c & Hc & H); exists c; (split; [exact Hc |]).
  - apply bool_decide_eq_true in H. exact H.
  - apply bool_decide_eq_true. exact H.
Qed.

Lemma has_outlet (cs : list connection) (id : string) :
  empty (outlets_of cs id) = false <-> exists c, c ∈ cs /\ conn_from c = Some id.
Proof.
  unfold outlets_of. rewrite empty_filter.
  split; intros (c & Hc & H); exists c; (split; [exact Hc |]).
  - apply bool_decide_eq_true in H. exact H.
  - apply bool_decide_eq_true. exact H.
Qed.

Lemma connection_missing_spec (cs : list connection) (id : string) (u : unit_operation) :
  connection_missing cs id u = false <-> connected cs id u.
Proof.
  unfold connection_missing, connected, kind.
  set (ty := lower (default ""%string (unit_type u))).
  destruct (bool_decide (ty ∈ ["reactor"; "distillation_column"; "heat_exchanger"]%string))
    eqn:Hk.
  - apply bool_decide_eq_true in Hk.
    assert (Hnp : ty <> "pump"%string).
    { intros ->. repeat (apply elem_of_cons in Hk; destruct Hk as [Hk | Hk];
                         [discriminate |]). inversion Hk. }
    rewrite orb_false_iff, has_inlet, has_outlet.
    split; [intros H; split; [intros _; exact H | congruence] |].
    intros [H _]. apply H. exact Hk.
  - apply bool_decide_eq_false in Hk.
    destruct (String.eqb_spec ty "pump") as [Hp | Hp].
    + rewrite orb_false_iff, negb_false_iff, Nat.eqb_eq, has_inlet.
      split; [intros H; split; [contradiction | intros _; exact H] |].
      intros [_ H]. apply H. exact Hp.
    + split; [| reflexivity]. intros _. split; [contradiction | congruence].
Qed.

Lemma check_connections_loop_spec (cs : list connection)
    (units : list unit_operation) (ids : list string) :
  length units = length ids ->
  (check_connections_loop cs (zip ids units) = true
   <-> Forall2 (fun u id => connected cs id u) units ids).
Proof.
  revert ids. induction units as [| u units IH]; intros [| id ids] Hl;
    simpl in Hl; try discriminate.
  - simpl. split; [constructor | reflexivity].
  - simpl. destruct (connection_missing cs id u) eqn:E.
    + split; [discriminate |]. intros H. inversion H; subst.
      apply connection_missing_spec in H3. congruence.
    + apply connection_missing_spec in E. rewrite IH by lia.
      split; [intros H; constructor; assumption | intros H; inversion H; assumption].
Qed.

(** X10: [check_stream_connections] raises [KeyError] exactly when some
    unit operation has no ["id"], whatever the connections; otherwise it
    returns a boolean. *)
Theorem check_stream_connections_key_error (d : flowsheet) :
  (check_stream_connections d = Raise (mk_exn KeyError "id")
   <-> Exists (fun u => unit_id u = None) (default [] (unit_operations d)))
  /\ (Forall (fun u => unit_id u <> None) (default [] (unit_operations d))
      <-> exists b, check_stream_connections d = Ok b).
Proof.
  unfold check_stream_connections.
  destruct (units_by_id_raises (default [] (unit_operations d)) [])
    as [[H1 H2] | [[dict H1] H2]]; rewrite H1; simpl.
  - split; [split; [intros _; exact H2 | reflexivity] |].
    split; [| intros [b Hb]; discriminate].
    intros Hall. exfalso. apply Exists_exists in H2. destruct H2 as (u & Hin & Hu).
    rewrite Forall_forall in Hall. exact (Hall u Hin Hu).
  - split; [| split; [eauto | intros _; exact H2]].
    split; [discriminate |]. intros Hex. exfalso.
    apply Exists_exists in Hex. destruct Hex as (u & Hin & Hu).
    rewrite Forall_forall in H2. exact (H2 u Hin Hu).
Qed.

(** X11: for unit operations with pairwise distinct ids,
    [check_stream_connections] answers [True] exactly when every reactor,
    distillation column and heat exchanger has a connection to it and a
    connection from it, and every pump has a connection to it and exactly
    one connection from it; units of another type need no connection. *)
Theorem check_stream_connections_spec (d : flowsheet) (ids : list string) :
  Forall2 (fun u id => unit_id u = Some id) (default [] (unit_operations d)) ids ->
  NoDup ids ->
  exists b,
    check_stream_connections d = Ok b
    /\ (b = true
        <-> Forall2 (fun u id => connected (default [] (connections d)) id u)
              (default [] (unit_operations d)) ids).
Proof.
  intros Hids Hnd. unfold check_stream_connections.
  rewrite (units_by_id_distinct _ ids []) by assumption.
  simpl. eexists. split; [reflexivity |].
  apply check_connections_loop_spec. exact (Forall2_length _ _ _ Hids).
Qed.

Lemma check_stream_connections_witness :
  check_stream_connections
    {| unit_operations := Some [unit_of "R1" "reactor"; unit_of "P1" "Pump"];
       connections := Some [connection_of "feed" "R1"; connection_of "R1" "P1";
                            connection_of "P1" "product"] |}
  = Ok true.
Proof.
  destruct (check_stream_connections_spec
              {| unit_operations := Some [unit_of "R1" "reactor"; unit_of "P1" "Pump"];
                 connections := Some [connection_of "feed" "R1"; connection_of "R1" "P1";
                                      connection_of "P1" "product"] |}
              ["R1"; "P1"]%string)
    as (b & Hb & _).
  - repeat constructor.
  - apply (bool_decide_unpack _). reflexivity.
  - rewrite Hb. revert Hb. vm_compute. intros Hb. injection Hb as <-. reflexivity.
Defined.

End DesignChecks.

(** ** The simulator *)

Section Simulator.

Import DWSIMSimulator.

Lemma mass_totals_acc (streams : list (string * script_stream)) (acc : Q * Q) :
  let r :=
    fold_left
      (fun totals '(_, stream_data) =>
         if String.eqb (stream_from stream_data) "none"
         then (totals.1 + total_flow stream_data, totals.2)
         else if String.eqb (stream_to stream_data) "none"
              then (totals.1, totals.2 + total_flow stream_data)
              else totals)
      streams acc in
  r.1 == acc.1 + flow_sum is_input streams
  /\ r.2 == acc.2 + flow_sum is_output streams.
Proof.
  cbv zeta. revert acc.
  induction streams as [| [tag sd] streams IH]; intros [a b].
  - unfold flow_sum. simpl. split; ring.
  - simpl fold_left.
    unfold flow_sum in *. simpl List.filter. unfold is_input, is_output in *.
    destruct (String.eqb (stream_from sd) "none") eqn:Hf; simpl negb; simpl andb.
    + destruct (IH (a + total_flow sd, b)) as [H1 H2]. rewrite H1, H2.
      simpl. split; ring.
    + destruct (String.eqb (stream_to sd) "none") eqn:Ht.
      * destruct (IH (a, b + total_flow sd)) as [H1 H2]. rewrite H1, H2.
        simpl. split; ring.
      * destruct (IH (a, b)) as [H1 H2]. rewrite H1, H2. simpl. split; ring.
Qed.

Lemma mass_balance_error_nonneg (i o : Q) : 0 <= mass_balance_error i o.
Proof.
  unfold mass_balance_error. destruct (Qltb 0 i) eqn:E; [| lra].
  apply Qltb_lt in E.
  pose proof (Qabs_nonneg (i - o)) as Ha.
  assert (0 <= Qabs (i - o) / i).
  { apply Qle_shift_div_l; [exact E | lra]. }
  lra.
Qed.

Lemma mass_balance_error_zero (i o : Q) :
  mass_balance_error i o == 0 <-> 0 < i /\ o == i.
Proof.
  unfold mass_balance_error. destruct (Qltb 0 i) eqn:E.
  - apply Qltb_lt in E.
    assert (Hi : ~ i == 0) by lra.
    split.
    + intros H. split; [exact E |].
      assert (Ha : Qabs (i - o) == 0).
      { assert (Hd : Qabs (i - o) / i == 0) by lra.
        assert (Hm : Qabs (i - o) / i * i == 0 * i) by (rewrite Hd; reflexivity).
        rewrite Qmult_comm, Qmult_div_r in Hm by exact Hi. lra. }
      revert Ha. apply Qabs_case; intros; lra.
    + intros [_ Ho]. rewrite Ho.
      assert (Hz : i - i == 0) by ring. rewrite Hz.
      change (Qabs 0) with 0. field. exact Hi.
  - apply Qltb_ge in E. split; [lra | intros [H _]; lra].
Qed.

(** X12: the mass balance that the script reports.  The input total is
    the flow of the streams whose inlet is attached to nothing, the output
    total that of the other streams whose outlet is attached to nothing (a
    stream detached at both ends is input only, an inner stream is not
    counted).  The error is never negative, is 100 when the input total is
    not positive, and is 0 exactly when the input total is positive and
    equals the output total. *)
Theorem script_mass_balance_spec (streams : list (string * script_stream)) :
  let mb := script_mass_balance streams in
  total_input_mass mb == flow_sum is_input streams
  /\ total_output_mass mb == flow_sum is_output streams
  /\ 0 <= error_percent mb
  /\ (total_input_mass mb <= 0 -> error_percent mb == 100)
  /\ (error_percent mb == 0
      <-> 0 < total_input_mass mb /\ total_output_mass mb == total_input_mass mb).
Proof.
  cbv zeta. unfold script_mass_balance, mass_totals. simpl.
  destruct (mass_totals_acc streams (0, 0)) as [H1 H2]. cbv zeta in H1, H2.
  simpl in H1, H2.
  split; [rewrite H1; ring |]. split; [rewrite H2; ring |].
  split; [apply mass_balance_error_nonneg |].
  split; [| apply mass_balance_error_zero].
  intros Hle. unfold mass_balance_error.
  match goal with |- context [Qltb 0 ?x] => destruct (Qltb 0 x) eqn:E end;
    [| reflexivity].
  apply Qltb_lt in E. lra.
Qed.

(** X13: [run_simulation] hands on a document exactly when the
    preparation and the launch pass, the process exits with code 0 in time
    and the results file holds a dict whose status is not ["error"]: the
    results that the script writes, and any other dict as well, the empty
    one included, which the controller then treats as no results.  It
    never returns an error document.  The process is killed exactly when
    it times out, and then the exception is a [RuntimeError] that names
    the timeout. *)
Theorem run_simulation_spec (self : t) (h : simulation_host) :
  (forall p,
      outcome (run_simulation self h) = Ok p
      <-> prepare h = None /\ launch h = None /\ process h = Exited 0
          /\ results_file h = Some (Ok p) /\ handed_on p)
  /\ (outcome (run_simulation self (host_with_file (Some (Loaded (JDict [])))))
      = Ok (Loaded (JDict []))
      /\ Simulation.truthy (to_simulation (Loaded (JDict []))) = false)
  /\ (killed (run_simulation self h) = true
      <-> prepare h = None /\ launch h = None /\ process h = TimedOut)
  /\ (killed (run_simulation self h) = true ->
      outcome (run_simulation self h)
      = Raise (mk_exn RuntimeError
                 ("DWSIM simulation timed out after "
                    +:+ str_int (timeout self) +:+ " seconds"))).
Proof.
  split; [| split; [split; reflexivity |]].
  - intros p. unfold run_simulation, handed_on.
    destruct (prepare h) as [e |]; simpl; [naive_solver |].
    destruct (launch h) as [e |]; simpl; [naive_solver |].
    destruct (process h) as [| rc]; simpl; [naive_solver |].
    destruct (Z.eqb_spec rc 0) as [-> | Hrc]; simpl; [| naive_solver].
    destruct (results_file h)
      as [[[streams units mb eb | msg | [| b | z | q | str | l | d]] | e] |]; simpl;
      try naive_solver.
    destruct (is_error d) eqn:E; simpl.
    + split; [discriminate |]. intros (_ & _ & _ & Hp & Hh).
      injection Hp as <-. congruence.
    + split.
      * intros Hp. injection Hp as <-. by repeat split.
      * intros (_ & _ & _ & Hp & _). by injection Hp as <-.
  - unfold run_simulation.
    destruct (prepare h) as [e |]; simpl; [naive_solver |].
    destruct (launch h) as [e |]; simpl; [naive_solver |].
    destruct (process h) as [| rc]; simpl; [naive_solver |].
    destruct (Z.eqb_spec rc 0) as [-> | Hrc]; simpl; [| naive_solver].
    destruct (results_file h)
      as [[[streams units mb eb | msg | [| b | z | q | str | l | d]] | e] |]; simpl;
      try naive_solver.
    destruct (is_error d) eqn:E; simpl; naive_solver.
Qed.

(** X14: a DWSIM calculation that crashes or does not converge ends as
    an error iteration.  The script writes an error document, the process
    exits normally, [run_simulation] turns the document into a
    [RuntimeError], and the pass of [run] records feedback with status
    [error], the message "Simulation failed: DWSIM simulation error: ..."
    and no simulation result, and goes on with the loop. *)
Theorem failed_simulation_is_error_iteration
    (w : world) (s : ProcessDesignerAgent.t) (self : t) (r : dwsim_run) (msg : string) :
  (r = NotConverged /\ msg = "Simulation failed to converge."%string)
  \/ (exists e, r = Crashed e /\ msg = exn_msg e) ->
  converted (at_iteration w (current_iteration s + 1)) = None ->
  simulated (at_iteration w (current_iteration s + 1))
  = simulated_by (run_simulation self (host_with_file (automation_script r true))) ->
  (iteration w s).2 = None
  /\ exists rec,
       history (iteration w s).1 = history s ++ [rec]
       /\ ir_feedback rec
          = simulation_error_feedback
              (mk_exn RuntimeError ("DWSIM simulation error: " +:+ msg))
       /\ message (ir_feedback rec)
          = [Lit "Simulation failed: "; Str ("DWSIM simulation error: " +:+ msg)]
       /\ status (ir_feedback rec) = "error"%string
       /\ ir_simulation_results_path rec = None.
Proof.
  intros Hr Hconv Hsim.
  assert (Hraise : simulated (at_iteration w (current_iteration s + 1))
                   = Raise (mk_exn RuntimeError ("DWSIM simulation error: " +:+ msg))).
  { rewrite Hsim. destruct Hr as [[-> ->] | (e & -> & ->)]; reflexivity. }
  clear Hsim Hr.
  unfold iteration. cbn [current_iteration set_current_iteration logger].
  destruct (at_iteration w (current_iteration s + 1)) as [g c sim cc an].
  cbn [generated converted simulated] in *. subst c. rewrite Hraise. simpl.
  split; [reflexivity |]. eexists. repeat split.
Qed.

Lemma failed_simulation_witness :
  (iteration diverging_world (agent_with_budget 3)).2 = None
  /\ List.map (fun rec => message (ir_feedback rec))
       (history (iteration diverging_world (agent_with_budget 3)).1)
     = [[Lit "Simulation failed: ";
         Str "DWSIM simulation error: Simulation failed to converge."]].
Proof.
  destruct (failed_simulation_is_error_iteration diverging_world (agent_with_budget 3)
              some_simulator NotConverged "Simulation failed to converge."
              (or_introl (conj eq_refl eq_refl)) eq_refl eq_refl)
    as (Hnone & rec & Hh & _ & Hm & _).
  split; [exact Hnone |]. rewrite Hh. simpl. rewrite Hm. reflexivity.
Defined.

End Simulator.

(** ** Input data *)

Section InputData.

Import DataHandler.

Lemma first_missing_none (keys : list string) (entry : list (string * json)) :
  first_missing keys entry = None
  <-> Forall (fun key => dict_get key entry <> None) keys.
Proof.
  induction keys as [| k keys IH]; simpl.
  - split; [constructor | reflexivity].
  - destruct (dict_get k entry) eqn:E.
    + rewrite IH. split.
      * intros H. constructor; [congruence | exact H].
      * intros H. inversion H; assumption.
    + split; [discriminate |]. intros H. inversion H; subst. congruence.
Qed.

Lemma validate_entries_valid (what : string) (keys : list string) (items : list json) :
  forall i, validate_entries what keys i items = Valid
            <-> well_formed_entries keys items.
Proof.
  unfold well_formed_entries.
  induction items as [| item items IH]; intros i; simpl.
  - split; [constructor | reflexivity].
  - destruct item as [| b | z | q | s | l | entry];
      try (split; [discriminate |]; intros H; inversion H as [| ? ? (e & He & _)];
           discriminate).
    destruct (first_missing keys entry) as [k |] eqn:E.
    + split; [discriminate |]. intros H. inversion H as [| ? ? (e & He & Hk)]; subst.
      injection He as <-. apply first_missing_none in Hk. congruence.
    + apply first_missing_none in E. rewrite IH. split.
      * intros H. constructor; [exists entry; split; [reflexivity | exact E] | exact H].
      * intros H. inversion H; assumption.
Qed.

(** X15: the two validators accept exactly the documents that are a dict
    whose ["materials"] (or ["products"]) entry is a list of dicts having
    every required key; the values under these keys are not looked at,
    other keys are allowed and an empty list is accepted. *)
Theorem validators_accept (data : json) :
  (_validate_raw_materials data = Valid
   <-> exists d items,
         data = JDict d /\ dict_get "materials" d = Some (JList items)
         /\ well_formed_entries material_keys items)
  /\ (_validate_product_specs data = Valid
      <-> exists d items,
            data = JDict d /\ dict_get "products" d = Some (JList items)
            /\ well_formed_entries product_keys items).
Proof.
  unfold _validate_raw_materials, _validate_product_specs.
  split.
  - destruct data as [| b | z | q | s | l | d];
      try (split; [discriminate | intros (? & ? & ? & _); discriminate]).
    destruct (dict_get "materials" d) as [[| b | z | q | s | items | e] |] eqn:E;
      try (split; [discriminate |];
           intros (d' & items' & Hd & Hm & _); injection Hd as <-; congruence).
    rewrite validate_entries_valid. split.
    + intros H. exists d, items. repeat split; assumption.
    + intros (d' & items' & Hd & Hm & H). injection Hd as <-.
      rewrite E in Hm. injection Hm as <-. exact H.
  - destruct data as [| b | z | q | s | l | d];
      try (split; [discriminate | intros (? & ? & ? & _); discriminate]).
    destruct (dict_get "products" d) as [[| b | z | q | s | items | e] |] eqn:E;
      try (split; [discriminate |];
           intros (d' & items' & Hd & Hm & _); injection Hd as <-; congruence).
    rewrite validate_entries_valid. split.
    + intros H. exists d, items. repeat split; assumption.
    + intros (d' & items' & Hd & Hm & H). injection Hd as <-.
      rewrite E in Hm. injection Hm as <-. exact H.
Qed.


Ltac unit_cases :=
  repeat match goal with
         | |- context [String.eqb ?a ?b] =>
             destruct (String.eqb_spec a b); try congruence; cbn [andb]
         end.

(** X16: converting back undoes a conversion.  Whenever
    [convert_units] converts a value from one unit to another, it also
    converts in the other direction, and the two conversions compose to
    the identity (in exact arithmetic); a unit converts to itself
    unchanged, whatever its name. *)
Theorem convert_units_round_trip (value x : Q) (from_unit to_unit : string) :
  converted_value (convert_units value from_unit to_unit) = Some x ->
  exists y,
    converted_value (convert_units x to_unit from_unit) = Some y /\ y == value.
Proof.
  unfold convert_units. unit_cases; cbn [converted_value];
    intros H; try discriminate; injection H as <-;
    (eexists; split; [reflexivity |]); try reflexivity; field; discriminate.
Qed.

Lemma convert_units_round_trip_witness :
  exists y,
    converted_value (convert_units (value_of_psi 1) "kPa" "psi") = Some y /\ y == 1.
Proof.
  apply (convert_units_round_trip 1 (value_of_psi 1) "psi" "kPa"). reflexivity.
Defined.

(** X17: [convert_units] converts exactly between equal units and the
    fourteen pairs of its table and raises [ValueError] for every other
    pair, whatever the value; it warns exactly for the two flow-rate
    conversions. *)
Theorem convert_units_table (value : Q) (from_unit to_unit : string) :
  (convert_units value from_unit to_unit = Unsupported from_unit to_unit
   <-> from_unit <> to_unit /\ ~ In (from_unit, to_unit) conversion_table)
  /\ (convert_units value from_unit to_unit <> Unsupported from_unit to_unit
      -> exists v w, convert_units value from_unit to_unit = Converted v w
                     /\ (w = true
                         <-> (from_unit, to_unit) = ("kmol/h", "kg/h")%string
                             \/ (from_unit, to_unit) = ("kg/h", "kmol/h")%string)).
Proof.
  split.
  - unfold convert_units, conversion_table. unit_cases; subst.
    all: split; [try discriminate | ].
    all: try (intros [Hne Hnin]; exfalso;
              first [apply Hne; reflexivity | apply Hnin; simpl; tauto]).
    all: first
           [ solve [intros _; reflexivity]
           | intros _; split; [assumption |]; simpl;
             intros H; repeat (destruct H as [H | H]; [congruence |]);
             exact H ].
  - unfold convert_units. unit_cases; subst; intros H; try congruence;
      (eexists; eexists; split; [reflexivity |]);
      split; try discriminate; try (intros [E | E]; congruence);
      intros _; tauto.
Qed.

End InputData.


Section Converter.

Import ET ModelConverter.

Lemma first_occurrences_elem (x : string) (l : list string) :
  x ∈ first_occurrences l <-> x ∈ l.
Proof.
  induction l as [| y l IH]; simpl; [reflexivity |].
  rewrite !elem_of_cons, list_elem_of_filter, IH.
  destruct (decide (x = y)); naive_solver.
Qed.

Lemma first_occurrences_NoDup (l : list string) : NoDup (first_occurrences l).
Proof.
  induction l as [| y l IH]; simpl; constructor.
  - rewrite list_elem_of_filter. naive_solver.
  - by apply NoDup_filter.
Qed.

Lemma first_occurrences_snoc (l : list string) (n : string) :
  first_occurrences (l ++ [n])
  = if decide (n ∈ l) then first_occurrences l else first_occurrences l ++ [n].
Proof.
  induction l as [| y l IH]; simpl.
  - destruct (decide (n ∈ [])) as [H | _]; [inversion H | reflexivity].
  - rewrite IH.
    destruct (decide (n ∈ l)) as [Hin | Hin].
    + rewrite decide_True by (right; exact Hin). reflexivity.
    + rewrite filter_app.
      destruct (decide (n = y)) as [-> | Hne].
      * rewrite decide_True by left.
        rewrite filter_cons_False by naive_solver. simpl.
        by rewrite app_nil_r.
      * rewrite decide_False by (rewrite elem_of_cons; naive_solver).
        rewrite filter_cons_True by done. reflexivity.
Qed.

Lemma dict_get_None {V : Type} (k : string) (d : list (string * V)) :
  dict_get k d = None <-> k ∉ d.*1.
Proof.
  induction d as [| [k' v] d IH]; simpl.
  - split; [intros _ H; inversion H | reflexivity].
  - rewrite not_elem_of_cons.
    destruct (String.eqb_spec k' k) as [-> | Hne]; [naive_solver |].
    rewrite IH. naive_solver.
Qed.

Lemma first_named_snoc (n : string) (cs : list compound) (c c' : compound) :
  first_named n cs = Some c -> first_named n (cs ++ [c']) = Some c.
Proof.
  unfold first_named. induction cs as [| x cs IH]; simpl; [discriminate |].
  destruct (bool_decide (name x = Some n)); [trivial | exact IH].
Qed.

Lemma first_named_fresh (n : string) (cs : list compound) (c : compound) :
  Some n ∉ name <$> cs -> name c = Some n -> first_named n (cs ++ [c]) = Some c.
Proof.
  unfold first_named. induction cs as [| x cs IH]; simpl; intros Hn Hc.
  - rewrite bool_decide_eq_true_2 by exact Hc. reflexivity.
  - rewrite not_elem_of_cons in Hn. destruct Hn as [Hx Hn].
    rewrite bool_decide_eq_false_2 by congruence. by apply IH.
Qed.

Lemma omap_name_elem (n : string) (cs : list compound) :
  n ∈ omap name cs <-> Some n ∈ name <$> cs.
Proof.
  rewrite list_elem_of_omap, list_elem_of_fmap. naive_solver.
Qed.

Lemma extracted_step (pre : list compound) (found : list (string * compound_entry))
    (c : compound) (n : string) :
  extracted pre found -> name c = Some n ->
  extracted (pre ++ [c])
    match dict_get n found with
    | None => dict_set n {| ce_name := n; ce_formula := default n (formula c) |} found
    | Some _ => found
    end.
Proof.
  intros (Hpre & Hkeys & Hent) Hc.
  assert (Hom : omap name (pre ++ [c]) = omap name pre ++ [n]).
  { rewrite omap_app. simpl. rewrite Hc. reflexivity. }
  unfold extracted. rewrite Hom, first_occurrences_snoc.
  split; [apply Forall_app; split; [exact Hpre | constructor; [congruence | constructor]] |].
  destruct (dict_get n found) as [e |] eqn:Hg.
  - assert (Hin : n ∈ omap name pre).
    { apply first_occurrences_elem. rewrite <- Hkeys.
      destruct (decide (n ∈ found.*1)) as [H | H]; [exact H |].
      apply dict_get_None in H. congruence. }
    rewrite decide_True by exact Hin. split; [exact Hkeys |].
    eapply Forall_impl; [exact Hent |].
    intros kv (Hk & c0 & Hf & Hform). split; [exact Hk |].
    exists c0. split; [by apply first_named_snoc | exact Hform].
  - apply dict_get_None in Hg.
    assert (Hnin : n ∉ omap name pre).
    { rewrite <- first_occurrences_elem, <- Hkeys. exact Hg. }
    rewrite decide_False by exact Hnin.
    rewrite dict_set_fresh by exact Hg.
    rewrite fmap_app, Hkeys. split; [reflexivity |].
    apply Forall_app. split.
    + eapply Forall_impl; [exact Hent |].
      intros kv (Hk & c0 & Hf & Hform). split; [exact Hk |].
      exists c0. split; [by apply first_named_snoc | exact Hform].
    + constructor; [| constructor]. simpl. split; [reflexivity |].
      exists c. split; [| reflexivity]. simpl.
      apply first_named_fresh; [| exact Hc].
      by rewrite <- omap_name_elem.
Qed.

Lemma extract_stream_spec (cs pre : list compound)
    (found : list (string * compound_entry)) :
  extracted pre found ->
  match extract_stream cs found with
  | Ok found' => extracted (pre ++ cs) found'
  | Raise e => e = mk_exn KeyError "name" /\ Exists (fun c => name c = None) cs
  end.
Proof.
  revert pre found. induction cs as [| c cs IH]; intros pre found H; simpl.
  - by rewrite app_nil_r.
  - destruct (name c) as [n |] eqn:Hc; simpl.
    + pose proof (extracted_step pre found c n H Hc) as Hstep.
      specialize (IH (pre ++ [c])).
      rewrite <- app_assoc in IH. simpl in IH.
      destruct (dict_get n found).
      * specialize (IH _ Hstep).
        destruct (extract_stream cs found); [exact IH |].
        destruct IH as [-> Hex]. split; [reflexivity | by right].
      * specialize (IH _ Hstep).
        destruct (extract_stream cs _); [exact IH |].
        destruct IH as [-> Hex]. split; [reflexivity | by right].
    + split; [reflexivity | by left].
Qed.

Lemma extract_streams_concat (ss : list stream) (found : list (string * compound_entry)) :
  extract_streams ss found
  = extract_stream (concat (List.map (fun s => default [] (compounds s)) ss)) found.
Proof.
  revert found. induction ss as [| s ss IH]; intros found; simpl; [reflexivity |].
  generalize (default [] (compounds s)). intros cs. revert found.
  induction cs as [| c cs IHc]; intros found; simpl; [apply IH |].
  destruct (name c); simpl; [| reflexivity].
  destruct (dict_get _ found); apply IHc.
Qed.

Lemma extracted_names (pre : list compound) (found : list (string * compound_entry)) :
  extracted pre found -> ce_name <$> found.*2 = first_occurrences (omap name pre).
Proof.
  intros (_ & <- & Hent).
  induction Hent as [| kv l [Hk _] _ IH]; [reflexivity |].
  rewrite !fmap_cons, Hk. f_equal. exact IH.
Qed.

Lemma extract_compounds_result (d : process_design) :
  match _extract_compounds d with
  | Ok l =>
      Forall (fun c => name c <> None) (all_compounds d)
      /\ ce_name <$> l = first_occurrences (omap name (all_compounds d))
      /\ Forall (entry_of (all_compounds d)) l
  | Raise e =>
      e = mk_exn KeyError "name"
      /\ Exists (fun c => name c = None) (all_compounds d)
  end.
Proof.
  unfold _extract_compounds. rewrite extract_streams_concat.
  fold (all_compounds d).
  assert (H0 : extracted [] []).
  { split; [constructor |]. split; [reflexivity | constructor]. }
  pose proof (extract_stream_spec (all_compounds d) [] [] H0) as H.
  simpl in H. destruct (extract_stream (all_compounds d) []) as [found | e]; simpl.
  - pose proof (extracted_names _ _ H) as Hn.
    destruct H as (Hall & Hkeys & Hent).
    split; [exact Hall |]. split; [exact Hn |].
    apply Forall_fmap. eapply Forall_impl; [exact Hent |]. by intros kv [_ ?].
  - exact H.
Qed.

(** X18.  [_extract_compounds] raises [KeyError('name')] exactly when a
    compound of some stream has no name.  Otherwise it returns one entry
    for each different name, in the order in which the names first occur
    in the streams; the formula of an entry is the one of the first
    compound with that name, later ones being ignored, or the name itself
    when that compound has no formula. *)
Theorem extract_compounds_spec (d : process_design) :
  match _extract_compounds d with
  | Ok l =>
      Forall (fun c => name c <> None) (all_compounds d)
      /\ ce_name <$> l = first_occurrences (omap name (all_compounds d))
      /\ NoDup (ce_name <$> l)
      /\ (forall n, n ∈ ce_name <$> l <-> Some n ∈ name <$> all_compounds d)
      /\ Forall (entry_of (all_compounds d)) l
  | Raise e =>
      e = mk_exn KeyError "name"
      /\ Exists (fun c => name c = None) (all_compounds d)
  end.
Proof.
  pose proof (extract_compounds_result d) as H.
  destruct (_extract_compounds d) as [l | e]; [| exact H].
  destruct H as (Hall & Hn & Hent).
  split; [exact Hall |]. split; [exact Hn |].
  rewrite Hn. split; [apply first_occurrences_NoDup |].
  split; [intros n; by rewrite first_occurrences_elem, omap_name_elem |].
  exact Hent.
Qed.

Lemma dict_get_set {V : Type} (k k' : string) (v : V) (d : list (string * V)) :
  dict_get k (dict_set k' v d) = if String.eqb k' k then Some v else dict_get k d.
Proof.
  induction d as [| [k0 v0] d IH]; simpl.
  - reflexivity.
  - destruct (String.eqb_spec k0 k') as [-> | Hne]; simpl.
    + destruct (String.eqb k' k); reflexivity.
    + rewrite IH. destruct (String.eqb_spec k0 k) as [-> | Hk].
      * rewrite (proj2 (String.eqb_neq k' k)) by congruence. reflexivity.
      * reflexivity.
Qed.

Lemma create_unit_operation_ok (u : unit_operation) (id : string) :
  unit_id u = Some id ->
  exists e, _create_unit_operation u = Ok e
            /\ tag e = "UnitOperation"%string
            /\ dict_get "ID" (attrib e) = Some (Str id).
Proof.
  intros Hid. unfold _create_unit_operation. rewrite Hid. simpl.
  eexists. split; [reflexivity |]. split; reflexivity.
Qed.

(** The loop over the unit operations: the elements created, in order,
    and the unit that [unit_mapping] holds for an id, the last one. *)
Lemma create_units_spec (units : list unit_operation) (unit_ops : list element)
    (unit_mapping : list (string * nat)) :
  match create_units units unit_ops unit_mapping with
  | Ok (unit_ops', unit_mapping') =>
      (exists es, unit_ops' = unit_ops ++ es
                  /\ Forall2 (fun u e => _create_unit_operation u = Ok e) units es)
      /\ (forall id, Some id ∉ unit_id <$> units ->
                     dict_get id unit_mapping' = dict_get id unit_mapping)
      /\ (forall id i u, units !! i = Some u -> unit_id u = Some id ->
                         Some id ∉ unit_id <$> drop (S i) units ->
                         dict_get id unit_mapping' = Some (length unit_ops + i)%nat)
  | Raise e => e = mk_exn KeyError "id" /\ Exists (fun u => unit_id u = None) units
  end.
Proof.
  revert unit_ops unit_mapping.
  induction units as [| u units IH]; intros unit_ops unit_mapping; simpl.
  - split; [exists []; split; [by rewrite app_nil_r | constructor] |].
    split; [reflexivity |]. intros id i u Hi. by rewrite lookup_nil in Hi.
  - destruct (unit_id u) as [id0 |] eqn:Hid.
    2:{ unfold _create_unit_operation. rewrite Hid. simpl.
        split; [reflexivity | by left]. }
    destruct (create_unit_operation_ok u id0 Hid) as (e & He & _).
    rewrite He. simpl.
    specialize (IH (unit_ops ++ [e]) (dict_set id0 (length unit_ops) unit_mapping)).
    destruct (create_units units _ _) as [[ops' m'] | ex].
    2:{ destruct IH as [-> Hex]. split; [reflexivity | by right]. }
    destruct IH as ((es & -> & Hes) & Hout & Hin).
    split; [exists (e :: es); split; [by rewrite <- app_assoc | by constructor] |].
    split.
    + intros id Hn. rewrite not_elem_of_cons in Hn.
      destruct Hn as [Hne Hn]. rewrite (Hout id Hn), dict_get_set.
      rewrite (proj2 (String.eqb_neq id0 id)) by congruence. reflexivity.
    + intros id [| i] u' Hi Hu' Hlater; simpl in *.
      * injection Hi as <-. assert (id = id0) as -> by congruence.
        rewrite drop_0 in Hlater.
        rewrite (Hout id0 Hlater), dict_get_set, String.eqb_refl.
        f_equal. lia.
      * rewrite (Hin id i u' Hi Hu' Hlater), length_app. simpl. f_equal. lia.
Qed.

Lemma composition_spec (cs : list compound) (comp_elem : list element) :
  Forall (fun c => name c <> None) cs ->
  exists es, composition cs comp_elem = Ok es.
Proof.
  revert comp_elem. induction cs as [| c cs IH]; intros comp_elem H; simpl.
  - by eexists.
  - inversion H as [| ? ? Hc Hcs]; subst.
    destruct (name c) as [n |]; [| congruence]. simpl. apply IH, Hcs.
Qed.

Lemma create_stream_ok (s : stream) (id : string) :
  stream_id s = Some id ->
  Forall (fun c => name c <> None) (default [] (compounds s)) ->
  exists e, _create_stream s = Ok e
            /\ tag e = "Stream"%string
            /\ dict_get "ID" (attrib e) = Some (Str id).
Proof.
  intros Hid Hcs. unfold _create_stream. rewrite Hid. simpl.
  destruct (composition_spec _ [] Hcs) as (es & ->). simpl.
  eexists. split; [reflexivity |]. split; reflexivity.
Qed.

Lemma create_streams_spec (ss : list stream) (streams : list element) :
  Forall (fun c => name c <> None)
    (concat (List.map (fun s => default [] (compounds s)) ss)) ->
  match create_streams ss streams with
  | Ok streams' =>
      exists es, streams' = streams ++ es
                 /\ Forall2 (fun s e => stream_id s <> None
                                        /\ tag e = "Stream"%string
                                        /\ dict_get "ID" (attrib e) = Str <$> stream_id s)
                      ss es
  | Raise e => e = mk_exn KeyError "id" /\ Exists (fun s => stream_id s = None) ss
  end.
Proof.
  revert streams. induction ss as [| s ss IH]; intros streams Hcs; simpl.
  - exists []. split; [by rewrite app_nil_r | constructor].
  - simpl in Hcs. apply Forall_app in Hcs. destruct Hcs as [Hs Hcs].
    destruct (stream_id s) as [id |] eqn:Hid.
    2:{ unfold _create_stream. rewrite Hid. simpl. split; [reflexivity | by left]. }
    destruct (create_stream_ok s id Hid Hs) as (e & He & Ht & Ha).
    rewrite He. simpl.
    specialize (IH (streams ++ [e]) Hcs).
    destruct (create_streams ss _) as [streams' | ex].
    + destruct IH as (es & -> & Hes).
      exists (e :: es). split; [by rewrite <- app_assoc |].
      constructor; [| exact Hes]. rewrite Hid. by repeat split.
    + destruct IH as [-> Hex]. split; [reflexivity | by right].
Qed.

Lemma with_children_nil (e : element) : with_children [] e = e.
Proof. destruct e. unfold with_children. simpl. by rewrite app_nil_r. Qed.

Lemma with_children_app (cs cs' : list element) (e : element) :
  with_children cs' (with_children cs e) = with_children (cs ++ cs') e.
Proof. unfold with_children. simpl. by rewrite app_assoc. Qed.

Lemma append_with_children (c e : element) : append c e = with_children [c] e.
Proof. by destruct e. Qed.

Section Connect.

(** The unit at position [i] is called [id]; [unit_mapping] holds it for
    [id] when [live], and for no other id. *)
Variables (unit_mapping : list (string * nat)) (i : nat) (id : string) (live : bool).
Hypothesis mapped :
  forall k, dict_get k unit_mapping = Some i <-> k = id /\ live = true.

Lemma attach_lookup (t : string) (uid sid : option string) (unit_ops : list element) :
  attach t uid sid unit_mapping unit_ops !! i
  = with_children
      match sid with
      | Some (String _ _ as stream_id) =>
          if bool_decide (uid = Some id) && live && negb (String.eqb id "")
          then [port t stream_id] else []
      | _ => []
      end
    <$> unit_ops !! i.
Proof.
  assert (Hid : forall (o : option element), with_children [] <$> o = o).
  { intros [e |]; simpl; [by rewrite with_children_nil | reflexivity]. }
  unfold attach.
  destruct uid as [[| a k] |]; [| | destruct sid as [[| ? ?] |]; by rewrite Hid].
  - destruct sid as [[| b sid] |]; try by rewrite Hid.
    destruct (bool_decide (Some ""%string = Some id)) eqn:E; [| by rewrite Hid].
    apply bool_decide_eq_true in E. injection E as <-. simpl.
    rewrite andb_false_r. by rewrite Hid.
  - destruct sid as [[| b sid] |]; try by rewrite Hid.
    destruct (dict_get (String a k) unit_mapping) as [j |] eqn:Hg.
    + destruct (decide (j = i)) as [-> | Hne].
      * apply mapped in Hg. destruct Hg as [<- ->].
        rewrite bool_decide_eq_true_2 by reflexivity. simpl.
        rewrite list_lookup_alter_eq.
        destruct (unit_ops !! i); simpl; [| reflexivity].
        by rewrite append_with_children.
      * rewrite list_lookup_alter_ne by exact Hne.
        destruct (bool_decide (Some (String a k) = Some id)) eqn:E;
          [| by rewrite Hid].
        apply bool_decide_eq_true in E. injection E as <-.
        destruct live; [| by rewrite Hid].
        assert (dict_get (String a k) unit_mapping = Some i) by by apply mapped.
        congruence.
    + destruct (bool_decide (Some (String a k) = Some id)) eqn:E;
        [| by rewrite Hid].
      apply bool_decide_eq_true in E. injection E as <-.
      destruct live; [| by rewrite Hid].
      assert (dict_get (String a k) unit_mapping = Some i) by by apply mapped.
      congruence.
Qed.

Lemma connect_lookup (conn : connection) (unit_ops : list element) :
  connect unit_mapping unit_ops conn !! i
  = with_children (if live && negb (String.eqb id "")
                   then ports_of_connection id conn else [])
    <$> unit_ops !! i.
Proof.
  unfold connect. rewrite !attach_lookup, <- option_fmap_compose.
  apply option_fmap_ext. intros e. simpl. rewrite with_children_app.
  f_equal. unfold ports_of_connection.
  destruct (conn_stream_id conn) as [[| b sid] |];
    [by destruct (live && _) | | by destruct (live && _)].
  destruct live, (String.eqb id ""); simpl; rewrite ?andb_false_r, ?andb_true_r;
    reflexivity.
Qed.

Lemma connections_lookup (conns : list connection) (unit_ops : list element) :
  foldl (connect unit_mapping) unit_ops conns !! i
  = with_children (if live then ports_of id conns else []) <$> unit_ops !! i.
Proof.
  revert unit_ops. induction conns as [| conn conns IH]; intros unit_ops; simpl.
  - unfold ports_of. simpl.
    replace (if live then if String.eqb id "" then [] else [] else [])
      with (@nil element) by (by destruct live, (String.eqb id "")).
    destruct (unit_ops !! i); simpl; [by rewrite with_children_nil | reflexivity].
  - rewrite IH, connect_lookup, <- option_fmap_compose.
    apply option_fmap_ext. intros e. simpl. rewrite with_children_app.
    f_equal. unfold ports_of. simpl.
    destruct live, (String.eqb id ""); reflexivity.
Qed.

End Connect.

Lemma attach_attrib (t : string) (uid sid : option string)
    (unit_mapping : list (string * nat)) (unit_ops : list element) :
  attrib <$> attach t uid sid unit_mapping unit_ops = attrib <$> unit_ops.
Proof.
  unfold attach.
  destruct uid as [[| a k] |]; try reflexivity.
  destruct sid as [[| b sid] |]; try reflexivity.
  destruct (dict_get _ unit_mapping) as [j |]; [| reflexivity].
  apply list_eq. intros n. rewrite !list_lookup_fmap, list_lookup_alter.
  destruct (decide (j = n)) as [-> |]; [| reflexivity].
  destruct (unit_ops !! n) as [[? ? ? ?] |]; reflexivity.
Qed.

Lemma connections_attrib (unit_mapping : list (string * nat))
    (conns : list connection) (unit_ops : list element) :
  attrib <$> foldl (connect unit_mapping) unit_ops conns = attrib <$> unit_ops.
Proof.
  revert unit_ops. induction conns as [| conn conns IH]; intros unit_ops; simpl;
    [reflexivity |].
  rewrite IH. unfold connect. by rewrite !attach_attrib.
Qed.

Lemma compound_elements_names (uuid4 : nat -> string) (k : nat)
    (l : list compound_entry) :
  child_text "Name" <$> compound_elements uuid4 k l = (fun e => Some (Str (ce_name e))) <$> l.
Proof.
  revert k. induction l as [| e l IH]; intros k; [reflexivity |].
  cbn [compound_elements]. rewrite !fmap_cons. f_equal. apply IH.
Qed.

Lemma last_occurrence {A : Type} `{EqDecision A} (x : A) (l : list A) :
  x ∈ l -> exists j, l !! j = Some x /\ x ∉ drop (S j) l.
Proof.
  induction l as [| y l IH]; intros Hin; [inversion Hin |].
  destruct (decide (x ∈ l)) as [Hl | Hl].
  - destruct (IH Hl) as (j & Hj & Hd). exists (S j). split; assumption.
  - apply elem_of_cons in Hin. destruct Hin as [-> | Hin]; [| contradiction].
    exists 0%nat. split; [reflexivity |]. simpl. by rewrite drop_0.
Qed.

(** X19.  [convert_design_to_dwsim] raises [KeyError('name')] when a
    compound of some stream has no name; otherwise it raises
    [KeyError('id')] when a unit operation or a stream has no id; it
    raises nothing else.  When it returns, the root [DWSIM] has the
    attribute [Version = 5.0] and five children, [SimulationInfo],
    [PropertyPackages], [Compounds], [UnitOperations] and [Streams];
    [Compounds] lists the different compound names in the order of first
    occurrence, [UnitOperations] and [Streams] have one child for each
    unit operation and each stream of the design, in order and with its
    id. *)
Theorem convert_design_spec (uuid4 : nat -> string) (d : process_design) :
  let units := default [] (unit_operations d) in
  let ss := default [] (streams d) in
  match convert_design_to_dwsim uuid4 d with
  | Raise e =>
      (e = mk_exn KeyError "name"
       /\ Exists (fun c => name c = None) (all_compounds d))
      \/ (e = mk_exn KeyError "id"
          /\ Forall (fun c => name c <> None) (all_compounds d)
          /\ (Exists (fun u => unit_id u = None) units
              \/ Exists (fun s => stream_id s = None) ss))
  | Ok model =>
      Forall (fun c => name c <> None) (all_compounds d)
      /\ Forall (fun u => unit_id u <> None) units
      /\ Forall (fun s => stream_id s <> None) ss
      /\ tag model = "DWSIM"%string
      /\ attrib model = [("Version"%string, Lit "5.0")]
      /\ tag <$> children model
         = ["SimulationInfo"; "PropertyPackages"; "Compounds"; "UnitOperations";
            "Streams"]%string
      /\ (child "SimulationInfo" model ≫= child_text "Name")
         = Some (Str (default "Agent Generated Process"%string (process_name d)))
      /\ ((child "PropertyPackages" model ≫= child "PropertyPackage")
            ≫= child_text "Name")
         = Some (Str (default "NRTL"%string (property_package d)))
      /\ exists compounds unit_ops streams,
           child "Compounds" model = Some compounds
           /\ child "UnitOperations" model = Some unit_ops
           /\ child "Streams" model = Some streams
           /\ child_text "Name" <$> children compounds
              = (fun n => Some (Str n))
                <$> first_occurrences (omap name (all_compounds d))
           /\ (fun e => dict_get "ID" (attrib e)) <$> children unit_ops
              = (fun u => Str <$> unit_id u) <$> units
           /\ (fun e => dict_get "ID" (attrib e)) <$> children streams
              = (fun s => Str <$> stream_id s) <$> ss
  end.
Proof.
  intros units ss. unfold convert_design_to_dwsim.
  pose proof (extract_compounds_result d) as Hx.
  destruct (_extract_compounds d) as [l | e]; simpl; [| left; exact Hx].
  destruct Hx as (Hnamed & Hnames & _).
  pose proof (create_units_spec units [] []) as Hu. fold units.
  destruct (create_units units [] []) as [[unit_ops unit_mapping] | e]; simpl.
  2:{ right. destruct Hu as [-> Hex]. split; [reflexivity |]. split; [exact Hnamed |].
      by left. }
  destruct Hu as ((es & -> & Hes) & _ & _). simpl in *.
  pose proof (create_streams_spec ss [] Hnamed) as Hs. fold ss.
  destruct (create_streams ss []) as [streams |e]; simpl.
  2:{ right. destruct Hs as [-> Hex]. split; [reflexivity |]. split; [exact Hnamed |].
      by right. }
  destruct Hs as (es' & -> & Hes'). simpl in *.
  assert (Hids : (fun e => dict_get "ID" (attrib e)) <$> es
                 = (fun u => Str <$> unit_id u) <$> units).
  { clear -Hes. induction Hes as [| u e us es He _ IH]; [reflexivity |].
    rewrite !fmap_cons, IH. f_equal.
    destruct (unit_id u) as [id |] eqn:Hid.
    - destruct (create_unit_operation_ok u id Hid) as (e' & He' & _ & Ha).
      rewrite He' in He. injection He as <-. rewrite Ha. reflexivity.
    - unfold _create_unit_operation in He. rewrite Hid in He. discriminate. }
  split; [exact Hnamed |].
  split.
  { clear -Hes. induction Hes as [| u e us es He _ IH]; constructor; [| exact IH].
    unfold _create_unit_operation in He. destruct (unit_id u); [congruence | discriminate]. }
  split.
  { clear -Hes'. induction Hes' as [| u e us es [He _] _ IH]; constructor;
      [exact He | exact IH]. }
  split; [reflexivity |]. split; [reflexivity |]. split; [reflexivity |].
  split; [reflexivity |]. split; [reflexivity |].
  eexists _, _, _. split; [reflexivity |]. split; [reflexivity |].
  split; [reflexivity |]. simpl.
  split; [rewrite compound_elements_names, <- Hnames, <- list_fmap_compose; reflexivity |].
  split.
  - unfold _connect_streams_to_units.
    rewrite (list_fmap_compose attrib (dict_get "ID")), connections_attrib.
    rewrite <- list_fmap_compose. exact Hids.
  - clear -Hes'. induction Hes' as [| u e us es (_ & _ & He) _ IH]; [reflexivity |].
    rewrite !fmap_cons, IH, He. reflexivity.
Qed.

(** X20.  The [Outlet] and [Inlet] elements go to the element that
    [unit_mapping] holds for an id, which is the last unit operation with
    that id: in the model returned, the child of [UnitOperations] for the
    unit at position [i] is the element made by [_create_unit_operation]
    followed by the ports of its id when no later unit has the same id,
    and without any port when a later unit has. *)
Theorem ports_go_to_last_unit (uuid4 : nat -> string) (d : process_design)
    (model : element) :
  convert_design_to_dwsim uuid4 d = Ok model ->
  exists unit_ops,
    child "UnitOperations" model = Some unit_ops
    /\ forall i u,
         default [] (unit_operations d) !! i = Some u ->
         exists id e,
           unit_id u = Some id
           /\ _create_unit_operation u = Ok e
           /\ children unit_ops !! i
              = Some (with_children
                        (if bool_decide
                              (Some id ∈ unit_id <$> drop (S i) (default [] (unit_operations d)))
                         then []
                         else ports_of id (default [] (connections d)))
                        e).
Proof.
  unfold convert_design_to_dwsim.
  destruct (_extract_compounds d) as [l | e]; simpl; [| discriminate].
  set (units := default [] (unit_operations d)).
  pose proof (create_units_spec units [] []) as Hu.
  destruct (create_units units [] []) as [[unit_ops unit_mapping] | e]; simpl;
    [| discriminate].
  destruct Hu as ((es & -> & Hes) & Hout & Hin). simpl in *.
  destruct (create_streams _ []) as [streams |e]; simpl; [| discriminate].
  intros Hm. injection Hm as <-.
  eexists. split; [reflexivity |]. simpl.
  intros i u Hi.
  destruct (Forall2_lookup_l _ _ _ _ _ Hes Hi) as (e & Hei & He).
  destruct (unit_id u) as [id |] eqn:Hid.
  2:{ unfold _create_unit_operation in He. rewrite Hid in He. discriminate. }
  exists id, e. split; [reflexivity |]. split; [exact He |].
  unfold _connect_streams_to_units.
  rewrite (connections_lookup unit_mapping i id
             (negb (bool_decide (Some id ∈ unit_id <$> drop (S i) units)))).
  - rewrite Hei. simpl. f_equal. f_equal.
    by destruct (bool_decide _).
  - intros k. split.
    + intros Hk.
      destruct (decide (Some k ∈ unit_id <$> units)) as [Hin' | Hnin].
      * destruct (last_occurrence _ _ Hin') as (j & Hj & Hd).
        rewrite list_lookup_fmap in Hj.
        destruct (units !! j) as [u' |] eqn:Hu'; [| discriminate].
        simpl in Hj. injection Hj as Hj.
        rewrite <- fmap_drop in Hd.
        rewrite (Hin k j u' Hu' Hj Hd) in Hk. simpl in Hk. injection Hk as ->.
        assert (u' = u) as -> by congruence.
        assert (k = id) as -> by congruence.
        split; [reflexivity |]. by rewrite bool_decide_eq_false_2.
      * rewrite (Hout k Hnin) in Hk. discriminate.
    + intros [-> Hlive]. apply negb_true_iff, bool_decide_eq_false in Hlive.
      by rewrite (Hin id i u Hi Hid Hlive).
Qed.

Lemma ports_go_to_last_unit_witness :
  exists model unit_ops,
    convert_design_to_dwsim (fun _ => ""%string) twin_design = Ok model
    /\ child "UnitOperations" model = Some unit_ops
    /\ children <$> children unit_ops !! 0%nat = Some []
    /\ children <$> children unit_ops !! 1%nat = Some [port "Inlet" "S1"].
Proof.
  eexists.
  destruct (ports_go_to_last_unit (fun _ => ""%string) twin_design _ eq_refl)
    as (unit_ops & Hc & Hp).
  exists unit_ops. split; [reflexivity |]. split; [exact Hc |].
  destruct (Hp 0%nat _ eq_refl) as (id0 & e0 & Hid0 & He0 & ->).
  destruct (Hp 1%nat _ eq_refl) as (id1 & e1 & Hid1 & He1 & ->).
  injection Hid0 as <-. injection He0 as <-.
  injection Hid1 as <-. injection He1 as <-.
  split; reflexivity.
Defined.

Lemma convert_design_raises (uuid4 : nat -> string) (d : process_design) (e : exn) :
  convert_design_to_dwsim uuid4 d = Raise e ->
  e = mk_exn KeyError "name" \/ e = mk_exn KeyError "id".
Proof.
  unfold convert_design_to_dwsim.
  pose proof (extract_compounds_result d) as Hx.
  destruct (_extract_compounds d) as [l | e']; simpl.
  2:{ intros H. injection H as <-. left. apply Hx. }
  destruct Hx as (Hnamed & _).
  pose proof (create_units_spec (default [] (unit_operations d)) [] []) as Hu.
  destruct (create_units _ [] []) as [[unit_ops unit_mapping] | e']; simpl.
  2:{ intros H. injection H as <-. right. apply Hu. }
  pose proof (create_streams_spec (default [] (streams d)) [] Hnamed) as Hs.
  destruct (create_streams _ []) as [streams |e']; simpl; [discriminate |].
  intros H. injection H as <-. right. apply Hs.
Qed.

(** The conversion step of [run] never passes: [save_model] is not a
    method of [ModelConverter]. *)
Lemma convert_and_save_raises (uuid4 : nat -> string) (d : process_design) :
  exists e, convert_and_save uuid4 d = Raise e /\ conversion_failure e.
Proof.
  unfold convert_and_save, conversion_failure.
  destruct (convert_design_to_dwsim uuid4 d) as [model | e] eqn:E; simpl.
  - eexists. split; [reflexivity |]. right. right. reflexivity.
  - exists e. split; [reflexivity |].
    destruct (convert_design_raises _ _ _ E) as [-> | ->]; auto.
Qed.

End Converter.

Section ConverterInTheLoop.

Implicit Types (w : world) (s : t).

Lemma iteration_conversion_error w s e :
  converted (at_iteration w (current_iteration s + 1)) = Some e ->
  (iteration w s).2 = None
  /\ best_design (iteration w s).1 = best_design s
  /\ final_report (iteration w s).1 = final_report s
  /\ current_iteration (iteration w s).1 = (current_iteration s + 1)%Z
  /\ max_iterations (iteration w s).1 = max_iterations s
  /\ exists rec,
       history (iteration w s).1 = history s ++ [rec]
       /\ ir_simulation_results_path rec = None
       /\ ir_feedback rec = conversion_error_feedback e.
Proof.
  intros Hc. unfold iteration.
  cbn [current_iteration set_current_iteration logger].
  rewrite Hc. simpl. repeat split. eexists. repeat split.
Qed.

Lemma never_converted_step w n s :
  converter_as_written w ->
  never_converted n s -> (current_iteration s < max_iterations s)%Z ->
  (iteration w s).2 = None /\ never_converted n (iteration w s).1.
Proof.
  intros Hw (Hb & Hf & Hm & Hc & Hl & Hh) Hlt.
  destruct (Hw (current_iteration s + 1)%Z) as (uuid4 & d & Hconv).
  destruct (convert_and_save_raises uuid4 d) as (e & He & Hfail).
  rewrite He in Hconv. simpl in Hconv.
  destruct (iteration_conversion_error w s e Hconv)
    as (Ho & Hb' & Hf' & Hc' & Hm' & rec & Hh' & Hp & Hfb).
  split; [exact Ho |].
  unfold never_converted. rewrite Hb', Hf', Hc', Hm', Hh'.
  split; [exact Hb |]. split; [exact Hf |]. split; [exact Hm |].
  split; [lia |].
  split; [rewrite length_app; simpl; lia |].
  apply Forall_app. split; [exact Hh |].
  constructor; [| constructor]. split; [exact Hp |]. by exists e.
Qed.

(** X21.  With the converter as it is written no iteration gets past the
    conversion: whatever the designs, every pass of [run] on a fresh
    agent records a conversion failure ([KeyError] for a compound without
    name or a unit or stream without id, and otherwise [AttributeError]
    for [save_model]), the simulator is never called, the whole budget is
    used, no design becomes the best one, and [run] ends with the
    [TypeError] of [self.best_design['iteration']] without writing a
    report. *)
Theorem run_never_simulates w c raw_materials product_specs output_dir n :
  converter_as_written w ->
  let r := run w (fresh c raw_materials product_specs output_dir n) in
  r.2 = Raises (mk_exn TypeError "'NoneType' object is not subscriptable")
  /\ best_design r.1 = None
  /\ final_report r.1 = None
  /\ current_iteration r.1 = Z.max 0 n
  /\ length (history r.1) = Z.to_nat n
  /\ Forall conversion_failed (history r.1).
Proof.
  intros Hw. cbv zeta.
  set (s0 := fresh c raw_materials product_specs output_dir n).
  set (s1 := logger INFO [Lit "Starting process design cycle"] s0).
  assert (H1 : never_converted n s1).
  { unfold never_converted. simpl. repeat split; try lia. constructor. }
  pose proof (while_loop_exit (never_converted n) w
                (fun s HP Hlt _ => proj2 (never_converted_step w n s Hw HP Hlt))
                (budget s0) s1 H1) as Hexit.
  pose proof (while_loop_enough_fuel w (budget s0) s1 (le_n _)) as Hfuel.
  rewrite run_unfold. fold s1.
  destruct (while_loop (budget s0) w s1) as [s2 [o |]]; simpl in *.
  - destruct o as [b | e |]; [| | congruence].
    + destruct Hexit as (s & HP & Hlt & Hit).
      destruct (never_converted_step w n s Hw HP Hlt) as [Hnone _].
      rewrite Hit in Hnone. discriminate.
    + destruct Hexit as (s & HP & Hlt & Hit).
      destruct (never_converted_step w n s Hw HP Hlt) as [Hnone _].
      rewrite Hit in Hnone. discriminate.
  - destruct Hexit as ((Hb & Hf & Hm & Hc & Hl & Hh) & Hge).
    unfold after_loop. cbn [best_design logger]. rewrite Hb. simpl.
    split; [reflexivity |]. split; [exact Hb |]. split; [exact Hf |].
    assert (current_iteration s2 = Z.max 0 n) as Hcur by lia.
    split; [exact Hcur |]. split; [rewrite Hl, Hcur; lia | exact Hh].
Qed.

Lemma run_never_simulates_witness :
  converter_as_written written_world
  /\ (run written_world (agent_with_budget 2)).2
     = Raises (mk_exn TypeError "'NoneType' object is not subscriptable")
  /\ length (history (run written_world (agent_with_budget 2)).1) = 2%nat.
Proof.
  assert (H : converter_as_written written_world).
  { intros i. exists (fun _ => ""%string), twin_design. reflexivity. }
  split; [exact H |].
  destruct (run_never_simulates written_world complete_config empty_document
              empty_document "output/run_20240101_000000" 2 H)
    as (Hr & _ & _ & _ & Hl & _).
  split; [exact Hr | exact Hl].
Defined.

End ConverterInTheLoop.
Section PropertyPackages.

Import ET PropertyPackageHandler.

Lemma parameters_spec (params : list interaction_parameter) (ip_elem : list element) :
  match parameters params ip_elem with
  | Ok ip_elem' =>
      Forall (fun p => missing_key p = None) params
      /\ length ip_elem' = (length ip_elem + length params)%nat
  | Raise e =>
      exists p k, List.find (fun p => bool_decide (missing_key p <> None)) params = Some p
                  /\ missing_key p = Some k
                  /\ e = mk_exn KeyError k
  end.
Proof.
  revert ip_elem. induction params as [| p params IH]; intros ip_elem; simpl.
  - split; [constructor | lia].
  - destruct p as [[c1 |] [c2 |] [v |]]; simpl;
      try (eexists _, _; split; [reflexivity |]; split; reflexivity).
    specialize (IH (ip_elem ++ [Element "Parameter"
                                  [("Compound1"%string, Str c1);
                                   ("Compound2"%string, Str c2);
                                   ("Value"%string, str v)] None []])).
    destruct (parameters params _) as [ip_elem' | e].
    + destruct IH as [Hall Hlen]. split; [by constructor |].
      rewrite Hlen, length_app. simpl. lia.
    + exact IH.
Qed.

(** X22.  [create_property_package] never names a package outside
    [supported_packages]: the [Name] of the element is the package of the
    design when [validate_property_package] accepts the design, and
    [NRTL] when it rejects it or the design names none.  Validation does
    not depend on the compounds.  The element has no child when the
    design has no [interaction_parameters] and otherwise a single
    [InteractionParameters] child with one child for each parameter, an
    empty list included; the call raises [KeyError] exactly when a
    parameter lacks [compound1], [compound2] or [value], for the first
    such key of the first such parameter. *)
Theorem create_property_package_spec (d : process_design) :
  let valid := validate_property_package (C := unit) __init__ d [] in
  (forall (C : Type) (compounds : list C),
      validate_property_package __init__ d compounds = valid)
  /\ (valid = false
      <-> exists p, property_package d = Some p /\ p ∉ supported_packages __init__)
  /\ match create_property_package __init__ d with
     | Ok e =>
         tag e = "PropertyPackage"%string
         /\ (exists n, attrib e = [("Name"%string, Str n)]
                       /\ n ∈ supported_packages __init__
                       /\ n = if valid then default "NRTL"%string (property_package d)
                              else "NRTL"%string)
         /\ match interaction_parameters d with
            | None => children e = []
            | Some params =>
                Forall (fun p => missing_key p = None) params
                /\ exists ip, children e = [ip]
                              /\ tag ip = "InteractionParameters"%string
                              /\ length (children ip) = length params
            end
     | Raise e =>
         exists params p k,
           interaction_parameters d = Some params
           /\ List.find (fun p => bool_decide (missing_key p <> None)) params = Some p
           /\ missing_key p = Some k
           /\ e = mk_exn KeyError k
     end.
Proof.
  cbv zeta. split; [reflexivity |]. split.
  - unfold validate_property_package.
    destruct (property_package d) as [p |]; cbn [default from_option id].
    + destruct (bool_decide_reflect (p ∈ supported_packages __init__)) as [Hin | Hnin].
      * split; [discriminate |]. intros (p' & Hp & Hn). congruence.
      * split; [| reflexivity]. intros _. by exists p.
    + split; [intros H; vm_compute in H; discriminate |]. intros (p & Hp & _). discriminate.
  - unfold create_property_package, validate_property_package.
    set (pp := default "NRTL"%string (property_package d)).
    assert (Hname : (if bool_decide (pp ∈ supported_packages __init__) then pp
                     else "NRTL"%string) ∈ supported_packages __init__).
    { destruct (bool_decide_reflect (pp ∈ supported_packages __init__)); [assumption |].
      simpl. left. }
    destruct (interaction_parameters d) as [params |].
    + pose proof (parameters_spec params []) as Hp.
      destruct (parameters params []) as [ip_elem | e]; simpl.
      * destruct Hp as [Hall Hlen]. split; [reflexivity |].
        split.
        { eexists. split; [reflexivity |]. split; [exact Hname |].
          by destruct (bool_decide _). }
        split; [exact Hall |]. eexists. split; [reflexivity |]. split; [reflexivity |].
        exact Hlen.
      * destruct Hp as (p & k & Hf & Hk & ->). by exists params, p, k.
    + simpl. split; [reflexivity |]. split; [| reflexivity].
      eexists. split; [reflexivity |]. split; [exact Hname |].
      by destruct (bool_decide _).
Qed.

End PropertyPackages.
Section SavedInput.

Lemma config_key_always_kept (k : string) : config_key_kept k = true.
Proof.
  unfold config_key_kept.
  destruct (String.eqb_spec k "agent") as [-> | _]; reflexivity.
Qed.

Lemma filter_all {A : Type} (f : A -> bool) (l : list A) :
  (forall x, f x = true) -> List.filter f l = l.
Proof.
  intros H. induction l as [| x l IH]; simpl; [reflexivity |].
  by rewrite H, IH.
Qed.

Lemma dict_set_keys {V : Type} (k : string) (v v' : V) (d : list (string * V)) :
  dict_get k d = Some v' -> (dict_set k v d).*1 = d.*1.
Proof.
  induction d as [| [k0 v0] d IH]; simpl; [discriminate |].
  destruct (String.eqb_spec k0 k) as [-> | Hne]; [reflexivity |].
  intros H. rewrite !fmap_cons. f_equal. by apply IH.
Qed.

Lemma dict_get_filter_key {V : Type} (k k' : string) (d : list (string * V)) :
  dict_get k (List.filter (fun kv => negb (String.eqb kv.1 k')) d)
  = if String.eqb k k' then None else dict_get k d.
Proof.
  induction d as [| [k0 v0] d IH]; simpl.
  - by destruct (String.eqb k k').
  - destruct (String.eqb_spec k0 k') as [-> | Hne]; simpl.
    + rewrite IH. destruct (String.eqb_spec k k') as [-> | Hk]; [reflexivity |].
      rewrite (proj2 (String.eqb_neq k' k)) by congruence. reflexivity.
    + rewrite IH. destruct (String.eqb_spec k0 k) as [-> | Hk].
      * rewrite (proj2 (String.eqb_neq k k')) by congruence. reflexivity.
      * reflexivity.
Qed.

Lemma saved_config_of (config : list (string * yaml)) :
  match dict_get "agent" config with
  | Some (YDict items) =>
      saved_config config (Some items)
        (dict_set "agent"
           (YDict (List.filter (fun kv => negb (String.eqb kv.1 "system_message")) items))
           config)
  | Some _ => True
  | None => saved_config config None config
  end.
Proof.
  destruct (dict_get "agent" config) as [agent |] eqn:Ha.
  - destruct agent as [| b | z | q | str | l | items | ty qty]; try exact I.
    split; [by apply dict_set_keys with (v' := YDict items) |].
    split.
    + intros k Hk. rewrite dict_get_set.
      by rewrite (proj2 (String.eqb_neq "agent" k)).
    + eexists. split; [by rewrite dict_get_set |].
      split; [by rewrite dict_get_filter_key |].
      intros k Hk. rewrite dict_get_filter_key.
      by rewrite (proj2 (String.eqb_neq k "system_message")).
  - split; [reflexivity |]. split; [reflexivity | exact Ha].
Qed.

(** X23.  [_save_input_data] dumps the raw materials and the product
    specifications as they are.  Its first filter,
    [k != "agent" or k != "system_message"], drops no key: the config that
    it means to dump has the keys of [self.config] in the same order and
    the same value under every key but ["agent"], a top-level
    ["system_message"] included; under ["agent"] it has the agent section
    without its ["system_message"] and otherwise unchanged.  When the
    value under ["agent"] is not a dict the call raises [AttributeError]
    for [.items()] and leaves [config.json] empty.  Otherwise the config
    is dumped, unless one of its values is not JSON serialisable (a date
    from the YAML file): then [json.dump] raises [TypeError] and
    [config.json] holds the beginning of a document.  A system message of
    the agent that cannot be serialised is dropped before and does no
    harm. *)
Theorem save_input_data_spec (raw_materials product_specs : json)
    (config : list (string * yaml)) :
  let r := _save_input_data raw_materials product_specs config in
  take 2 r.1 = [("raw_materials.json"%string, Document raw_materials);
                ("product_specs.json"%string, Document product_specs)]
  /\ match dict_get "agent" config with
     | Some (YDict items) =>
         exists saved,
           saved_config config (Some items) saved
           /\ match unserialisable (YDict saved) with
              | None => r.1 !! 2%nat = Some ("config.json"%string, Config saved)
                        /\ r.2 = Ok tt
              | Some type_name =>
                  r.1 !! 2%nat = Some ("config.json"%string, Partial)
                  /\ r.2 = Raise (mk_exn TypeError
                                    ("Object of type " +:+ type_name
                                       +:+ " is not JSON serializable"))
              end
     | Some agent =>
         r.1 !! 2%nat = Some ("config.json"%string, Empty)
         /\ r.2 = Raise (mk_exn AttributeError
                           ("'" +:+ yaml_type_name agent
                              +:+ "' object has no attribute 'items'"))
     | None =>
         saved_config config None config
         /\ match unserialisable (YDict config) with
            | None => r.1 !! 2%nat = Some ("config.json"%string, Config config)
                      /\ r.2 = Ok tt
            | Some type_name =>
                r.1 !! 2%nat = Some ("config.json"%string, Partial)
                /\ r.2 = Raise (mk_exn TypeError
                                  ("Object of type " +:+ type_name
                                     +:+ " is not JSON serializable"))
            end
     end
  /\ (_save_input_data raw_materials product_specs
        [("agent"%string, YDict [("system_message"%string, YOther "date" "datetime.date")])]).2
     = Ok tt
  /\ (_save_input_data raw_materials product_specs
        [("created"%string, YOther "date" "datetime.date")]).2
     = Raise (mk_exn TypeError "Object of type date is not JSON serializable").
Proof.
  cbv zeta. split; [| split; [| split; reflexivity]].
  { unfold _save_input_data.
    destruct (match dict_get "agent" _ with Some (YDict _) => _ | _ => _ end)
      as [sc | e]; [| reflexivity].
    destruct (unserialisable (YDict sc)); reflexivity. }
  pose proof (saved_config_of config) as Hs.
  unfold _save_input_data.
  rewrite (filter_all _ config) by (intros kv; apply config_key_always_kept).
  destruct (dict_get "agent" config) as [agent |] eqn:Ha.
  - destruct agent as [| b | z | q | str | l | items | ty qty];
      try (split; reflexivity).
    eexists. split; [exact Hs |].
    match goal with
    | |- context [unserialisable ?v] => destruct (unserialisable v)
    end; split; reflexivity.
  - split; [exact Hs |].
    destruct (unserialisable (YDict config)); split; reflexivity.
Qed.

End SavedInput.
Section MainProgram.

Implicit Types (env : Main.environment) (a : Main.args) (c : Main.loaded).

Ltac step_construct :=
  match goal with
  | |- exists e, Raise ?x = Raise e => exists x; reflexivity
  | |- context [may_raise ?o] => destruct o; simpl
  | |- context [Main.section ?others ?k ?o] =>
      unfold Main.section at 1; destruct (dict_get k others); simpl
  | |- context [subscript _ ?o] => destruct o; simpl
  | |- context [DWSIMSimulator._validate_dwsim_installation ?h ?p] =>
      destruct (DWSIMSimulator._validate_dwsim_installation h p); simpl
  end.

Lemma construct_never_returns (h : host) c (rm ps : document) (out : string) :
  exists e, Main.construct h c rm ps out = Raise e.
Proof.
  destruct c as [config others | ty];
    unfold Main.construct, OpenAIModelManager.__init__, DWSIMSimulator.__init__;
    repeat step_construct.
Qed.

Lemma design_logs_error env a c rm ps log :
  exists e,
    Main.construct (Main.agent_host env) c rm ps (Main.output_dir a) = Raise e
    /\ Main.design env a c rm ps log
       = log ++ [(ERROR, [Lit "Error during process design: "; Str (exn_msg e)])].
Proof.
  destruct (construct_never_returns (Main.agent_host env) c rm ps (Main.output_dir a))
    as [e He].
  exists e. split; [exact He |]. unfold Main.design. by rewrite He.
Qed.

Lemma load_and_design_logs_error env a c log :
  ~ agent_ran log ->
  ~ agent_ran (Main.load_and_design env a c log)
  /\ exists entry, last (Main.load_and_design env a c log) = Some entry
                   /\ main_error entry.
Proof.
  intros Hlog. unfold Main.load_and_design.
  destruct (Main.raw_materials_file env) as [rm | e]; cbn -[Main.design].
  2:{ split.
      - unfold agent_ran. rewrite !elem_of_app, !list_elem_of_singleton.
        intros [[H | H] | [H | H]]; try discriminate; apply Hlog; [by left | by right].
      - eexists. rewrite last_snoc. split; [reflexivity |]. eexists. right. left.
        reflexivity. }
  destruct (Main.product_specs_file env) as [ps | e]; cbn -[Main.design].
  2:{ split.
      - unfold agent_ran. rewrite !elem_of_app, !list_elem_of_singleton.
        intros [[H | H] | [H | H]]; try discriminate; apply Hlog; [by left | by right].
      - eexists. rewrite last_snoc. split; [reflexivity |]. eexists. right. left.
        reflexivity. }
  match goal with
  | |- context [Main.design env a c rm ps ?l] => set (log' := l)
  end.
  destruct (design_logs_error env a c rm ps log') as (e & _ & He).
  rewrite He. subst log'.
  split.
  - unfold agent_ran. rewrite !elem_of_app, !list_elem_of_singleton.
    intros [[[H | H] | H] | [[H | H] | H]]; try discriminate;
      apply Hlog; [by left | by right].
  - eexists. rewrite last_snoc. split; [reflexivity |]. eexists. right. right.
    reflexivity.
Qed.

Lemma snoc_info_not_ran (l : list (level * text)) (m : text) :
  ~ agent_ran l -> (forall s, m <> [Lit s]) -> ~ agent_ran (l ++ [(INFO, m)]).
Proof.
  intros Hl Hm. unfold agent_ran.
  rewrite !elem_of_app, !list_elem_of_singleton.
  intros [[H | H] | [H | H]]; try discriminate;
    try (apply Hl; (by left) || (by right)).
  injection H as H. symmetry in H. by apply Hm in H.
Qed.

Lemma overrides_log a c log :
  ~ agent_ran log -> ~ agent_ran (Main.overrides a c log).1.
Proof.
  intros Hlog. unfold Main.overrides.
  assert (Hmax : forall c' l, ~ agent_ran l ->
            ~ agent_ran
                (match Main.max_iterations a with
                 | Some value =>
                     if (value =? 0)%Z then (l, Ok c')
                     else
                       match Main.set_max_iterations value c' with
                       | Raise e => (l, Raise e)
                       | Ok config =>
                           (l ++ [(INFO,
                                   [Lit "Using max iterations from command line: ";
                                    Int value])], Ok config)
                       end
                 | None => (l, Ok c')
                 end).1).
  { intros c' l Hl. destruct (Main.max_iterations a) as [z |]; [| exact Hl].
    destruct (z =? 0)%Z; [exact Hl |].
    destruct (Main.set_max_iterations z c'); simpl; [| exact Hl].
    apply snoc_info_not_ran; [exact Hl | discriminate]. }
  destruct (Main.property_package a) as [[| ch v] |]; try (by apply Hmax).
  destruct (Main.set_property_package (String ch v) c) as [c' | e]; simpl;
    [| exact Hlog].
  apply Hmax. apply snoc_info_not_ran; [exact Hlog | discriminate].
Qed.

(** X24.  [main] never gets to the end of a design run: the constructor
    of the agent raises for every configuration, so neither the success
    message nor the message of an unsuccessful run is ever logged, and
    whenever [main] returns, the last message it has logged is one of its
    three errors (loading the configuration, loading the input data,
    during process design). *)
Theorem main_ends_with_an_error env a :
  ~ agent_ran (Main.main env a).1
  /\ ((Main.main env a).2 = Main.Returned ->
      exists entry, last (Main.main env a).1 = Some entry /\ main_error entry).
Proof.
  unfold Main.main.
  assert (H0 : ~ agent_ran [(INFO, [Lit "Starting Chemical Process Design Agent"])]).
  { unfold agent_ran. rewrite !list_elem_of_singleton. intros [H | H]; discriminate. }
  assert (H1 : ~ agent_ran
                 [(INFO, [Lit "Starting Chemical Process Design Agent"]);
                  (INFO, [Lit "Created output directory: "; Str (Main.output_dir a)])]).
  { unfold agent_ran. rewrite !elem_of_cons, !elem_of_nil.
    intros [[H | [H | []]] | [H | [H | []]]]; discriminate. }
  assert (Hgo : forall log, ~ agent_ran log ->
            let r :=
              match Main.config_file env with
              | Ok config =>
                  let '(log0, r) :=
                    Main.overrides a config
                      (log ++ [(INFO, [Lit "Loaded configuration from ";
                                       Str (Main.config a)])]) in
                  match r with
                  | Ok config0 => (Main.load_and_design env a config0 log0, Main.Returned)
                  | Raise e => (log0, Main.Escaped e)
                  end
              | Raise e =>
                  (log ++ [(ERROR, [Lit "Error loading configuration: ";
                                    Str (exn_msg e)])], Main.Returned)
              end in
            ~ agent_ran r.1
            /\ (r.2 = Main.Returned ->
                exists entry, last r.1 = Some entry /\ main_error entry)).
  { intros log Hlog. cbv zeta.
    destruct (Main.config_file env) as [c | e]; simpl.
    - assert (Hl : ~ agent_ran (log ++ [(INFO, [Lit "Loaded configuration from ";
                                                Str (Main.config a)])])).
      { unfold agent_ran. rewrite !elem_of_app, !list_elem_of_singleton.
        intros [[H | H] | [H | H]]; try discriminate; apply Hlog; [by left | by right]. }
      pose proof (overrides_log a c _ Hl) as Ho.
      destruct (Main.overrides a c _) as [log0 [c0 | e]]; simpl in *.
      + destruct (load_and_design_logs_error env a c0 log0 Ho) as [Hn Hlast].
        split; [exact Hn | intros _; exact Hlast].
      + split; [exact Ho | discriminate].
    - split.
      + unfold agent_ran. rewrite !elem_of_app, !list_elem_of_singleton.
        intros [[H | H] | [H | H]]; try discriminate; apply Hlog; [by left | by right].
      + intros _. eexists. rewrite last_snoc. split; [reflexivity |].
        eexists. left. reflexivity. }
  cbv zeta.
  destruct (Main.output_dir_exists env); simpl.
  - apply (Hgo _ H0).
  - destruct (Main.make_output_dir env) as [e |]; simpl.
    + split; [exact H0 | discriminate].
    + apply (Hgo _ H1).
Qed.

Lemma set_property_package_result (value : string) c :
  match Main.set_property_package value c with
  | Ok c' =>
      assignment_passes "dwsim" Config.dwsim c
      /\ (forall e, assignment_raises "agent" Config.agent c' e
                    <-> assignment_raises "agent" Config.agent c e)
      /\ (assignment_passes "agent" Config.agent c'
          <-> assignment_passes "agent" Config.agent c)
  | Raise e =>
      ~ assignment_passes "dwsim" Config.dwsim c
      /\ forall e', assignment_raises "dwsim" Config.dwsim c e' <-> e' = e
  end.
Proof.
  destruct c as [config others | ty]; simpl.
  - destruct (dict_get "dwsim" others) as [t |] eqn:Hd; simpl.
    + split; [by intros [? _] |]. intros e'. reflexivity.
    + destruct (Config.dwsim config) as [d |] eqn:Hc; simpl.
      * split; [split; [reflexivity | discriminate] |].
        split; [intros e |]; reflexivity.
      * split; [by intros [_ ?] |].
        intros e'. split; [by intros [_ ?] | by intros ->].
  - split; [by intros ? |]. intros e'. reflexivity.
Qed.

Lemma set_max_iterations_result (value : Z) c :
  match Main.set_max_iterations value c with
  | Ok c' => assignment_passes "agent" Config.agent c
  | Raise e =>
      ~ assignment_passes "agent" Config.agent c
      /\ forall e', assignment_raises "agent" Config.agent c e' <-> e' = e
  end.
Proof.
  destruct c as [config others | ty]; simpl.
  - destruct (dict_get "agent" others) as [t |] eqn:Hd; simpl.
    + split; [by intros [? _] |]. intros e'. reflexivity.
    + destruct (Config.agent config) as [d |] eqn:Hc; simpl.
      * split; congruence.
      * split; [by intros [_ ?] |].
        intros e'. split; [by intros [_ ?] | by intros ->].
  - split; [by intros ? |]. intros e'. reflexivity.
Qed.

Lemma passes_not_raises {V : Type} (name : string) (held : Config.t -> option V) c e :
  assignment_passes name held c -> ~ assignment_raises name held c e.
Proof.
  destruct c as [config others | ty]; simpl; [| done].
  intros [-> Hh] [Hn _]. done.
Qed.

Lemma overrides_raises a c log (e : exn) :
  (Main.overrides a c log).2 = Raise e
  <-> (package_given a = true /\ assignment_raises "dwsim" Config.dwsim c e)
      \/ ((package_given a = false \/ assignment_passes "dwsim" Config.dwsim c)
          /\ iterations_given a = true
          /\ assignment_raises "agent" Config.agent c e).
Proof.
  assert (Hmax : forall c' l,
            (match Main.max_iterations a with
             | Some value =>
                 if (value =? 0)%Z then (l, Ok c')
                 else
                   match Main.set_max_iterations value c' with
                   | Raise e => (l, Raise e)
                   | Ok config =>
                       (l ++ [(INFO,
                               [Lit "Using max iterations from command line: ";
                                Int value])], Ok config)
                   end
             | None => (l, Ok c')
             end).2 = Raise e
            <-> iterations_given a = true
                /\ assignment_raises "agent" Config.agent c' e).
  { intros c' l. unfold iterations_given.
    destruct (Main.max_iterations a) as [z |]; simpl;
      [| split; [discriminate | by intros [? _]]].
    destruct (z =? 0)%Z; simpl; [split; [discriminate | by intros [? _]] |].
    pose proof (set_max_iterations_result z c') as Hr.
    destruct (Main.set_max_iterations z c') as [c'' | e0]; simpl.
    - split; [discriminate |]. intros [_ H].
      by apply (passes_not_raises _ _ _ _ Hr) in H.
    - destruct Hr as [_ Hr]. split.
      + intros H. injection H as ->. split; [done | by apply Hr].
      + intros [_ H]. apply Hr in H. by subst. }
  unfold Main.overrides, package_given.
  destruct (Main.property_package a) as [[| ch v] |].
  - rewrite Hmax. split.
    + intros H. right. split; [by left | exact H].
    + intros [[H _] | [_ H]]; [discriminate | exact H].
  - pose proof (set_property_package_result (String ch v) c) as Hr.
    destruct (Main.set_property_package (String ch v) c) as [c' | e0];
      simpl.
    + destruct Hr as (Hp & Hra & Hpa). rewrite Hmax, Hra. split.
      * intros H. right. split; [by right | exact H].
      * intros [[_ H] | [_ H]]; [| exact H].
        by apply (passes_not_raises _ _ _ _ Hp) in H.
    + destruct Hr as [Hn Hr]. simpl. split.
      * intros H. injection H as ->. left. split; [done | by apply Hr].
      * intros [[_ H] | [[H | H] _]]; [| discriminate | done].
        apply Hr in H. by subst.
  - rewrite Hmax. split.
    + intros H. right. split; [by left | exact H].
    + intros [[H _] | [_ H]]; [discriminate | exact H].
Qed.

(** X25.  An exception escapes [main] in two places only.  [os.makedirs]
    fails for a missing output directory.  Or an override of the
    configuration by the command line fails, for a non-empty
    [--property-package] on the section [dwsim], or else for a non-zero
    [--max-iterations] on the section [agent]: with [TypeError] when the
    file did not hold a mapping (an empty file gives [None]) or when the
    section is not a mapping (a section left empty is [None]), and with
    [KeyError] when the mapping has no such section.  With
    [--max-iterations 5] an empty configuration file ends [main] with
    ['NoneType' object is not subscriptable], and without overrides the
    same file is reported as an error during process design.  An empty
    package name and [--max-iterations 0] are treated as absent, so the
    command line cannot set a budget of zero.  For a mapping whose
    sections are mappings the agent is constructed by
    [ProcessDesignerAgent.__init__]. *)
Theorem main_escapes env a (e : exn) :
  ((Main.main env a).2 = Main.Escaped e
   <-> (Main.output_dir_exists env = false /\ Main.make_output_dir env = Some e)
       \/ ((Main.output_dir_exists env = true \/ Main.make_output_dir env = None)
           /\ exists c,
                Main.config_file env = Ok c
                /\ ((package_given a = true
                     /\ assignment_raises "dwsim" Config.dwsim c e)
                    \/ ((package_given a = false
                         \/ assignment_passes "dwsim" Config.dwsim c)
                        /\ iterations_given a = true
                        /\ assignment_raises "agent" Config.agent c e))))
  /\ (Main.main (environment_with (Main.NotAMapping "NoneType")) five_iterations).2
     = Main.Escaped (mk_exn TypeError "'NoneType' object is not subscriptable")
  /\ Main.main (environment_with (Main.NotAMapping "NoneType"))
       (effective {| Main.raw_materials := "raw_materials.json";
                     Main.product_specs := "product_specs.json";
                     Main.config := "config.yaml";
                     Main.output_dir := "output";
                     Main.property_package := Some ""%string;
                     Main.max_iterations := Some 0%Z;
                     Main.verbose := false |})
     = ([(INFO, [Lit "Starting Chemical Process Design Agent"]);
         (INFO, [Lit "Loaded configuration from "; Str "config.yaml"]);
         (INFO, [Lit "Loaded "; Int 0; Lit " raw materials and "; Int 0;
                 Lit " product specifications"]);
         (ERROR, [Lit "Error during process design: ";
                  Str "'NoneType' object is not subscriptable"])],
        Main.Returned)
  /\ Main.main env a = Main.main env (effective a)
  /\ (forall (h : host) (config : Config.t) (rm ps : document) (out : string),
        Main.construct h (Main.Mapping config []) rm ps out
        = __init__ h config rm ps out).
Proof.
  split; [| split; [reflexivity | split; [reflexivity | split; [| reflexivity]]]].
  - assert (Hgo : forall log,
              (match Main.config_file env with
               | Ok config =>
                   let '(log0, r) :=
                     Main.overrides a config
                       (log ++ [(INFO, [Lit "Loaded configuration from ";
                                        Str (Main.config a)])]) in
                   match r with
                   | Ok config0 =>
                       (Main.load_and_design env a config0 log0, Main.Returned)
                   | Raise e => (log0, Main.Escaped e)
                   end
               | Raise e =>
                   (log ++ [(ERROR, [Lit "Error loading configuration: ";
                                     Str (exn_msg e)])], Main.Returned)
               end).2 = Main.Escaped e
              <-> exists c,
                    Main.config_file env = Ok c
                    /\ ((package_given a = true
                         /\ assignment_raises "dwsim" Config.dwsim c e)
                        \/ ((package_given a = false
                             \/ assignment_passes "dwsim" Config.dwsim c)
                            /\ iterations_given a = true
                            /\ assignment_raises "agent" Config.agent c e))).
    { intros log. destruct (Main.config_file env) as [c | e1]; simpl.
      - pose proof (overrides_raises a c
                      (log ++ [(INFO, [Lit "Loaded configuration from ";
                                       Str (Main.config a)])]) e) as Ho.
        destruct (Main.overrides a c _) as [log0 [c0 | e0]]; simpl in *.
        + split; [discriminate |]. intros (c' & Hc & H). injection Hc as <-.
          apply Ho in H. discriminate.
        + split.
          * intros H. injection H as ->. exists c. split; [reflexivity |].
            by apply Ho.
          * intros (c' & Hc & H). injection Hc as <-. apply Ho in H. congruence.
      - split; [discriminate |]. intros (c & Hc & _). discriminate. }
    unfold Main.main. cbv zeta.
    destruct (Main.output_dir_exists env).
    + etransitivity;
        [exact (Hgo [(INFO, [Lit "Starting Chemical Process Design Agent"])]) |].
      split.
      * intros H. right. split; [by left | exact H].
      * intros [[H _] | [_ H]]; [discriminate | exact H].
    + destruct (Main.make_output_dir env) as [e0 |].
      * simpl. split.
        -- intros H. injection H as ->. by left.
        -- intros [[_ H] | [[H | H] _]]; [congruence | discriminate | discriminate].
      * etransitivity;
          [exact (Hgo [(INFO, [Lit "Starting Chemical Process Design Agent"]);
                       (INFO, [Lit "Created output directory: ";
                               Str (Main.output_dir a)])]) |].
        split.
        -- intros H. right. split; [by right | exact H].
        -- intros [[_ H] | [_ H]]; [discriminate | exact H].
  - unfold Main.main, Main.overrides, effective, package_given, iterations_given.
    cbv zeta. simpl.
    destruct (Main.property_package a) as [[| ch v] |];
      destruct (Main.max_iterations a) as [z |]; simpl;
      try (destruct (z =? 0)%Z eqn:Hz; simpl; rewrite ?Hz); reflexivity.
Qed.

End MainProgram.
